(** * VATFix Plus: the validation fallback engine and the windowed usage meter

    A shallow embedding of
      - [src/validate.js]      (AWS SDK v3 validator: [cacheKey], [getJSON],
                                [putJSON], [getCached], [setCached],
                                [normalizeRequestDate], [checkVAT])
      - [src/lib/validate.js]  (the older "lookup.js" drop-in: [validateVAT])
      - [src/meter.js]         (AWS SDK v3 meter: [meterAndCheck])
      - [src/lib/meter.js]     (the older meter: [meterAndCheck])
    together with the properties the specification states about them.

    Conventions of the embedding.
      - JavaScript strings are [string]; the model covers 7-bit ASCII code
        units (country codes, VAT numbers and ISO timestamps are ASCII).
      - JavaScript numbers are doubles; the model holds the integers among
        them, as [Z], and NaN. A counter that is raised is rounded as a
        double is ([double]); times are milliseconds since the epoch, within
        the range of a [Date], where integer arithmetic is exact.
      - [String(v)], template literals, [Number(v)] and [new Date(v)] throw
        a TypeError on an object that has no primitive value, such as the
        parsed JSON text [{"toString":1}]: these conversions are partial
        ([None]), and the code that makes them throws.
      - Objects are association lists in property order.
      - The S3 bucket is a [gmap] from object keys to the JSON documents
        stored under them.
      - [async] functions are computations in a state-and-exception monad
        over the outside world (bucket, clock, S3 availability, VIES). *)

From Stdlib Require Import ZArith String Ascii List Lia Bool DecimalString.
From stdpp Require Import base option gmap strings.
Import ListNotations.

Set Warnings "-register-all".

Local Open Scope string_scope.
Local Open Scope Z_scope.

(** ** JavaScript strings *)

Module JsString.

Definition code (c : ascii) : Z := Z.of_N (N_of_ascii c).
Definition char (z : Z) : ascii := ascii_of_N (Z.to_N z).

(** [\s] restricted to ASCII: TAB, LF, VT, FF, CR, SPACE. *)
Definition is_space (c : ascii) : bool :=
  let n := code c in ((9 <=? n) && (n <=? 13)) || (n =? 32).

(** [\d] *)
Definition is_digit (c : ascii) : bool :=
  let n := code c in (48 <=? n) && (n <=? 57).

Definition upper_char (c : ascii) : ascii :=
  let n := code c in
  if (97 <=? n) && (n <=? 122) then char (n - 32) else c.

(** [s.toUpperCase()] *)
Fixpoint toUpperCase (s : string) : string :=
  match s with
  | EmptyString => EmptyString
  | String c r => String (upper_char c) (toUpperCase r)
  end.

Fixpoint trimStart (s : string) : string :=
  match s with
  | EmptyString => EmptyString
  | String c r => if is_space c then trimStart r else s
  end.

Fixpoint trimEnd (s : string) : string :=
  match s with
  | EmptyString => EmptyString
  | String c r =>
      match trimEnd r with
      | EmptyString => if is_space c then EmptyString else String c EmptyString
      | r' => String c r'
      end
  end.

(** [s.trim()] *)
Definition trim (s : string) : string := trimEnd (trimStart s).

(** [s.replace(/\s+/g, '')] *)
Fixpoint strip_spaces (s : string) : string :=
  match s with
  | EmptyString => EmptyString
  | String c r =>
      if is_space c then strip_spaces r else String c (strip_spaces r)
  end.

(** [s.replace(/[:]/g, '-')] *)
Fixpoint colons_to_dashes (s : string) : string :=
  match s with
  | EmptyString => EmptyString
  | String c r =>
      String (if code c =? 58 then char 45 else c) (colons_to_dashes r)
  end.

(** [s.slice(0, n)] for [0 <= n] *)
Fixpoint slice0 (n : nat) (s : string) : string :=
  match n, s with
  | S k, String c r => String c (slice0 k r)
  | _, _ => EmptyString
  end.

(** [String(n)] for an integer [n] below [10^21] in magnitude, where
    JavaScript prints all digits. *)
Definition of_Z (n : Z) : string := NilZero.string_of_int (Z.to_int n).

Definition digit36 (d : Z) : ascii :=
  if d <? 10 then char (48 + d) else char (87 + d).

Fixpoint radix36 (fuel : nat) (n : Z) (acc : string) : string :=
  match fuel with
  | O => acc
  | S f =>
      let acc' := String (digit36 (n mod 36)) acc in
      if n / 36 =? 0 then acc' else radix36 f (n / 36) acc'
  end.

(** [n.toString(36)] for an integer [n]. *)
Definition toString36 (n : Z) : string :=
  let body := radix36 (S (Z.to_nat (Z.log2 (Z.abs n)))) (Z.abs n) "" in
  if n <? 0 then "-" +:+ body else body.

(** [s.replace(/(\+\d{2}):?(\d{2})$/, '$1$2')]: a trailing [+hh:mm] loses
    its colon; a trailing [+hhmm] is rewritten to itself. *)
Definition is_offset_colon (s : string) : bool :=
  match s with
  | String p (String a (String b (String k (String c (String d EmptyString))))) =>
      (code p =? 43) && is_digit a && is_digit b && (code k =? 58)
      && is_digit c && is_digit d
  | _ => false
  end.

Fixpoint fix_offset (s : string) : string :=
  if is_offset_colon s then
    match s with
    | String p (String a (String b (String _ r))) => String p (String a (String b r))
    | _ => s
    end
  else
    match s with
    | EmptyString => EmptyString
    | String c r => String c (fix_offset r)
    end.

End JsString.

Import JsString.

(** ** JavaScript numbers: integers as doubles *)

Module JsNumber.

(** Up to [2^53] in magnitude every integer is a double. *)
Definition two53 : Z := 9007199254740992.

(** The double nearest to the integer [n] (ties to the even significand),
    for [n] below [2^1024] in magnitude. *)
Definition double (n : Z) : Z :=
  let a := Z.abs n in
  if a <=? two53 then n
  else
    let ulp := 2 ^ (Z.log2 a - 52) in
    let m := a / ulp in
    let r := a mod ulp in
    let m' :=
      if 2 * r <? ulp then m
      else if ulp <? 2 * r then m + 1
      else if Z.even m then m else m + 1 in
    Z.sgn n * (m' * ulp).

End JsNumber.

Import JsNumber.

(** ** JavaScript dates: time values and [Date.prototype.toISOString] *)

Module JsDate.

(** The largest time value a [Date] can hold (ECMAScript TimeClip). *)
Definition max_time : Z := 8640000000000000.

Definition valid_time (t : Z) : bool := Z.abs t <=? max_time.

(** A [Date] object holds a time value or NaN ([None]). *)
Definition TimeClip (t : Z) : option Z :=
  if valid_time t then Some t else None.

Definition ms_per_day : Z := 86400000.

(** Proleptic Gregorian date (year, month, day) of a day number counted
    from 1970-01-01. *)
Definition civil_from_days (days : Z) : Z * Z * Z :=
  let z := days + 719468 in
  let era := z / 146097 in
  let doe := z mod 146097 in
  let yoe := (doe - doe / 1460 + doe / 36524 - doe / 146096) / 365 in
  let doy := doe - (365 * yoe + yoe / 4 - yoe / 100) in
  let mp := (5 * doy + 2) / 153 in
  let d := doy - (153 * mp + 2) / 5 + 1 in
  let m := if mp <? 10 then mp + 3 else mp - 9 in
  let y := yoe + era * 400 + (if m <=? 2 then 1 else 0) in
  (y, m, d).

(** The [k] least significant decimal digits of [n], zero padded. *)
Fixpoint digits (k : nat) (n : Z) (acc : string) : string :=
  match k with
  | O => acc
  | S k' => digits k' (n / 10) (String (char (48 + n mod 10)) acc)
  end.

Definition year_string (y : Z) : string :=
  if (0 <=? y) && (y <=? 9999) then digits 4 y ""
  else String (char (if y <? 0 then 45 else 43)) (digits 6 (Z.abs y) "").

(** [new Date(t).toISOString()] for a valid time value [t]. *)
Definition iso_string (t : Z) : string :=
  let '(y, m, d) := civil_from_days (t / ms_per_day) in
  let r := t mod ms_per_day in
  year_string y +:+ "-" +:+ digits 2 m "" +:+ "-" +:+ digits 2 d ""
    +:+ "T" +:+ digits 2 (r / 3600000) ""
    +:+ ":" +:+ digits 2 (r / 60000 mod 60) ""
    +:+ ":" +:+ digits 2 (r / 1000 mod 60) ""
    +:+ "." +:+ digits 3 (r mod 1000) "" +:+ "Z".

(** *** Recognising an ISO-8601 instant in the [toISOString] format *)

Definition digit_val (c : ascii) : option Z :=
  if is_digit c then Some (code c - 48) else None.

Fixpoint number_of (s : string) (acc : Z) : option Z :=
  match s with
  | EmptyString => Some acc
  | String c r =>
      match digit_val c with
      | Some d => number_of r (10 * acc + d)
      | None => None
      end
  end.

Definition field (s : string) (lo hi : Z) : bool :=
  match number_of s 0 with
  | Some n => (lo <=? n) && (n <=? hi)
  | None => false
  end.

(** [-MM-DDTHH:mm:ss.sssZ]: what follows the year. *)
Definition is_iso_tail (s : string) : bool :=
  match s with
  | String h1 (String m1 (String m2 (String h2 (String d1 (String d2
    (String t (String H1 (String H2 (String c1 (String M1 (String M2
    (String c2 (String S1 (String S2 (String p (String f1 (String f2
    (String f3 (String z EmptyString))))))))))))))))))) =>
      (code h1 =? 45) && field (String m1 (String m2 "")) 1 12
      && (code h2 =? 45) && field (String d1 (String d2 "")) 1 31
      && (code t =? 84) && field (String H1 (String H2 "")) 0 23
      && (code c1 =? 58) && field (String M1 (String M2 "")) 0 59
      && (code c2 =? 58) && field (String S1 (String S2 "")) 0 59
      && (code p =? 46) && field (String f1 (String f2 (String f3 ""))) 0 999
      && (code z =? 90)
  | _ => false
  end.

(** A well-formed instant: a four-digit year, or a sign and a six-digit
    year, followed by [-MM-DDTHH:mm:ss.sssZ] with every field in range. *)
Definition is_iso_instant (s : string) : bool :=
  match s with
  | String y1 (String y2 (String y3 (String y4 r))) =>
      if is_digit y1 then
        is_digit y2 && is_digit y3 && is_digit y4 && is_iso_tail r
      else
        match r with
        | String y5 (String y6 (String y7 r')) =>
            ((code y1 =? 43) || (code y1 =? 45))
            && is_digit y2 && is_digit y3 && is_digit y4
            && is_digit y5 && is_digit y6 && is_digit y7 && is_iso_tail r'
        | _ => false
        end
  | _ => false
  end.

End JsDate.

Import JsDate.

(** ** JavaScript values *)

Inductive value : Type :=
| VUndefined
| VNull
| VBool (b : bool)
| VNum (n : Z)
| VNaN
| VStr (s : string)
| VDate (t : option Z)                    (* a Date object; [None] is an invalid date *)
| VArr (items : list value)
| VObj (fields : list (string * value)).  (* own enumerable properties, in order *)

(** What the JavaScript engine decides and the model does not compute:
    date parsing of arbitrary strings, the local-time rendering of a date,
    and the numeric value of a string. [None] is NaN. *)
Class Host : Type := {
  Date_parse : string -> option Z;
  Date_toString : Z -> string;
  StringToNumber : string -> option Z;
}.

Module Js.
Section WithHost.
Context {host : Host}.

(** Property lookup in an association list: the first binding wins. *)
Fixpoint assoc (k : string) (f : list (string * value)) : option value :=
  match f with
  | [] => None
  | (k', x) :: r => if String.eqb k k' then Some x else assoc k r
  end.

(** Truthiness ([!!v]). *)
Definition truthy (v : value) : bool :=
  match v with
  | VUndefined | VNull | VNaN => false
  | VBool b => b
  | VNum n => negb (n =? 0)
  | VStr s => negb (String.eqb s "")
  | VDate _ | VArr _ | VObj _ => true
  end.

(** [a || b] *)
Definition or_else (a b : value) : value := if truthy a then a else b.

(** [String(v)], also the coercion of template literals; [None] when it
    throws a TypeError. The values of the model hold no functions, so an
    object with a property [toString] of its own has no callable
    [toString], and its inherited [valueOf] returns the object itself:
    ToPrimitive fails. Without such a property [Object.prototype.toString]
    answers. An array joins the strings of its elements, and fails when one
    of them does. *)
Fixpoint to_string (v : value) : option string :=
  match v with
  | VUndefined => Some "undefined"
  | VNull => Some "null"
  | VBool true => Some "true"
  | VBool false => Some "false"
  | VNum n => Some (of_Z n)
  | VNaN => Some "NaN"
  | VStr s => Some s
  | VDate (Some t) => Some (Date_toString t)
  | VDate None => Some "Invalid Date"
  | VArr l =>
      (fix join (l : list value) : option string :=
         match l with
         | [] => Some ""
         | x :: r =>
             match (match x with
                    | VUndefined | VNull => Some ""
                    | _ => to_string x
                    end) with
             | None => None
             | Some sx =>
                 match r with
                 | [] => Some sx
                 | _ =>
                     match join r with
                     | None => None
                     | Some sr => Some (sx +:+ "," +:+ sr)
                     end
                 end
             end
         end) l
  | VObj f =>
      match assoc "toString" f with
      | Some _ => None
      | None => Some "[object Object]"
      end
  end.

(** [Number(v)]: [None] when it throws a TypeError, [Some None] is NaN. An
    object or an array is converted through its string. *)
Definition to_number (v : value) : option (option Z) :=
  match v with
  | VUndefined | VNaN => Some None
  | VNull => Some (Some 0)
  | VBool b => Some (Some (if b then 1 else 0))
  | VNum n => Some (Some n)
  | VStr s => Some (StringToNumber s)
  | VDate t => Some t
  | VArr _ | VObj _ =>
      match to_string v with
      | Some s => Some (StringToNumber s)
      | None => None
      end
  end.

Definition of_number (n : option Z) : value :=
  match n with Some z => VNum z | None => VNaN end.

(** The time value of [new Date(v)]: [None] when the constructor throws a
    TypeError, [Some None] is an invalid date. *)
Definition new_Date (v : value) : option (option Z) :=
  match v with
  | VDate t => Some t
  | VStr s => Some (t ← Date_parse s; TimeClip t)
  | VArr _ | VObj _ =>
      match to_string v with
      | Some s => Some (t ← Date_parse s; TimeClip t)
      | None => None
      end
  | _ =>
      match to_number v with
      | Some n => Some (t ← n; TimeClip t)
      | None => None
      end
  end.

(** [v.k] for a [v] that is neither [null] nor [undefined]. None of the
    property names read in this program ([countryCode], [valid], [count],
    [message], ...) exists on a primitive, an array or a date. *)
Definition prop (v : value) (k : string) : value :=
  match v with
  | VObj f => default VUndefined (assoc k f)
  | _ => VUndefined
  end.

(** [o.k = x] on an association list: overwrite in place or append. *)
Fixpoint set_prop (k : string) (x : value) (f : list (string * value))
  : list (string * value) :=
  match f with
  | [] => [(k, x)]
  | (k', y) :: r =>
      if String.eqb k k' then (k', x) :: r else (k', y) :: set_prop k x r
  end.

Fixpoint indexed (i : Z) (l : list value) : list (string * value) :=
  match l with
  | [] => []
  | x :: r => (of_Z i, x) :: indexed (i + 1) r
  end.

Fixpoint chars (s : string) : list value :=
  match s with
  | EmptyString => []
  | String c r => VStr (String c EmptyString) :: chars r
  end.

(** The own enumerable properties copied by [{...v}]. *)
Definition own_props (v : value) : list (string * value) :=
  match v with
  | VObj f => f
  | VArr l => indexed 0 l
  | VStr s => indexed 0 (chars s)
  | _ => []
  end.

(** [{...v, k1: x1, ..., kn: xn}] *)
Definition spread (v : value) (more : list (string * value)) : value :=
  VObj (fold_left (fun f kx => set_prop (fst kx) (snd kx) f) more (own_props v)).

(** [JSON.parse(JSON.stringify(v))]: what is read back after [v] was
    stored. Undefined properties are dropped, NaN and invalid dates turn
    into [null], dates into their ISO string. *)
Fixpoint json (v : value) : value :=
  match v with
  | VNaN | VDate None => VNull
  | VDate (Some t) => VStr (iso_string t)
  | VArr l =>
      VArr (map (fun x => match x with VUndefined => VNull | _ => json x end) l)
  | VObj f =>
      VObj ((fix go (f : list (string * value)) : list (string * value) :=
               match f with
               | [] => []
               | (k, VUndefined) :: r => go r
               | (k, x) :: r => (k, json x) :: go r
               end) f)
  | _ => v
  end.

(** An [Error] with the given message, as far as this program looks at
    it: only [err.message] is ever read. *)
Definition js_error (name msg : string) : value :=
  VObj [("name", VStr name); ("message", VStr msg)].

End WithHost.
End Js.

Import Js.

(** ** The outside world and asynchronous computations *)

Inductive outcome : Type :=
| Resolved (v : value)
| Rejected (e : value).

(** [bucket]: the S3 bucket, object key to stored JSON document.
    [clock], [reads]: the [k]-th reading of the clock returns [clock k].
    [s3_up], [requests]: whether the [k]-th S3 request goes through.
    [vies]: what the VIES SOAP call answers for the given arguments.
    [upstream_log]: the arguments of the VIES calls made so far. *)
Record world : Type := World {
  bucket : gmap string value;
  clock : nat -> Z;
  reads : nat;
  s3_up : nat -> bool;
  requests : nat;
  vies : value -> value -> outcome;
  upstream_log : list (value * value);
}.

Inductive result (A : Type) : Type :=
| Return (a : A)
| Throw (e : value).
Arguments Return {A} a.
Arguments Throw {A} e.

Definition M (A : Type) : Type := world -> result A * world.

Definition ret {A} (a : A) : M A := fun w => (Return a, w).

Definition throw {A} (e : value) : M A := fun w => (Throw e, w).

Definition bind {A B} (m : M A) (k : A -> M B) : M B :=
  fun w =>
    match m w with
    | (Return a, w') => k a w'
    | (Throw e, w') => (Throw e, w')
    end.

(** [try { m } catch (e) { h e }] *)
Definition try_catch {A} (m : M A) (h : value -> M A) : M A :=
  fun w =>
    match m w with
    | (Return a, w') => (Return a, w')
    | (Throw e, w') => h e w'
    end.

Declare Scope js_scope.
Delimit Scope js_scope with js.
Notation "x <- m ;; k" := (bind m (fun x => k))
  (at level 100, m at next level, right associativity) : js_scope.
Notation "m ;;; k" := (bind m (fun _ => k))
  (at level 100, right associativity) : js_scope.
Local Open Scope js_scope.

Module Effects.

(** The world after one more reading of the clock. *)
Definition tick (w : world) : world :=
  World (bucket w) (clock w) (S (reads w)) (s3_up w) (requests w)
        (vies w) (upstream_log w).

(** The world after one more S3 request that changed nothing. *)
Definition sent (w : world) : world :=
  World (bucket w) (clock w) (reads w) (s3_up w) (S (requests w))
        (vies w) (upstream_log w).

(** The world after a PutObject that went through. *)
Definition stored (key : string) (doc : value) (w : world) : world :=
  World (<[key := doc]> (bucket w)) (clock w) (reads w) (s3_up w)
        (S (requests w)) (vies w) (upstream_log w).

(** The world after one more call to VIES. *)
Definition called (countryCode vatNumber : value) (w : world) : world :=
  World (bucket w) (clock w) (reads w) (s3_up w) (requests w)
        (vies w) (upstream_log w ++ [(countryCode, vatNumber)]).

(** [Date.now()] *)
Definition Date_now : M Z :=
  fun w => (Return (clock w (reads w)), tick w).

(** [new Date()] *)
Definition new_Date_now : M (option Z) := t <- Date_now ;; ret (Some t).

(** [d.toISOString()] *)
Definition toISOString (d : option Z) : M string :=
  match d with
  | Some t => ret (iso_string t)
  | None => throw (js_error "RangeError" "Invalid time value")
  end.

(** GetObject followed by [JSON.parse] of the body. *)
Definition s3_get (key : string) : M value :=
  fun w =>
    if s3_up w (requests w) then
      match bucket w !! key with
      | Some v => (Return v, sent w)
      | None =>
          (Throw (js_error "NoSuchKey" "The specified key does not exist."), sent w)
      end
    else (Throw (js_error "NetworkingError" "connect ETIMEDOUT"), sent w).

(** PutObject with body [JSON.stringify(data)]. *)
Definition s3_put (key : string) (data : value) : M unit :=
  fun w =>
    if s3_up w (requests w) then (Return tt, stored key (json data) w)
    else (Throw (js_error "NetworkingError" "connect ETIMEDOUT"), sent w).

(** [viesCall]: build the SOAP client and call [checkVatAsync]. *)
Definition viesCall (countryCode vatNumber : value) : M value :=
  fun w =>
    match vies w countryCode vatNumber with
    | Resolved v => (Return v, called countryCode vatNumber w)
    | Rejected e => (Throw e, called countryCode vatNumber w)
    end.

(** [v.k], which throws a TypeError on [null] and [undefined]. *)
Definition member (v : value) (k : string) : M value :=
  match v with
  | VUndefined =>
      throw (js_error "TypeError"
               ("Cannot read properties of undefined (reading '" +:+ k +:+ "')"))
  | VNull =>
      throw (js_error "TypeError"
               ("Cannot read properties of null (reading '" +:+ k +:+ "')"))
  | _ => ret (prop v k)
  end.

(** [v?.k] *)
Definition opt_member (v : value) (k : string) : value :=
  match v with
  | VUndefined | VNull => VUndefined
  | _ => prop v k
  end.

(** The result of a conversion, or the TypeError it throws. *)
Definition converted {A} (o : option A) : M A :=
  match o with
  | Some a => ret a
  | None => throw (js_error "TypeError" "Cannot convert object to primitive value")
  end.

End Effects.

Import Effects.

(** The process environment, as far as these modules read it. A numeric
    variable is given by the value of [Number(...)] on it ([None]: NaN). *)
Record process_env : Type := {
  env_S3_BUCKET : option string;
  env_VATFIX_CACHE_TTL_MS : option (option Z);
  env_VATFIX_WINDOW_MS : option (option Z);
  env_VATFIX_RPS_LIMIT : option (option Z);
  env_VATFIX_PLUS : option string;
}.

(** [Number(x) || dflt] for a variable whose destructuring default, when
    there is one, is the text of [dflt]; likewise [+x || dflt]. *)
Definition number_or (x : option (option Z)) (dflt : Z) : Z :=
  match x with
  | Some (Some n) => if n =? 0 then dflt else n
  | _ => dflt
  end.

(** [!!S3_BUCKET] *)
Definition bucket_set (env : process_env) : bool :=
  match env_S3_BUCKET env with
  | Some s => negb (String.eqb s "")
  | None => false
  end.

(** Arguments of [checkVAT] / [validateVAT]: the destructured
    [{ countryCode, vatNumber, email }]; an absent property is
    [VUndefined]. *)
Record vat_args : Type := {
  countryCode : value;
  vatNumber : value;
  email : value;
}.

(** ** [src/validate.js]: the validator with cache and resilient fallback *)

Module Validate.
Section WithEnv.
Context {host : Host}.
Variable env : process_env.

Definition CACHE_TTL_MS : Z :=
  number_or (env_VATFIX_CACHE_TTL_MS env) (12 * 3600 * 1000).

Definition cacheKey (countryCode vatNumber : value) : option string :=
  match to_string (or_else countryCode (VStr "")) with
  | None => None
  | Some cc =>
      match to_string (or_else vatNumber (VStr "")) with
      | None => None
      | Some vn =>
          Some ("cache/" +:+ toUpperCase cc +:+ "_" +:+ strip_spaces vn +:+ ".json")
      end
  end.

(** S3 helpers *)
Definition getJSON (Key : string) : M value :=
  if negb (bucket_set env) then ret VNull
  else try_catch (s3_get Key) (fun _ => ret VNull).

Definition putJSON (Key : string) (data : value) : M unit :=
  if negb (bucket_set env) then ret tt
  else try_catch (s3_put Key data) (fun _ => ret tt).

(** Cache *)
Definition getCached (countryCode vatNumber : value) : M value :=
  Key <- converted (cacheKey countryCode vatNumber) ;;
  rec <- getJSON Key ;;
  if negb (truthy rec) then ret VNull
  else
    now <- Date_now ;;
    cachedAt <- converted (new_Date (prop rec "cachedAt")) ;;
    let fresh :=
      match cachedAt with
      | Some t => now - t <? CACHE_TTL_MS
      | None => false
      end in
    ret (if fresh then prop rec "payload" else VNull).

Definition setCached (countryCode vatNumber payload : value) : M unit :=
  Key <- converted (cacheKey countryCode vatNumber) ;;
  d <- new_Date_now ;;
  cachedAt <- toISOString d ;;
  putJSON Key (VObj [("cachedAt", VStr cachedAt); ("payload", payload)]).

(** Normalize the VIES requestDate to valid ISO 8601. *)
Definition normalizeRequestDate (rd : value) : M string :=
  match rd with
  | VDate t =>
      match t with
      | None => d <- new_Date_now ;; toISOString d
      | Some _ => toISOString t
      end
  | VStr s =>
      let fixed := fix_offset s in
      d <- converted (new_Date (VStr fixed)) ;;
      match d with
      | None => d' <- new_Date_now ;; toISOString d'
      | Some _ => toISOString d
      end
  | _ => d <- new_Date_now ;; toISOString d
  end.

(** [String(countryCode || '').toUpperCase().trim()] *)
Definition normalize_cc (countryCode : value) : option string :=
  match to_string (or_else countryCode (VStr "")) with
  | Some s => Some (trim (toUpperCase s))
  | None => None
  end.

(** [String(vatNumber || '').replace(/\s+/g, '')] *)
Definition normalize_vn (vatNumber : value) : option string :=
  match to_string (or_else vatNumber (VStr "")) with
  | Some s => Some (strip_spaces s)
  | None => None
  end.

(** The three blocks of [checkVAT], in source order: the write-only audit
    (best effort), the [try] block with the live VIES call, and the
    [catch] block with the cache fallback and the soft error. *)
Definition audit (cc vn : string) (email : value) : M unit :=
  try_catch
    (d <- new_Date_now ;;
     iso <- toISOString d ;;
     let t := colons_to_dashes iso in
     name <- converted (to_string (or_else (VStr vn) (VStr "unknown"))) ;;
     putJSON ("logs/" +:+ t +:+ "_" +:+ name +:+ ".json")
             (VObj [("t", VStr t); ("countryCode", VStr cc);
                    ("vatNumber", VStr vn); ("email", email)]))
    (fun _ => ret tt).

Definition live_vies (cc vn lookupId : string) : M value :=
  res <- viesCall (VStr cc) (VStr vn) ;;
  res_countryCode <- member res "countryCode" ;;
  res_vatNumber <- member res "vatNumber" ;;
  res_valid <- member res "valid" ;;
  res_name <- member res "name" ;;
  res_address <- member res "address" ;;
  res_requestDate <- member res "requestDate" ;;
  requestDate <- normalizeRequestDate res_requestDate ;;
  let payload :=
    VObj [("countryCode", or_else res_countryCode (VStr cc));
          ("vatNumber", or_else res_vatNumber (VStr vn));
          ("valid", VBool (truthy res_valid));
          ("name", or_else res_name VNull);
          ("address", or_else res_address VNull);
          ("requestDate", VStr requestDate);
          ("lookupId", VStr lookupId);
          ("source", VStr "vies");
          ("cacheTtlMs", VNum CACHE_TTL_MS)] in
  try_catch (setCached (VStr cc) (VStr vn) payload) (fun _ => ret tt) ;;;
  ret payload.

Definition cache_fallback (cc vn lookupId : string) (err : value) : M value :=
  cached <- getCached (VStr cc) (VStr vn) ;;
  if truthy cached then
    d <- new_Date_now ;;
    requestDate <- toISOString d ;;
    ret (spread cached
           [("requestDate", VStr requestDate);
            ("lookupId", VStr lookupId);
            ("source", VStr "cache");
            ("cacheTtlMs", VNum CACHE_TTL_MS);
            ("cached", VBool true)])
  else
    (* soft error *)
    d <- new_Date_now ;;
    requestDate <- toISOString d ;;
    message <- converted (to_string (or_else (opt_member err "message")
                                             (VStr "unavailable"))) ;;
    ret (VObj [("countryCode", VStr cc);
               ("vatNumber", VStr vn);
               ("valid", VBool false);
               ("name", VNull);
               ("address", VNull);
               ("requestDate", VStr requestDate);
               ("lookupId", VStr lookupId);
               ("source", VStr "error");
               ("cacheTtlMs", VNum CACHE_TTL_MS);
               ("error", VStr ("fallback:" +:+ message))]).

(** The two coercions of lines 109 and 110 come before the first [try]:
    a TypeError they throw leaves [checkVAT]. *)
Definition checkVAT (args : vat_args) : M value :=
  cc <- converted (normalize_cc (countryCode args)) ;;
  vn <- converted (normalize_vn (vatNumber args)) ;;
  now0 <- Date_now ;;
  let lookupId := cc +:+ "-" +:+ vn +:+ "-" +:+ toString36 now0 in
  audit cc vn (email args) ;;;
  try_catch (live_vies cc vn lookupId) (cache_fallback cc vn lookupId).

(** legacy alias *)
Definition validateVAT (args : vat_args) : M value := checkVAT args.

End WithEnv.
End Validate.

(** ** [src/lib/validate.js]: the older drop-in validator ("lookup.js") *)

Module LibValidate.
Section WithEnv.
Context {host : Host}.
Variable env : process_env.

Definition BUCKET : bool := bucket_set env.

Definition CACHE_TTL_MS : Z :=
  number_or (env_VATFIX_CACHE_TTL_MS env) (12 * 3600 * 1000).

Definition cacheKey (countryCode vatNumber : value) : option string :=
  match to_string countryCode with
  | None => None
  | Some cc =>
      match to_string vatNumber with
      | None => None
      | Some vn => Some ("cache/" +:+ cc +:+ "_" +:+ vn +:+ ".json")
      end
  end.

Definition getCached (countryCode vatNumber : value) : M value :=
  if negb BUCKET then ret VNull
  else
    try_catch
      (Key <- converted (cacheKey countryCode vatNumber) ;;
       data <- s3_get Key ;;
       now <- Date_now ;;
       cachedAt <- member data "cachedAt" ;;
       t <- converted (new_Date cachedAt) ;;
       let fresh :=
         match t with
         | Some t => now - t <? CACHE_TTL_MS
         | None => false
         end in
       ret (if fresh then prop data "payload" else VNull))
      (fun _ => ret VNull).

Definition setCached (countryCode vatNumber payload : value) : M unit :=
  if negb BUCKET then ret tt
  else
    try_catch
      (Key <- converted (cacheKey countryCode vatNumber) ;;
       d <- new_Date_now ;;
       cachedAt <- toISOString d ;;
       s3_put Key (VObj [("cachedAt", VStr cachedAt); ("payload", payload)]))
      (fun _ => ret tt).

(** [typeof v === 'boolean'] *)
Definition is_boolean (v : value) : bool :=
  match v with VBool _ => true | _ => false end.

Definition validateVAT (args : vat_args) : M value :=
  let countryCode := countryCode args in
  let vatNumber := vatNumber args in
  let isPlus :=
    match env_VATFIX_PLUS env with
    | Some s => String.eqb s "1"
    | None => false
    end in
  (* best-effort write-only request log *)
  try_catch
    (if BUCKET then
       d <- new_Date_now ;;
       timestamp <- toISOString d ;;
       name <- converted (to_string vatNumber) ;;
       s3_put ("logs/" +:+ timestamp +:+ "_" +:+ name +:+ ".json")
              (VObj [("timestamp", VStr timestamp); ("countryCode", countryCode);
                     ("vatNumber", vatNumber); ("email", email args)])
     else ret tt)
    (fun _ => ret tt) ;;;
  if isPlus then
    (* PLUS path: VIES with cache + fallback *)
    try_catch
      (res <- viesCall countryCode vatNumber ;;
       (if is_boolean (opt_member res "valid")
        then setCached countryCode vatNumber res
        else ret tt) ;;;
       ret res)
      (fun err =>
         cached <- getCached countryCode vatNumber ;;
         if truthy cached then ret (spread cached [("cached", VBool true)])
         else
           message <- converted (to_string (or_else (opt_member err "message")
                                                    (VStr "unavailable"))) ;;
           ret (VObj [("countryCode", countryCode);
                      ("vatNumber", vatNumber);
                      ("valid", VBool false);
                      ("error", VStr ("fallback:" +:+ message))]))
  else
    (* legacy path: direct VIES, errors surface *)
    result <- viesCall countryCode vatNumber ;;
    ret result.

Definition checkVAT (args : vat_args) : M value := validateVAT args.

End WithEnv.
End LibValidate.

(** Arguments of [meterAndCheck]: the destructured
    [{ apiKey, email, countryCode, vatNumber }]. *)
Record meter_args : Type := {
  apiKey : value;
  m_email : value;
  m_countryCode : value;
  m_vatNumber : value;
}.

(** [doc.count = x] in strict mode (both meters are ES modules): a
    TypeError on a primitive [doc]; on an array or a date the property is
    set but does not survive [JSON.stringify]. *)
Definition assign_count (doc : value) (x : value) : M value :=
  match doc with
  | VObj f => ret (VObj (set_prop "count" x f))
  | VArr _ | VDate _ => ret doc
  | _ => throw (js_error "TypeError" "Cannot create property 'count'")
  end.

(** ** [src/meter.js]: S3 metering and per-key rate limiting *)

Module Meter.
Section WithEnv.
Context {host : Host}.
Variable env : process_env.

Definition WINDOW_MS : Z := number_or (env_VATFIX_WINDOW_MS env) 60000.
Definition LIMIT : Z := number_or (env_VATFIX_RPS_LIMIT env) 120.

(** The helpers of this module have no bucket test of their own; they
    are only reached after [meterAndCheck] has checked [S3_BUCKET]. *)
Definition getJSON (Key : string) : M value :=
  try_catch (s3_get Key) (fun _ => ret VNull).

Definition putJSON (Key : string) (data : value) : M unit :=
  try_catch (s3_put Key data) (fun _ => ret tt).

(** [Math.floor(now / WINDOW_MS) * WINDOW_MS] *)
Definition window_of (now : Z) : Z := now / WINDOW_MS * WINDOW_MS.

Definition day_of (window : Z) : M string :=
  iso <- toISOString (TimeClip window) ;;
  ret (slice0 10 iso).

(** [`meter/${day}/${apiKey}/${window}.json`] for an [apiKey] with the
    string [key]. *)
Definition meterKey_of (day key : string) (window : Z) : string :=
  "meter/" +:+ day +:+ "/" +:+ key +:+ "/" +:+ of_Z window +:+ ".json".

(** [(Number(count) || 0) + 1] *)
Definition next_count (n : option Z) : Z :=
  double ((match n with Some k => k | None => 0 end) + 1).

(** The audit [putJSON] is started without [await]; for requests that
    come one after the other it has settled before the next one starts, so
    the model runs it before the decision is returned. The meter key is
    built before the [try], the audit key inside it. *)
Definition meterAndCheck (args : meter_args) : M value :=
  if negb (bucket_set env) || negb (truthy (apiKey args)) then
    ret (VObj [("allowed", VBool true); ("remaining", VUndefined)])
  else
    now <- Date_now ;;
    let window := window_of now in
    day <- day_of window ;;
    key <- converted (to_string (apiKey args)) ;;
    let meterKey := meterKey_of day key window in
    try_catch
      (stored <- getJSON meterKey ;;
       let doc := or_else stored
                    (VObj [("count", VNum 0); ("window", VNum window);
                           ("apiKey", apiKey args); ("limit", VNum LIMIT)]) in
       n <- converted (to_number (prop doc "count")) ;;
       let count := next_count n in
       doc <- assign_count doc (VNum count) ;;
       (* persist new count (best effort) *)
       putJSON meterKey doc ;;;
       if count >? LIMIT then
         ret (VObj [("allowed", VBool false);
                    ("reason", VStr "rate_limit_exceeded");
                    ("remaining", VNum 0)])
       else
         (* tiny audit line (best effort) *)
         d <- new_Date_now ;;
         iso <- toISOString d ;;
         let t := colons_to_dashes iso in
         name <- converted (to_string (or_else (m_vatNumber args) (VStr "unknown"))) ;;
         putJSON ("logs/" +:+ day +:+ "/" +:+ t +:+ "_" +:+ name +:+ ".json")
                 (VObj [("t", VStr t); ("apiKey", apiKey args);
                        ("email", m_email args);
                        ("countryCode", m_countryCode args);
                        ("vatNumber", m_vatNumber args)]) ;;;
         ret (VObj [("allowed", VBool true);
                    ("remaining", VNum (Z.max 0 (double (LIMIT - count))))]))
      (fun e => ret (VObj [("allowed", VBool true); ("remaining", VUndefined)])).

End WithEnv.
End Meter.

(** ** [src/lib/meter.js]: the older meter *)

Module LibMeter.
Section WithEnv.
Context {host : Host}.
Variable env : process_env.

Definition BUCKET : bool := bucket_set env.
Definition WINDOW_MS : Z := number_or (env_VATFIX_WINDOW_MS env) (60 * 1000).
Definition LIMIT : Z := number_or (env_VATFIX_RPS_LIMIT env) 60.

Definition window_of (now : Z) : Z := now / WINDOW_MS * WINDOW_MS.

(** [`meter/${apiKey}/${window}.json`] for an [apiKey] with the string
    [key]. *)
Definition key_of (key : string) (window : Z) : string :=
  "meter/" +:+ key +:+ "/" +:+ of_Z window +:+ ".json".

(** [doc.count > LIMIT] *)
Definition exceeds (count : option Z) : bool :=
  match count with
  | Some n => n >? LIMIT
  | None => false
  end.

(** As in [src/meter.js], the audit write is not awaited and is run here
    before the decision is returned. No API key is asked for; the meter
    key, the increment and the audit key are outside any [try]. *)
Definition meterAndCheck (args : meter_args) : M value :=
  if negb BUCKET then ret (VObj [("allowed", VBool true)])
  else
    now <- Date_now ;;
    let window := window_of now in
    name <- converted (to_string (apiKey args)) ;;
    let key := key_of name window in
    doc <- try_catch (s3_get key)
             (fun _ => ret (VObj [("count", VNum 0); ("window", VNum window);
                                  ("key", apiKey args)])) ;;
    (* doc.count++ *)
    old <- member doc "count" ;;
    n <- converted (to_number old) ;;
    let count := k ← n; Some (double (k + 1)) in
    doc <- assign_count doc (of_number count) ;;
    if exceeds count then
      (* write back current count and block *)
      try_catch (s3_put key doc) (fun _ => ret tt) ;;;
      ret (VObj [("allowed", VBool false); ("reason", VStr "rate_limit_exceeded")])
    else
      (* persist count *)
      try_catch (s3_put key doc) (fun _ => ret tt) ;;;
      (* append audit log (best effort) *)
      d <- new_Date_now ;;
      t <- toISOString d ;;
      vn <- converted (to_string (m_vatNumber args)) ;;
      try_catch
        (s3_put ("logs/" +:+ t +:+ "_" +:+ vn +:+ ".json")
                (VObj [("t", VStr t); ("apiKey", apiKey args);
                       ("email", m_email args);
                       ("countryCode", m_countryCode args);
                       ("vatNumber", m_vatNumber args)]))
        (fun _ => ret tt) ;;;
      ret (VObj [("allowed", VBool true)]).

End WithEnv.
End LibMeter.

(** * Vocabulary of the specification *)

(** How the upstream call fails, if it does: the SOAP call rejects, or it
    resolves to [null] / [undefined] and reading the answer throws. *)
Definition upstream_failure (o : outcome) : option value :=
  match o with
  | Rejected e => Some e
  | Resolved VUndefined =>
      Some (js_error "TypeError"
              "Cannot read properties of undefined (reading 'countryCode')")
  | Resolved VNull =>
      Some (js_error "TypeError"
              "Cannot read properties of null (reading 'countryCode')")
  | Resolved _ => None
  end.

(** Weakest precondition of a computation for a postcondition on its
    result and final world. *)
Definition wp {A} (m : M A) (w : world) (Q : result A -> world -> Prop) : Prop :=
  Q (fst (m w)) (snd (m w)).

(** The world after a best-effort [putJSON] of [src/validate.js]. *)
Definition after_put (env : process_env) (key : string) (data : value)
    (w : world) : world :=
  if bucket_set env then
    if s3_up w (requests w) then stored key (json data) w else sent w
  else w.

(** The fields every validation result declares. *)
Definition declared_fields : list string :=
  ["countryCode"; "vatNumber"; "valid"; "name"; "address"; "requestDate";
   "lookupId"; "source"; "cacheTtlMs"].

(** The fields a cached payload contributes to a result served from cache. *)
Definition payload_fields : list string :=
  ["countryCode"; "vatNumber"; "valid"; "name"; "address"].

(** [k] is an own property of [v] with a value other than [undefined]
    ([null] counts as present). *)
Definition present (v : value) (k : string) : bool :=
  match v with
  | VObj f =>
      match assoc k f with
      | None | Some VUndefined => false
      | Some _ => true
      end
  | _ => false
  end.

Definition well_formed_result (v : value) : bool :=
  forallb (present v) declared_fields.

(** A cache record whose payload, when usable, has the payload fields. *)
Definition payload_ok (rec : value) : Prop :=
  truthy (prop rec "payload") = true ->
  forallb (present (prop rec "payload")) payload_fields = true.

(** A property name that is not an array index: it starts with neither a
    digit nor a minus sign. *)
Definition is_name (k : string) : bool :=
  match k with
  | EmptyString => false
  | String c _ => negb (is_digit c) && negb (code c =? 45)
  end.

(** The instant the upstream's [requestDate] denotes, if it denotes one. *)
Definition upstream_instant {host : Host} (rd : value) : option Z :=
  match rd with
  | VDate t => t
  | VStr s => t ← Date_parse (fix_offset s); TimeClip t
  | _ => None
  end.

(** A fresh cache entry under [key] when the clock reads [now]: a stored
    record whose [cachedAt] is an instant [t] with [now - t < TTL]; its
    payload is [payload]. *)
Definition fresh_at {host : Host} (TTL : Z) (b : gmap string value)
    (key : string) (now : Z) (payload : value) : Prop :=
  exists rec t,
    b !! key = Some rec /\ new_Date (prop rec "cachedAt") = Some (Some t)
    /\ now - t < TTL /\ prop rec "payload" = payload.

(** A value that [String], [Number] and [new Date] convert without
    throwing: anything but an object with a [toString] property of its own
    or an array that holds one. *)
Definition printable {host : Host} (v : value) : bool :=
  match to_string v with Some _ => true | None => false end.

(** A thrown value whose message can be put into a template literal: any
    [Error], whose message is a string. *)
Definition describable {host : Host} (err : value) : bool :=
  printable (or_else (opt_member err "message") (VStr "unavailable")).

(** The message of a thrown value, as [`${err?.message || 'unavailable'}`]
    prints it. *)
Definition message_of {host : Host} (err : value) : option string :=
  to_string (or_else (opt_member err "message") (VStr "unavailable")).

(** The soft-failure result of [src/validate.js]. *)
Definition soft_failure (cc vn lookupId requestDate : string) (ttl : Z)
    (error : string) : value :=
  VObj [("countryCode", VStr cc); ("vatNumber", VStr vn);
        ("valid", VBool false); ("name", VNull); ("address", VNull);
        ("requestDate", VStr requestDate); ("lookupId", VStr lookupId);
        ("source", VStr "error"); ("cacheTtlMs", VNum ttl);
        ("error", VStr error)].

(** The [error] tag of a soft failure whose message reads [message]:
    [`fallback:${err?.message || 'unavailable'}`]. *)
Definition fallback_tag (message : string) : string := "fallback:" +:+ message.

(** The canonical result of a successful lookup in [src/validate.js]. *)
Definition vies_result (res : value) (cc vn lookupId requestDate : string)
    (ttl : Z) : value :=
  VObj [("countryCode", or_else (prop res "countryCode") (VStr cc));
        ("vatNumber", or_else (prop res "vatNumber") (VStr vn));
        ("valid", VBool (truthy (prop res "valid")));
        ("name", or_else (prop res "name") VNull);
        ("address", or_else (prop res "address") VNull);
        ("requestDate", VStr requestDate);
        ("lookupId", VStr lookupId);
        ("source", VStr "vies");
        ("cacheTtlMs", VNum ttl)].

(** The object under which [src/validate.js] caches the pair of strings
    [cc] and [vn]: what [cacheKey] makes of them. *)
Definition cache_key (cc vn : string) : string :=
  "cache/" +:+ toUpperCase cc +:+ "_" +:+ strip_spaces vn +:+ ".json".

(** [`${cc}-${vn}-${Date.now().toString(36)}`] *)
Definition lookupId_of (cc vn : string) (now : Z) : string :=
  cc +:+ "-" +:+ vn +:+ "-" +:+ toString36 now.

(** The properties [JSON.stringify] keeps of an object. *)
Definition json_fields : list (string * value) -> list (string * value) :=
  fix go f :=
    match f with
    | [] => []
    | (k, VUndefined) :: r => go r
    | (k, x) :: r => (k, json x) :: go r
    end.

(** An answer of the upstream that can be read: neither [null] nor
    [undefined]. *)
Definition readable (res : value) : Prop :=
  res <> VUndefined /\ res <> VNull.

(** [null] or [undefined]. *)
Definition nullish (v : value) : Prop := v = VUndefined \/ v = VNull.

(** Every cache record under [key] has a payload with the payload fields. *)
Definition cache_entry_ok (b : gmap string value) (key : string) : Prop :=
  forall rec, b !! key = Some rec -> payload_ok rec.

(** The [cachedAt] of every cache record under [key] can be handed to
    [new Date]: it is no object without a primitive value. Every record
    written by [setCached] has a string there. *)
Definition cache_entry_dated {host : Host} (b : gmap string value) (key : string)
  : Prop :=
  forall rec, b !! key = Some rec -> printable (prop rec "cachedAt") = true.

(** [process.env.VATFIX_PLUS === '1'] *)
Definition plus_enabled (env : process_env) : bool :=
  match env_VATFIX_PLUS env with
  | Some s => String.eqb s "1"
  | None => false
  end.

(** A computation that returns from every world. *)
Definition total {A} (m : M A) : Prop :=
  forall w, exists a w', m w = (Return a, w').

(** The soft-failure result of [src/lib/validate.js]. *)
Definition legacy_soft_failure (countryCode vatNumber : value) (message : string)
  : value :=
  VObj [("countryCode", countryCode); ("vatNumber", vatNumber);
        ("valid", VBool false); ("error", VStr (fallback_tag message))].

(** The world after [n] calls of [m], one after the other. *)
Fixpoint after_calls {A} (m : M A) (n : nat) (w : world) : world :=
  match n with
  | O => w
  | S k => snd (m (after_calls m k w))
  end.

(** The counter persisted under [key] stands at [c]: no record yet and
    [c = 0], or a record whose [count] is the number [c]. *)
Definition counter_at (b : gmap string value) (key : string) (c : Z) : Prop :=
  (b !! key = None /\ c = 0)
  \/ exists f, b !! key = Some (VObj f) /\ assoc "count" f = Some (VNum c).

(** The decisions of [src/meter.js]. *)
Definition admitted (remaining : Z) : value :=
  VObj [("allowed", VBool true); ("remaining", VNum remaining)].

Definition denied : value :=
  VObj [("allowed", VBool false); ("reason", VStr "rate_limit_exceeded");
        ("remaining", VNum 0)].

Definition fail_open : value :=
  VObj [("allowed", VBool true); ("remaining", VUndefined)].

(** The decisions of [src/lib/meter.js]. *)
Definition legacy_admitted : value := VObj [("allowed", VBool true)].

Definition legacy_denied : value :=
  VObj [("allowed", VBool false); ("reason", VStr "rate_limit_exceeded")].

(** The object under which [src/meter.js] counts the requests of the key
    that reads [key] in the window starting at [window]. *)
Definition meter_key (key : string) (window : Z) : string :=
  Meter.meterKey_of (slice0 10 (iso_string window)) key window.

(** The object under which [src/lib/meter.js] counts. *)
Definition legacy_meter_key (key : string) (window : Z) : string :=
  LibMeter.key_of key window.

(** A count that a double holds exactly, and its successor too. *)
Definition countable (c : Z) : Prop := - two53 <= c < two53.

(** The decision of [src/meter.js] on a request whose count, once
    incremented, is [count]: the audit key is built inside the [try] after
    the count has been persisted, and a VAT number that does not convert to
    a string there turns the admission into the fail-open answer. *)
Definition meter_decision {host : Host} (env : process_env) (args : meter_args)
    (count : Z) : value :=
  if count >? Meter.LIMIT env then denied
  else if printable (or_else (m_vatNumber args) (VStr "unknown"))
       then admitted (Z.max 0 (double (Meter.LIMIT env - count)))
       else fail_open.

(** The outcome of [src/lib/meter.js] on a request whose count, once
    incremented, is [count]: the audit key is built outside any [try],
    after the count has been persisted, and a VAT number that does not
    convert to a string there is a TypeError of [meterAndCheck]. *)
Definition legacy_meter_outcome {host : Host} (env : process_env)
    (args : meter_args) (count : Z) : result value :=
  if count >? LibMeter.LIMIT env then Return legacy_denied
  else if printable (m_vatNumber args) then Return legacy_admitted
       else Throw (js_error "TypeError" "Cannot convert object to primitive value").

(** ** Concrete hosts, environments and worlds *)

(** A host whose date parser reads one ISO instant. *)
Definition example_host : Host :=
  {| Date_parse := fun s =>
       if String.eqb s "2025-08-11T15:05:17.000Z" then Some 1754924717000
       else None;
     Date_toString := fun _ => "Mon Aug 11 2025 17:05:17 GMT+0200";
     StringToNumber := fun _ => None |}.

(** A bucket is configured; [VATFIX_PLUS=1]; every number at its default. *)
Definition plus_env : process_env :=
  {| env_S3_BUCKET := Some "vatfix-plus";
     env_VATFIX_CACHE_TTL_MS := None;
     env_VATFIX_WINDOW_MS := None;
     env_VATFIX_RPS_LIMIT := None;
     env_VATFIX_PLUS := Some "1" |}.

(** The same without [VATFIX_PLUS]. *)
Definition legacy_env : process_env :=
  {| env_S3_BUCKET := Some "vatfix-plus";
     env_VATFIX_CACHE_TTL_MS := None;
     env_VATFIX_WINDOW_MS := None;
     env_VATFIX_RPS_LIMIT := None;
     env_VATFIX_PLUS := None |}.

(** [VATFIX_RPS_LIMIT=5] *)
Definition limit5_env : process_env :=
  {| env_S3_BUCKET := Some "vatfix-plus";
     env_VATFIX_CACHE_TTL_MS := None;
     env_VATFIX_WINDOW_MS := None;
     env_VATFIX_RPS_LIMIT := Some (Some 5);
     env_VATFIX_PLUS := Some "1" |}.

Definition de_args : vat_args :=
  {| countryCode := VStr "DE"; vatNumber := VStr "12345678912";
     email := VStr "billing@example.com" |}.

Definition no_country_args : vat_args :=
  {| countryCode := VUndefined; vatNumber := VStr "12345678912";
     email := VUndefined |}.

Definition key_args : meter_args :=
  {| apiKey := VStr "sk_live_1"; m_email := VStr "billing@example.com";
     m_countryCode := VStr "DE"; m_vatNumber := VStr "12345678912" |}.

Definition timeout_error : value := js_error "Error" "ETIMEDOUT".

(** What VIES answered for DE 12345678912. *)
Definition vies_answer : value :=
  VObj [("countryCode", VStr "DE"); ("vatNumber", VStr "12345678912");
        ("requestDate", VStr "2025-08-11+02:00"); ("valid", VBool true);
        ("name", VStr "MUSTERFIRMA GMBH");
        ("address", VStr "MUSTERSTRASSE 1")].

(** An empty bucket, a clock standing at 2025-08-11T15:05:18Z, a store
    that answers and an upstream that times out. *)
Definition outage_world : world :=
  {| bucket := ∅;
     clock := fun _ => 1754924718000;
     reads := 0;
     s3_up := fun _ => true;
     requests := 0;
     vies := fun _ _ => Rejected timeout_error;
     upstream_log := [] |}.

(** The answer for DE 12345678912, cached at 2025-08-11T15:05:17Z, seen
    when the clock stands at [now]; a store that answers and an upstream
    that times out. *)
Definition cached_world_at (now : Z) : world :=
  {| bucket := {[ "cache/DE_12345678912.json" :=
                    VObj [("cachedAt", VStr "2025-08-11T15:05:17.000Z");
                          ("payload", vies_answer)] ]};
     clock := fun _ => now;
     reads := 0;
     s3_up := fun _ => true;
     requests := 0;
     vies := fun _ _ => Rejected timeout_error;
     upstream_log := [] |}.

(** One second after the entry was cached. *)
Definition cached_world : world := cached_world_at 1754924718000.

(** An empty bucket and an upstream that answers. *)
Definition live_world : world :=
  {| bucket := ∅;
     clock := fun _ => 1754924718000;
     reads := 0;
     s3_up := fun _ => true;
     requests := 0;
     vies := fun _ _ => Resolved vies_answer;
     upstream_log := [] |}.

(** An empty bucket behind a store that never answers. *)
Definition unreachable_world : world :=
  {| bucket := ∅;
     clock := fun _ => 1754924718000;
     reads := 0;
     s3_up := fun _ => false;
     requests := 0;
     vies := fun _ _ => Rejected timeout_error;
     upstream_log := [] |}.

(** No bucket configured. *)
Definition unconfigured_env : process_env :=
  {| env_S3_BUCKET := None;
     env_VATFIX_CACHE_TTL_MS := None;
     env_VATFIX_WINDOW_MS := None;
     env_VATFIX_RPS_LIMIT := None;
     env_VATFIX_PLUS := None |}.

(** An empty bucket and a clock standing at 2025-08-11T15:05:17Z. *)
Definition stamping_world : world :=
  {| bucket := ∅;
     clock := fun _ => 1754924717000;
     reads := 0;
     s3_up := fun _ => true;
     requests := 0;
     vies := fun _ _ => Resolved vies_answer;
     upstream_log := [] |}.

(** The start of the minute that contains 2025-08-11T15:05:18Z. *)
Definition example_window : Z := 1754924700000.

(** The JSON value [{"toString": 1}]: [String], [Number] and [new Date]
    throw a TypeError on it. *)
Definition unconvertible : value := VObj [("toString", VNum 1)].

(** No country code, and a VAT number that is no string. *)
Definition odd_number_args : vat_args :=
  {| countryCode := VUndefined; vatNumber := unconvertible;
     email := VUndefined |}.

(** A request without API key. *)
Definition keyless_args : meter_args :=
  {| apiKey := VUndefined; m_email := VStr "billing@example.com";
     m_countryCode := VStr "DE"; m_vatNumber := VStr "12345678912" |}.

(** A keyed request whose VAT number is no string. *)
Definition odd_number_meter_args : meter_args :=
  {| apiKey := VStr "sk_live_1"; m_email := VStr "billing@example.com";
     m_countryCode := VStr "DE"; m_vatNumber := unconvertible |}.

(** A keyed request whose API key is no string. *)
Definition odd_key_meter_args : meter_args :=
  {| apiKey := unconvertible; m_email := VStr "billing@example.com";
     m_countryCode := VStr "DE"; m_vatNumber := VStr "12345678912" |}.

(** [VATFIX_RPS_LIMIT=-1] *)
Definition negative_limit_env : process_env :=
  {| env_S3_BUCKET := Some "vatfix-plus";
     env_VATFIX_CACHE_TTL_MS := None;
     env_VATFIX_WINDOW_MS := None;
     env_VATFIX_RPS_LIMIT := Some (Some (-1));
     env_VATFIX_PLUS := Some "1" |}.

(** [VATFIX_RPS_LIMIT=1152921504606846976], that is 2^60. *)
Definition huge_limit_env : process_env :=
  {| env_S3_BUCKET := Some "vatfix-plus";
     env_VATFIX_CACHE_TTL_MS := None;
     env_VATFIX_WINDOW_MS := None;
     env_VATFIX_RPS_LIMIT := Some (Some (2 ^ 60));
     env_VATFIX_PLUS := Some "1" |}.

(** A fresh cache record for the pair of [no_country_args] whose payload
    has only [valid]; the upstream times out. *)
Definition sparse_cache_world : world :=
  {| bucket := {[ "cache/_12345678912.json" :=
                    VObj [("cachedAt", VStr "2025-08-11T15:05:17.000Z");
                          ("payload", VObj [("valid", VBool true)])] ]};
     clock := fun _ => 1754924718000;
     reads := 0;
     s3_up := fun _ => true;
     requests := 0;
     vies := fun _ _ => Rejected timeout_error;
     upstream_log := [] |}.

(** A cache record for DE 12345678912 whose [cachedAt] is no string; the
    upstream times out. *)
Definition undated_cache_world : world :=
  {| bucket := {[ "cache/DE_12345678912.json" :=
                    VObj [("cachedAt", unconvertible);
                          ("payload", vies_answer)] ]};
     clock := fun _ => 1754924718000;
     reads := 0;
     s3_up := fun _ => true;
     requests := 0;
     vies := fun _ _ => Rejected timeout_error;
     upstream_log := [] |}.

(** The counters of [sk_live_1] for [example_window], of both meters,
    standing at 2^53. *)
Definition saturated_world : world :=
  {| bucket := {[ meter_key "sk_live_1" example_window :=
                    VObj [("count", VNum two53)];
                  legacy_meter_key "sk_live_1" example_window :=
                    VObj [("count", VNum two53)] ]};
     clock := fun _ => 1754924718000;
     reads := 0;
     s3_up := fun _ => true;
     requests := 0;
     vies := fun _ _ => Rejected timeout_error;
     upstream_log := [] |}.


(** * Properties *)

(** ** Strings: case, trimming and stripping *)

Section StringFacts.

Lemma upper_char_idem c : upper_char (upper_char c) = upper_char c.
Proof. destruct c as [[] [] [] [] [] [] [] []]; reflexivity. Qed.

Lemma is_space_upper_char c : is_space (upper_char c) = is_space c.
Proof. destruct c as [[] [] [] [] [] [] [] []]; reflexivity. Qed.

Lemma toUpperCase_idem s : toUpperCase (toUpperCase s) = toUpperCase s.
Proof.
  induction s as [|c r IH]; simpl; [reflexivity|].
  now rewrite upper_char_idem, IH.
Qed.

Lemma trimStart_toUpperCase s :
  trimStart (toUpperCase s) = toUpperCase (trimStart s).
Proof.
  induction s as [|c r IH]; simpl; [reflexivity|].
  rewrite is_space_upper_char. destruct (is_space c); [exact IH | reflexivity].
Qed.

Lemma trimEnd_toUpperCase s :
  trimEnd (toUpperCase s) = toUpperCase (trimEnd s).
Proof.
  induction s as [|c r IH]; simpl; [reflexivity|].
  rewrite IH, is_space_upper_char.
  destruct (trimEnd r); simpl; [destruct (is_space c)|]; reflexivity.
Qed.

Lemma trim_toUpperCase s : trim (toUpperCase s) = toUpperCase (trim s).
Proof. unfold trim. now rewrite trimStart_toUpperCase, trimEnd_toUpperCase. Qed.

Lemma trimEnd_cons c r :
  is_space c = false -> trimEnd (String c r) = String c (trimEnd r).
Proof. intros H. simpl. rewrite H. now destruct (trimEnd r). Qed.

Lemma trimEnd_idem s : trimEnd (trimEnd s) = trimEnd s.
Proof.
  induction s as [|c r IH]; simpl; [reflexivity|].
  destruct (trimEnd r) as [|d r'] eqn:E.
  - destruct (is_space c) eqn:Hc; simpl; [reflexivity | now rewrite Hc].
  - simpl in *. now rewrite IH.
Qed.

Lemma trimStart_head s :
  trimStart s = "" \/ exists c r, trimStart s = String c r /\ is_space c = false.
Proof.
  induction s as [|c r IH]; simpl; [now left|].
  destruct (is_space c) eqn:Hc; [exact IH | right; eauto].
Qed.

Lemma trim_idem s : trim (trim s) = trim s.
Proof.
  unfold trim. destruct (trimStart_head s) as [-> | (c & r & -> & Hc)].
  - reflexivity.
  - rewrite (trimEnd_cons _ _ Hc). simpl trimStart. rewrite Hc.
    rewrite (trimEnd_cons _ _ Hc). now rewrite trimEnd_idem.
Qed.

Lemma strip_spaces_idem s : strip_spaces (strip_spaces s) = strip_spaces s.
Proof.
  induction s as [|c r IH]; simpl; [reflexivity|].
  destruct (is_space c) eqn:Hc; simpl; [exact IH | now rewrite Hc, IH].
Qed.

End StringFacts.

(** ** Cache-key normalization ([src/validate.js]) *)

Section Normalization.
Context {host : Host}.

Lemma to_string_or_empty s : to_string (or_else (VStr s) (VStr "")) = Some s.
Proof.
  unfold or_else. simpl. destruct (String.eqb_spec s ""); simpl; congruence.
Qed.

Lemma to_string_or_else_str a b :
  to_string (or_else (VStr a) (VStr b))
  = Some (if String.eqb a "" then b else a).
Proof. unfold or_else. simpl. now destruct (String.eqb a ""). Qed.

Lemma cacheKey_strings cc vn :
  Validate.cacheKey (VStr cc) (VStr vn) = Some (cache_key cc vn).
Proof. unfold Validate.cacheKey. now rewrite !to_string_or_empty. Qed.

Lemma normalize_cc_string s :
  Validate.normalize_cc (VStr s) = Some (trim (toUpperCase s)).
Proof. unfold Validate.normalize_cc. now rewrite to_string_or_empty. Qed.

Lemma normalize_vn_string s : Validate.normalize_vn (VStr s) = Some (strip_spaces s).
Proof. unfold Validate.normalize_vn. now rewrite to_string_or_empty. Qed.

Lemma normalize_cc_idem v cc :
  Validate.normalize_cc v = Some cc -> Validate.normalize_cc (VStr cc) = Some cc.
Proof.
  rewrite normalize_cc_string. unfold Validate.normalize_cc.
  destruct (to_string _) as [s|]; [|discriminate]. intros [= <-].
  now rewrite trim_toUpperCase, trim_idem, <- trim_toUpperCase, toUpperCase_idem.
Qed.

Lemma normalize_vn_idem v vn :
  Validate.normalize_vn v = Some vn -> Validate.normalize_vn (VStr vn) = Some vn.
Proof.
  rewrite normalize_vn_string. unfold Validate.normalize_vn.
  destruct (to_string _) as [s|]; [|discriminate]. intros [= <-].
  now rewrite strip_spaces_idem.
Qed.

Lemma toUpperCase_normalize_cc v cc :
  Validate.normalize_cc v = Some cc -> toUpperCase cc = cc.
Proof.
  unfold Validate.normalize_cc.
  destruct (to_string _) as [s|]; [|discriminate]. intros [= <-].
  now rewrite <- trim_toUpperCase, toUpperCase_idem.
Qed.

Lemma strip_spaces_normalize_vn v vn :
  Validate.normalize_vn v = Some vn -> strip_spaces vn = vn.
Proof.
  unfold Validate.normalize_vn.
  destruct (to_string _) as [s|]; [|discriminate]. intros [= <-].
  apply strip_spaces_idem.
Qed.

(** The key under which [checkVAT] caches: [cacheKey] applied to the
    normalized pair normalizes again and changes nothing. *)
Lemma cacheKey_normalized countryCode vatNumber cc vn :
  Validate.normalize_cc countryCode = Some cc ->
  Validate.normalize_vn vatNumber = Some vn ->
  Validate.cacheKey (VStr cc) (VStr vn)
  = Some ("cache/" +:+ cc +:+ "_" +:+ vn +:+ ".json").
Proof.
  intros Hcc Hvn. rewrite cacheKey_strings. unfold cache_key.
  now rewrite (toUpperCase_normalize_cc _ _ Hcc), (strip_spaces_normalize_vn _ _ Hvn).
Qed.

(** C8. Normalizing the pair (country code: upper case and trim; VAT
    number: strip white space) a second time changes neither component nor
    the cache key; [" de "], ["de"] and ["DE"] normalize to the same country
    code, ["012 345"] and ["012345"] to the same VAT number. Every string
    has a normalized form, and a pair of strings has the cache key
    [cache_key]; a value that [String] cannot convert has neither. *)
Theorem normalization_idempotent (countryCode vatNumber : value) :
  (forall cc, Validate.normalize_cc countryCode = Some cc ->
              Validate.normalize_cc (VStr cc) = Some cc)
  /\ (forall vn, Validate.normalize_vn vatNumber = Some vn ->
                 Validate.normalize_vn (VStr vn) = Some vn)
  /\ (forall cc vn,
         Validate.normalize_cc countryCode = Some cc ->
         Validate.normalize_vn vatNumber = Some vn ->
         Validate.cacheKey (VStr cc) (VStr vn)
         = Some ("cache/" +:+ cc +:+ "_" +:+ vn +:+ ".json")
         /\ forall cc2 vn2,
              Validate.normalize_cc (VStr cc) = Some cc2 ->
              Validate.normalize_vn (VStr vn) = Some vn2 ->
              Validate.cacheKey (VStr cc2) (VStr vn2)
              = Validate.cacheKey (VStr cc) (VStr vn))
  /\ (forall s, Validate.normalize_cc (VStr s) = Some (trim (toUpperCase s)))
  /\ (forall s, Validate.normalize_vn (VStr s) = Some (strip_spaces s))
  /\ (forall cc vn, Validate.cacheKey (VStr cc) (VStr vn) = Some (cache_key cc vn))
  /\ Validate.normalize_cc (VStr " de ") = Some "DE"
  /\ Validate.normalize_cc (VStr "de") = Some "DE"
  /\ Validate.normalize_cc (VStr "DE") = Some "DE"
  /\ Validate.normalize_vn (VStr "012 345") = Some "012345"
  /\ Validate.normalize_vn (VStr "012345") = Some "012345".
Proof.
  split; [intros cc; apply normalize_cc_idem|].
  split; [intros vn; apply normalize_vn_idem|].
  split.
  { intros cc vn Hcc Hvn. split; [now apply (cacheKey_normalized countryCode vatNumber)|].
    intros cc2 vn2 Hcc2 Hvn2.
    rewrite (normalize_cc_idem _ _ Hcc) in Hcc2.
    rewrite (normalize_vn_idem _ _ Hvn) in Hvn2. congruence. }
  split; [apply normalize_cc_string|]. split; [apply normalize_vn_string|].
  split; [apply cacheKey_strings|].
  repeat split; reflexivity.
Qed.

End Normalization.

(** ** ISO-8601 instants *)

Section IsoFacts.

Lemma civil_ranges doe :
  0 <= doe < 146097 ->
  let yoe := (doe - doe / 1460 + doe / 36524 - doe / 146096) / 365 in
  let doy := doe - (365 * yoe + yoe / 4 - yoe / 100) in
  let mp := (5 * doy + 2) / 153 in
  0 <= doy <= 365 /\ 0 <= mp <= 11 /\ 1 <= doy - (153 * mp + 2) / 5 + 1 <= 31.
Proof.
  intros H yoe doy mp. subst yoe doy mp.
  Z.div_mod_to_equations; lia.
Qed.

Lemma civil_from_days_range days :
  let '(_, m, d) := civil_from_days days in 1 <= m <= 12 /\ 1 <= d <= 31.
Proof.
  unfold civil_from_days.
  pose proof (civil_ranges ((days + 719468) mod 146097)) as H.
  cbv zeta in H.
  destruct H as (_ & Hmp & Hd); [apply Z.mod_pos_bound; lia|].
  split; [|exact Hd].
  destruct (Z.ltb_spec ((5 * ((days + 719468) mod 146097 -
     (365 * (((days + 719468) mod 146097 - (days + 719468) mod 146097 / 1460 +
       (days + 719468) mod 146097 / 36524 - (days + 719468) mod 146097 / 146096) / 365) +
      ((days + 719468) mod 146097 - (days + 719468) mod 146097 / 1460 +
       (days + 719468) mod 146097 / 36524 - (days + 719468) mod 146097 / 146096) / 365 / 4 -
      ((days + 719468) mod 146097 - (days + 719468) mod 146097 / 1460 +
       (days + 719468) mod 146097 / 36524 - (days + 719468) mod 146097 / 146096) / 365 / 100)) + 2) / 153) 10); lia.
Qed.

Lemma code_char z : 0 <= z < 256 -> code (char z) = z.
Proof.
  intros H. unfold code, char.
  rewrite N_ascii_embedding; lia.
Qed.

Lemma digit_char x :
  is_digit (char (48 + x mod 10)) = true
  /\ digit_val (char (48 + x mod 10)) = Some (x mod 10).
Proof.
  pose proof (Z.mod_pos_bound x 10 ltac:(lia)) as H.
  unfold digit_val, is_digit. rewrite code_char by lia.
  replace (48 <=? 48 + x mod 10) with true by (symmetry; apply Z.leb_le; lia).
  replace (48 + x mod 10 <=? 57) with true by (symmetry; apply Z.leb_le; lia).
  split; [reflexivity | simpl; f_equal; lia].
Qed.

Lemma field2 n lo hi :
  0 <= n < 100 -> lo <= n <= hi ->
  field (digits 2 n "") lo hi = true.
Proof.
  intros Hn Hr. unfold field. cbn [digits number_of].
  destruct (digit_char (n / 10)) as [_ ->], (digit_char n) as [_ ->].
  replace (10 * (10 * 0 + n / 10 mod 10) + n mod 10) with n
    by (Z.div_mod_to_equations; lia).
  apply andb_true_iff; split; apply Z.leb_le; lia.
Qed.

Lemma field3 n :
  0 <= n < 1000 -> field (digits 3 n "") 0 999 = true.
Proof.
  intros Hn. unfold field. cbn [digits number_of].
  destruct (digit_char (n / 10 / 10)) as [_ ->], (digit_char (n / 10)) as [_ ->],
           (digit_char n) as [_ ->].
  replace (10 * (10 * (10 * 0 + n / 10 / 10 mod 10) + n / 10 mod 10) + n mod 10)
    with n by (Z.div_mod_to_equations; lia).
  apply andb_true_iff; split; apply Z.leb_le; lia.
Qed.

Lemma is_iso_tail_fields m d h mi s f :
  1 <= m <= 12 -> 1 <= d <= 31 -> 0 <= h <= 23 -> 0 <= mi <= 59 ->
  0 <= s <= 59 -> 0 <= f <= 999 ->
  is_iso_tail ("-" +:+ digits 2 m "" +:+ "-" +:+ digits 2 d "" +:+ "T"
               +:+ digits 2 h "" +:+ ":" +:+ digits 2 mi "" +:+ ":"
               +:+ digits 2 s "" +:+ "." +:+ digits 3 f "" +:+ "Z") = true.
Proof.
  intros Hm Hd Hh Hmi Hs Hf.
  pose proof (field2 m 1 12 ltac:(lia) Hm) as F1.
  pose proof (field2 d 1 31 ltac:(lia) Hd) as F2.
  pose proof (field2 h 0 23 ltac:(lia) Hh) as F3.
  pose proof (field2 mi 0 59 ltac:(lia) Hmi) as F4.
  pose proof (field2 s 0 59 ltac:(lia) Hs) as F5.
  pose proof (field3 f ltac:(lia)) as F6.
  cbn [digits] in *. cbv [String.append is_iso_tail].
  rewrite F1, F2, F3, F4, F5, F6. reflexivity.
Qed.

Lemma is_iso_instant_year y tail :
  is_iso_tail tail = true -> is_iso_instant (year_string y +:+ tail) = true.
Proof.
  intros Ht. unfold year_string.
  destruct ((0 <=? y) && (y <=? 9999)).
  - cbn [digits]. cbv [String.append is_iso_instant].
    destruct (digit_char (y / 10 / 10 / 10)) as [-> _],
             (digit_char (y / 10 / 10)) as [-> _],
             (digit_char (y / 10)) as [-> _], (digit_char y) as [-> _].
    exact Ht.
  - cbn [digits]. cbv [String.append is_iso_instant].
    set (a := Z.abs y).
    destruct (digit_char (a / 10 / 10 / 10 / 10 / 10)) as [-> _],
             (digit_char (a / 10 / 10 / 10 / 10)) as [-> _],
             (digit_char (a / 10 / 10 / 10)) as [-> _],
             (digit_char (a / 10 / 10)) as [-> _],
             (digit_char (a / 10)) as [-> _], (digit_char a) as [-> _].
    rewrite Ht. destruct (y <? 0); reflexivity.
Qed.

(** Every string produced by [toISOString] is a well-formed instant. *)
Lemma iso_string_well_formed t : is_iso_instant (iso_string t) = true.
Proof.
  unfold iso_string.
  pose proof (civil_from_days_range (t / ms_per_day)) as H.
  destruct (civil_from_days (t / ms_per_day)) as [[y m] d].
  destruct H as [Hm Hd].
  pose proof (Z.mod_pos_bound t ms_per_day ltac:(unfold ms_per_day; lia)) as Hr.
  unfold ms_per_day in *.
  apply is_iso_instant_year, is_iso_tail_fields; try assumption;
    Z.div_mod_to_equations; lia.
Qed.

End IsoFacts.

(** ** Reasoning about computations *)

Section WpRules.
Context {A B : Type}.

Lemma wp_returns (m : M A) w (P : A -> world -> Prop) :
  wp m w (fun r w' => match r with Return a => P a w' | Throw _ => False end) ->
  exists a w', m w = (Return a, w') /\ P a w'.
Proof.
  unfold wp. destruct (m w) as [[a|e] w']; simpl; [eauto | tauto].
Qed.

Lemma wp_eq (m : M A) w r w' :
  wp m w (fun r0 w0 => r0 = r /\ w0 = w') -> m w = (r, w').
Proof. unfold wp. destruct (m w); simpl. now intros [-> ->]. Qed.

Lemma wp_ret (a : A) w Q : Q (Return a) w -> wp (ret a) w Q.
Proof. exact id. Qed.

Lemma wp_throw e w (Q : result A -> world -> Prop) :
  Q (Throw e) w -> wp (throw e) w Q.
Proof. exact id. Qed.

Lemma wp_bind (m : M A) (k : A -> M B) w Q :
  wp m w (fun r w' => match r with
                      | Return a => wp (k a) w' Q
                      | Throw e => Q (Throw e) w'
                      end) ->
  wp (bind m k) w Q.
Proof. unfold wp, bind. destruct (m w) as [[a|e] w']; exact id. Qed.

Lemma wp_try (m : M A) (h : value -> M A) w Q :
  wp m w (fun r w' => match r with
                      | Return a => Q (Return a) w'
                      | Throw e => wp (h e) w' Q
                      end) ->
  wp (try_catch m h) w Q.
Proof. unfold wp, try_catch. destruct (m w) as [[a|e] w']; exact id. Qed.

Lemma wp_mono (m : M A) w (Q Q' : result A -> world -> Prop) :
  (forall r w', Q r w' -> Q' r w') -> wp m w Q -> wp m w Q'.
Proof. unfold wp. auto. Qed.

End WpRules.

Section WpEffects.

Lemma wp_Date_now w Q :
  Q (Return (clock w (reads w))) (tick w) -> wp Date_now w Q.
Proof. exact id. Qed.

Lemma wp_new_Date_now w Q :
  Q (Return (Some (clock w (reads w)))) (tick w) -> wp new_Date_now w Q.
Proof. exact id. Qed.

Lemma wp_toISOString t w Q :
  Q (Return (iso_string t)) w -> wp (toISOString (Some t)) w Q.
Proof. exact id. Qed.

Lemma wp_viesCall cc vn w Q :
  match vies w cc vn with
  | Resolved v => Q (Return v) (called cc vn w)
  | Rejected e => Q (Throw e) (called cc vn w)
  end -> wp (viesCall cc vn) w Q.
Proof. unfold wp, viesCall. destruct (vies w cc vn); exact id. Qed.

Lemma wp_s3_put k d w Q :
  (if s3_up w (requests w) then Q (Return tt) (stored k (json d) w)
   else forall e, Q (Throw e) (sent w)) ->
  wp (s3_put k d) w Q.
Proof. unfold wp, s3_put. destruct (s3_up w (requests w)); simpl; auto. Qed.

Lemma wp_s3_get k w Q :
  (if s3_up w (requests w) then
     match bucket w !! k with
     | Some v => Q (Return v) (sent w)
     | None => forall e, Q (Throw e) (sent w)
     end
   else forall e, Q (Throw e) (sent w)) ->
  wp (s3_get k) w Q.
Proof.
  unfold wp, s3_get. destruct (s3_up w (requests w)); simpl; auto.
  destruct (bucket w !! k); simpl; auto.
Qed.

Lemma wp_member v k w Q :
  match v with
  | VUndefined | VNull => forall e, Q (Throw e) w
  | _ => Q (Return (prop v k)) w
  end -> wp (member v k) w Q.
Proof. unfold wp. destruct v; simpl; auto. Qed.

Lemma wp_converted {A} (o : option A) w (Q : result A -> world -> Prop) :
  match o with
  | Some a => Q (Return a) w
  | None => Q (Throw (js_error "TypeError"
                        "Cannot convert object to primitive value")) w
  end -> wp (converted o) w Q.
Proof. unfold wp. destruct o; simpl; auto. Qed.

End WpEffects.

Ltac wp_step :=
  lazymatch goal with
  | |- wp (bind _ _) _ _ => apply wp_bind
  | |- wp (try_catch _ _) _ _ => apply wp_try
  | |- wp (ret _) _ _ => apply wp_ret
  | |- wp (throw _) _ _ => apply wp_throw
  | |- wp Date_now _ _ => apply wp_Date_now
  | |- wp new_Date_now _ _ => apply wp_new_Date_now
  | |- wp (toISOString (Some _)) _ _ => apply wp_toISOString
  | |- wp (viesCall _ _) _ _ => apply wp_viesCall
  | |- wp (s3_put _ _) _ _ => apply wp_s3_put
  | |- wp (s3_get _) _ _ => apply wp_s3_get
  | |- wp (member _ _) _ _ => apply wp_member
  | |- wp (converted _) _ _ => apply wp_converted
  end; cbn beta iota.

Ltac wp_run := repeat wp_step.

(** ** Objects: lookup, update and spread *)

Section Objects.

Lemma assoc_set_prop_eq k x f : assoc k (set_prop k x f) = Some x.
Proof.
  induction f as [|[k' y] r IH]; simpl.
  - now rewrite String.eqb_refl.
  - destruct (String.eqb k k') eqn:E; simpl; rewrite E; [reflexivity | exact IH].
Qed.

Lemma assoc_set_prop_ne k k' x f :
  k <> k' -> assoc k (set_prop k' x f) = assoc k f.
Proof.
  intros Hne. induction f as [|[k'' y] r IH]; simpl.
  - destruct (String.eqb_spec k k'); [contradiction | reflexivity].
  - destruct (String.eqb_spec k' k'') as [->|Hn]; simpl.
    + destruct (String.eqb_spec k k''); [contradiction | reflexivity].
    + now rewrite IH.
Qed.

Lemma of_Z_not_name i k : is_name k = true -> of_Z i <> k.
Proof.
  intros Hk E. subst k. unfold of_Z in Hk.
  destruct (Z.to_int i) as [d|d]; simpl in Hk.
  - destruct d; discriminate Hk.
  - discriminate Hk.
Qed.

Lemma assoc_indexed k i l : is_name k = true -> assoc k (indexed i l) = None.
Proof.
  intros Hk. revert i. induction l as [|x r IH]; intros i; simpl; [reflexivity|].
  destruct (String.eqb_spec k (of_Z i)) as [E|_]; [|apply IH].
  symmetry in E. now apply of_Z_not_name in E.
Qed.

Lemma assoc_own_props v k :
  is_name k = true -> default VUndefined (assoc k (own_props v)) = prop v k.
Proof.
  intros Hk. destruct v; simpl; try reflexivity; now rewrite assoc_indexed.
Qed.

Lemma present_own_props v k :
  present v k = true -> present (VObj (own_props v)) k = true.
Proof. destruct v; simpl; congruence. Qed.

End Objects.

(** ** The validator of [src/validate.js] *)

Section ValidateFacts.
Context {host : Host}.
Variable env : process_env.

Lemma clock_after_put k d w : clock (after_put env k d w) = clock w.
Proof. unfold after_put. now repeat case_match. Qed.

Lemma reads_after_put k d w : reads (after_put env k d w) = reads w.
Proof. unfold after_put. now repeat case_match. Qed.

Lemma s3_up_after_put k d w : s3_up (after_put env k d w) = s3_up w.
Proof. unfold after_put. now repeat case_match. Qed.

Lemma vies_after_put k d w : vies (after_put env k d w) = vies w.
Proof. unfold after_put. now repeat case_match. Qed.

Lemma upstream_log_after_put k d w :
  upstream_log (after_put env k d w) = upstream_log w.
Proof. unfold after_put. now repeat case_match. Qed.

Lemma requests_after_put k d w :
  requests (after_put env k d w)
  = if bucket_set env then S (requests w) else requests w.
Proof. unfold after_put. now repeat case_match. Qed.

Lemma bucket_after_put_ne k d w k' :
  k <> k' -> bucket (after_put env k d w) !! k' = bucket w !! k'.
Proof.
  intros Hne. unfold after_put. repeat case_match; try reflexivity.
  simpl. now rewrite lookup_insert_ne.
Qed.

Lemma bucket_after_put_eq k d w :
  bucket_set env = true -> s3_up w (requests w) = true ->
  bucket (after_put env k d w) !! k = Some (json d).
Proof.
  intros Hb Hu. unfold after_put. rewrite Hb, Hu. simpl.
  apply lookup_insert_eq.
Qed.

Lemma logs_not_cache x y : "logs/" +:+ x <> "cache/" +:+ y.
Proof. cbv [String.append]. discriminate. Qed.

Lemma wp_putJSON k d w Q :
  Q (Return tt) (after_put env k d w) -> wp (Validate.putJSON env k d) w Q.
Proof.
  unfold wp, Validate.putJSON, after_put, try_catch, s3_put, ret.
  destruct (bucket_set env); simpl; [|exact id].
  destruct (s3_up w (requests w)); exact id.
Qed.

Lemma wp_getJSON k w Q :
  (if bucket_set env then
     Q (Return (if s3_up w (requests w)
                then default VNull (bucket w !! k) else VNull)) (sent w)
   else Q (Return VNull) w) ->
  wp (Validate.getJSON env k) w Q.
Proof.
  unfold wp, Validate.getJSON, try_catch, s3_get, ret.
  destruct (bucket_set env); simpl; [|exact id].
  destruct (s3_up w (requests w)); [|exact id].
  destruct (bucket w !! k); exact id.
Qed.

(** A log entry is no cache record: it has no [payload]. *)
Lemma audit_entry_has_no_payload t cc vn email :
  prop (json (VObj [("t", VStr t); ("countryCode", VStr cc);
                    ("vatNumber", VStr vn); ("email", email)])) "payload"
  = VUndefined.
Proof. destruct email; reflexivity. Qed.

(** The audit never fails; it reads the clock once and touches at most one
    object, a log entry under [logs/]. *)
Lemma wp_audit cc vn email w Q :
  (forall k d,
      prop (json d) "payload" = VUndefined ->
      Q (Return tt) (after_put env ("logs/" +:+ k) d (tick w))) ->
  wp (Validate.audit env cc vn email) w Q.
Proof.
  intros H. unfold Validate.audit. wp_run.
  rewrite to_string_or_else_str. cbn beta iota.
  apply wp_putJSON. apply H.
  apply audit_entry_has_no_payload.
Qed.

(** *** The catch block *)

Lemma wp_getCached cc vn w Q :
  wp (rec <- Validate.getJSON env (cache_key cc vn) ;;
      if negb (truthy rec) then ret VNull
      else
        now <- Date_now ;;
        cachedAt <- converted (new_Date (prop rec "cachedAt")) ;;
        let fresh :=
          match cachedAt with
          | Some t => now - t <? Validate.CACHE_TTL_MS env
          | None => false
          end in
        ret (if fresh then prop rec "payload" else VNull)) w Q ->
  wp (Validate.getCached env (VStr cc) (VStr vn)) w Q.
Proof.
  intros H. unfold Validate.getCached. rewrite cacheKey_strings.
  wp_step. wp_step. exact H.
Qed.

Lemma cache_fallback_hit cc vn lookupId err w rec t :
  bucket_set env = true ->
  s3_up w (requests w) = true ->
  bucket w !! cache_key cc vn = Some rec ->
  new_Date (prop rec "cachedAt") = Some (Some t) ->
  clock w (reads w) - t < Validate.CACHE_TTL_MS env ->
  truthy (prop rec "payload") = true ->
  Validate.cache_fallback env cc vn lookupId err w
  = (Return (spread (prop rec "payload")
               [("requestDate", VStr (iso_string (clock w (S (reads w)))));
                ("lookupId", VStr lookupId);
                ("source", VStr "cache");
                ("cacheTtlMs", VNum (Validate.CACHE_TTL_MS env));
                ("cached", VBool true)]),
     tick (tick (sent w))).
Proof.
  intros Hb Hu Hrec Ht Hfresh Hp. apply wp_eq.
  unfold Validate.cache_fallback. wp_step. apply wp_getCached. wp_run.
  apply wp_getJSON. rewrite Hb, Hu, Hrec. simpl default.
  assert (truthy rec = true) as ->.
  { destruct rec; try discriminate Ht; reflexivity. }
  simpl negb. cbn beta iota. wp_run.
  rewrite Ht. cbn beta iota zeta. simpl reads. simpl clock.
  apply Z.ltb_lt in Hfresh. rewrite Hfresh. wp_run. rewrite Hp. wp_run.
  split; reflexivity.
Qed.

Lemma cache_fallback_miss cc vn lookupId err w message :
  message_of err = Some message ->
  cache_entry_dated (bucket w) (cache_key cc vn) ->
  (forall p, ~ fresh_at (Validate.CACHE_TTL_MS env) (bucket w)
                 (cache_key cc vn) (clock w (reads w)) p) ->
  exists k w',
    Validate.cache_fallback env cc vn lookupId err w
    = (Return (soft_failure cc vn lookupId (iso_string (clock w k))
                 (Validate.CACHE_TTL_MS env)
                 (fallback_tag message)),
       w')
    /\ (reads w <= k)%nat.
Proof.
  intros Hmsg Hdated Hno. unfold message_of in Hmsg.
  cut (wp (Validate.cache_fallback env cc vn lookupId err) w
         (fun r w' => exists k, r = Return (soft_failure cc vn lookupId (iso_string (clock w k))
                 (Validate.CACHE_TTL_MS env)
                 (fallback_tag message)) /\ (reads w <= k)%nat)).
  { unfold wp. destruct (Validate.cache_fallback env cc vn lookupId err w) as [r w'].
    simpl. intros (k & -> & Hk). eauto. }
  unfold fallback_tag, Validate.cache_fallback. wp_step. apply wp_getCached. wp_run.
  apply wp_getJSON.
  assert (Hsoft : forall w1, (reads w <= reads w1)%nat ->
            clock w1 = clock w ->
            wp (if truthy VNull then
                  d <- new_Date_now ;;
                  requestDate <- toISOString d ;;
                  ret (spread VNull
                         [("requestDate", VStr requestDate);
                          ("lookupId", VStr lookupId);
                          ("source", VStr "cache");
                          ("cacheTtlMs", VNum (Validate.CACHE_TTL_MS env));
                          ("cached", VBool true)])
                else
                  d <- new_Date_now ;;
                  requestDate <- toISOString d ;;
                  message <- converted (to_string (or_else (opt_member err "message")
                                                           (VStr "unavailable"))) ;;
                  ret (VObj [("countryCode", VStr cc);
                             ("vatNumber", VStr vn);
                             ("valid", VBool false);
                             ("name", VNull);
                             ("address", VNull);
                             ("requestDate", VStr requestDate);
                             ("lookupId", VStr lookupId);
                             ("source", VStr "error");
                             ("cacheTtlMs", VNum (Validate.CACHE_TTL_MS env));
                             ("error", VStr ("fallback:" +:+ message))])) w1
              (fun r _ => exists k, r = Return (soft_failure cc vn lookupId
                   (iso_string (clock w k)) (Validate.CACHE_TTL_MS env)
                   ("fallback:" +:+ message)) /\ (reads w <= k)%nat)).
  { intros w1 Hle Hclock. simpl truthy. cbn iota. wp_run. rewrite Hmsg.
    cbn beta iota. wp_run. rewrite Hclock. exists (reads w1). split; [reflexivity | lia]. }
  destruct (bucket_set env).
  - destruct (s3_up w (requests w)).
    + destruct (bucket w !! cache_key cc vn) as [rec|] eqn:Hrec;
        simpl default.
      * destruct (truthy rec) eqn:Hr; simpl negb; cbn beta iota; wp_run.
        -- pose proof (Hdated rec Hrec) as Hd. unfold printable in Hd.
           destruct (new_Date (prop rec "cachedAt")) as [[t|]|] eqn:Ht;
             cbn beta iota zeta.
           ++ simpl reads. simpl clock.
              destruct (Z.ltb_spec (clock w (reads w) - t) (Validate.CACHE_TTL_MS env)).
              ** exfalso. eapply Hno. exists rec, t. eauto.
              ** wp_run. apply Hsoft; simpl; [lia | reflexivity].
           ++ wp_run. apply Hsoft; simpl; [lia | reflexivity].
           ++ exfalso. revert Ht Hd. clear.
              unfold new_Date, to_number.
              destruct (prop rec "cachedAt"); try discriminate;
                destruct (to_string _); discriminate.
        -- apply Hsoft; simpl; [lia | reflexivity].
      * simpl negb. cbn beta iota. wp_run. apply Hsoft; simpl; [lia | reflexivity].
    + simpl negb. cbn beta iota. wp_run. apply Hsoft; simpl; [lia | reflexivity].
  - simpl negb. cbn beta iota. wp_run. apply Hsoft; simpl; [lia | reflexivity].
Qed.

End ValidateFacts.

Section ValidateCalls.
Context {host : Host}.
Variable env : process_env.

Lemma json_obj f : json (VObj f) = VObj (json_fields f).
Proof. reflexivity. Qed.

Lemma assoc_json_fields_ne k k' x r :
  k <> k' -> assoc k (json_fields ((k', x) :: r)) = assoc k (json_fields r).
Proof.
  intros Hne. destruct x; simpl; try reflexivity;
    destruct (String.eqb_spec k k'); congruence.
Qed.

Lemma assoc_json_fields_first k f x :
  assoc k f = Some x -> x <> VUndefined ->
  assoc k (json_fields f) = Some (json x).
Proof.
  induction f as [|[k' y] r IH]; simpl; [discriminate|].
  destruct (String.eqb_spec k k') as [->|Hne].
  - intros [= ->] Hx. destruct x; try congruence; simpl;
      now rewrite String.eqb_refl.
  - intros Hr Hx. specialize (IH Hr Hx).
    destruct y; simpl; try exact IH;
      destruct (String.eqb_spec k k'); congruence.
Qed.

Lemma cache_record_payload c p :
  prop (json (VObj [("cachedAt", VStr c); ("payload", p)])) "payload" = json p.
Proof. destruct p; reflexivity. Qed.

Lemma cache_record_cachedAt c p :
  prop (json (VObj [("cachedAt", VStr c); ("payload", p)])) "cachedAt" = VStr c.
Proof. destruct p; reflexivity. Qed.

Lemma cache_record_object c p :
  exists f, json (VObj [("cachedAt", VStr c); ("payload", p)]) = VObj f.
Proof. rewrite json_obj. eauto. Qed.

Lemma or_else_defined a b : b <> VUndefined -> or_else a b <> VUndefined.
Proof. unfold or_else. destruct a; simpl; try congruence; case_match; congruence. Qed.

Lemma wp_normalizeRequestDate rd w Q :
  match upstream_instant rd with
  | Some t => Q (Return (iso_string t)) w
  | None => Q (Return (iso_string (clock w (reads w)))) (tick w)
  end -> wp (Validate.normalizeRequestDate rd) w Q.
Proof.
  destruct rd; simpl; try exact id.
  - unfold wp, bind, converted. simpl.
    destruct (t ← Date_parse (fix_offset s); TimeClip t); exact id.
  - destruct t; exact id.
Qed.

Lemma wp_member_readable v k w Q :
  readable v -> Q (Return (prop v k)) w -> wp (member v k) w Q.
Proof. intros [Hu Hn] HQ. destruct v; try exact HQ; congruence. Qed.

Lemma live_vies_fail cc vn lookupId w err :
  upstream_failure (vies w (VStr cc) (VStr vn)) = Some err ->
  Validate.live_vies env cc vn lookupId w
  = (Throw err, called (VStr cc) (VStr vn) w).
Proof.
  intros Hf. unfold Validate.live_vies, bind, viesCall.
  destruct (vies w (VStr cc) (VStr vn)) as [res|e]; simpl in Hf.
  - destruct res; try discriminate Hf; injection Hf as <-; reflexivity.
  - now injection Hf as <-.
Qed.

(** The world in which [setCached] runs after a readable answer: the
    clock has been read once more if the timestamp had to be replaced. *)
Lemma live_vies_ok cc vn lookupId w res :
  vies w (VStr cc) (VStr vn) = Resolved res -> readable res ->
  let w0 := called (VStr cc) (VStr vn) w in
  let w1 := match upstream_instant (prop res "requestDate") with
            | Some _ => w0
            | None => tick w0
            end in
  let requestDate :=
    iso_string (match upstream_instant (prop res "requestDate") with
                | Some t => t
                | None => clock w (reads w)
                end) in
  let payload :=
    vies_result res cc vn lookupId requestDate (Validate.CACHE_TTL_MS env) in
  Validate.live_vies env cc vn lookupId w
  = (Return payload,
     after_put env (cache_key cc vn)
       (VObj [("cachedAt", VStr (iso_string (clock w (reads w1))));
              ("payload", payload)])
       (tick w1)).
Proof.
  intros Hv [Hu Hn] w0 w1 requestDate payload. apply wp_eq.
  unfold Validate.live_vies. wp_step. wp_step. rewrite Hv.
  do 6 (apply wp_bind, wp_member_readable; [split; assumption|]; cbn beta iota).
  wp_step.
  apply wp_normalizeRequestDate.
  subst payload requestDate w1 w0. unfold vies_result.
  destruct (upstream_instant (prop res "requestDate")) as [t|];
    wp_run; unfold Validate.setCached; rewrite cacheKey_strings; wp_run;
    apply wp_putJSON; wp_run; split; reflexivity.
Qed.

(** [checkVAT] up to the upstream call: one clock reading for the lookup
    identifier, then the audit. *)
Lemma wp_checkVAT args cc vn w Q :
  Validate.normalize_cc (countryCode args) = Some cc ->
  Validate.normalize_vn (vatNumber args) = Some vn ->
  let lookupId := lookupId_of cc vn (clock w (reads w)) in
  (forall k d,
      prop (json d) "payload" = VUndefined ->
      wp (try_catch (Validate.live_vies env cc vn lookupId)
                    (Validate.cache_fallback env cc vn lookupId))
         (after_put env ("logs/" +:+ k) d (tick (tick w))) Q) ->
  wp (Validate.checkVAT env args) w Q.
Proof.
  intros Hcc Hvn lookupId H. unfold Validate.checkVAT. rewrite Hcc, Hvn.
  wp_run. apply wp_audit. intros k d Hd. cbn beta iota. now apply H.
Qed.

(** The two coercions of lines 109 and 110 are not guarded: an input that
    does not convert to a string makes [checkVAT] throw, in the world it
    was called in. *)
Lemma checkVAT_unconvertible args w :
  Validate.normalize_cc (countryCode args) = None
  \/ Validate.normalize_vn (vatNumber args) = None ->
  exists e, Validate.checkVAT env args w = (Throw e, w).
Proof.
  unfold Validate.checkVAT, bind.
  destruct (Validate.normalize_cc (countryCode args)) as [cc|]; simpl.
  - intros [H|H]; [discriminate H|]. rewrite H. simpl. eauto.
  - intros _. eauto.
Qed.

(** On upstream failure [checkVAT] is its catch block, run two clock
    readings and at most one S3 request later. *)
Lemma checkVAT_on_failure args cc vn w err :
  Validate.normalize_cc (countryCode args) = Some cc ->
  Validate.normalize_vn (vatNumber args) = Some vn ->
  upstream_failure (vies w (VStr cc) (VStr vn)) = Some err ->
  exists k d,
    prop (json d) "payload" = VUndefined
    /\ Validate.checkVAT env args w
       = Validate.cache_fallback env cc vn
           (lookupId_of cc vn (clock w (reads w))) err
           (called (VStr cc) (VStr vn)
              (after_put env ("logs/" +:+ k) d (tick (tick w)))).
Proof.
  intros Hcc Hvn Hf.
  cut (wp (Validate.checkVAT env args) w
         (fun r w' => exists k d,
              prop (json d) "payload" = VUndefined
              /\ (r, w') = Validate.cache_fallback env cc vn
                             (lookupId_of cc vn (clock w (reads w))) err
                             (called (VStr cc) (VStr vn)
                                (after_put env ("logs/" +:+ k) d
                                   (tick (tick w)))))).
  { unfold wp. destruct (Validate.checkVAT env args w). simpl. exact id. }
  apply (wp_checkVAT args cc vn); [exact Hcc | exact Hvn |]. intros k d Hd.
  unfold wp, try_catch. rewrite live_vies_fail with (err := err).
  - exists k, d. split; [exact Hd|].
    now destruct (Validate.cache_fallback _ _ _ _ _ _).
  - now rewrite vies_after_put.
Qed.

Lemma checkVAT_on_success args cc vn w res :
  Validate.normalize_cc (countryCode args) = Some cc ->
  Validate.normalize_vn (vatNumber args) = Some vn ->
  vies w (VStr cc) (VStr vn) = Resolved res -> readable res ->
  exists k d,
    prop (json d) "payload" = VUndefined
    /\ Validate.checkVAT env args w
       = Validate.live_vies env cc vn (lookupId_of cc vn (clock w (reads w)))
           (after_put env ("logs/" +:+ k) d (tick (tick w))).
Proof.
  intros Hcc Hvn Hv Hr.
  cut (wp (Validate.checkVAT env args) w
         (fun r w' => exists k d,
              prop (json d) "payload" = VUndefined
              /\ (r, w') = Validate.live_vies env cc vn
                             (lookupId_of cc vn (clock w (reads w)))
                             (after_put env ("logs/" +:+ k) d (tick (tick w))))).
  { unfold wp. destruct (Validate.checkVAT env args w). simpl. exact id. }
  apply (wp_checkVAT args cc vn); [exact Hcc | exact Hvn |]. intros k d Hd.
  unfold wp, try_catch. exists k, d. split; [exact Hd|].
  rewrite live_vies_ok with (res := res); [reflexivity | | exact Hr].
  now rewrite vies_after_put.
Qed.

End ValidateCalls.

Section Spread.

Lemma assoc_app k f g :
  assoc k (f ++ g) = match assoc k f with Some x => Some x | None => assoc k g end.
Proof.
  induction f as [|[k' x] r IH]; simpl; [reflexivity|].
  now destruct (String.eqb k k').
Qed.

Lemma assoc_fold_set k more f :
  assoc k (fold_left (fun f kx => set_prop (fst kx) (snd kx) f) more f)
  = match assoc k (rev more) with
    | Some x => Some x
    | None => assoc k f
    end.
Proof.
  revert f. induction more as [|[k' x] r IH]; intros f; simpl; [reflexivity|].
  rewrite IH, assoc_app. destruct (assoc k (rev r)); [reflexivity|].
  simpl. destruct (String.eqb_spec k k') as [->|Hne].
  - apply assoc_set_prop_eq.
  - now apply assoc_set_prop_ne.
Qed.

Lemma prop_spread p more k :
  is_name k = true ->
  prop (spread p more) k
  = match assoc k (rev more) with
    | Some x => x
    | None => prop p k
    end.
Proof.
  intros Hk. unfold spread, prop at 1. rewrite assoc_fold_set.
  destruct (assoc k (rev more)); [reflexivity|]. now apply assoc_own_props.
Qed.

Lemma present_spread p more k :
  present (spread p more) k
  = match assoc k (rev more) with
    | Some VUndefined => false
    | Some _ => true
    | None => present (VObj (own_props p)) k
    end.
Proof.
  unfold spread, present at 1. rewrite assoc_fold_set.
  destruct (assoc k (rev more)) as [x|]; reflexivity.
Qed.

End Spread.

Section ValidateResults.
Context {host : Host}.
Variable env : process_env.

Lemma upstream_failure_None o :
  upstream_failure o = None -> exists res, o = Resolved res /\ readable res.
Proof.
  destruct o as [res|e]; [|discriminate].
  intros H. exists res. split; [reflexivity|].
  split; intros ->; discriminate H.
Qed.

Lemma present_or_else a b k r :
  b <> VUndefined -> present (VObj ((k, or_else a b) :: r)) k = true.
Proof.
  intros Hb. simpl. rewrite String.eqb_refl.
  pose proof (or_else_defined a b Hb). now destruct (or_else a b).
Qed.

Lemma vies_result_well_formed res cc vn lookupId requestDate ttl :
  well_formed_result (vies_result res cc vn lookupId requestDate ttl) = true.
Proof.
  unfold well_formed_result, vies_result, declared_fields, forallb, present.
  cbn [assoc String.eqb Ascii.eqb Bool.eqb].
  pose proof (or_else_defined (prop res "countryCode") (VStr cc) ltac:(discriminate)).
  pose proof (or_else_defined (prop res "vatNumber") (VStr vn) ltac:(discriminate)).
  pose proof (or_else_defined (prop res "name") VNull ltac:(discriminate)).
  pose proof (or_else_defined (prop res "address") VNull ltac:(discriminate)).
  destruct (or_else (prop res "countryCode") (VStr cc)); try congruence;
  destruct (or_else (prop res "vatNumber") (VStr vn)); try congruence;
  destruct (or_else (prop res "name") VNull); try congruence;
  destruct (or_else (prop res "address") VNull); try congruence; reflexivity.
Qed.

Lemma spread_cached_well_formed p requestDate lookupId ttl :
  forallb (present p) payload_fields = true ->
  well_formed_result
    (spread p [("requestDate", VStr requestDate); ("lookupId", VStr lookupId);
               ("source", VStr "cache"); ("cacheTtlMs", VNum ttl);
               ("cached", VBool true)]) = true.
Proof.
  unfold payload_fields, well_formed_result, declared_fields. cbn [forallb].
  rewrite !andb_true_r, !andb_true_iff.
  intros (H1 & H2 & H3 & H4 & H5).
  rewrite !present_spread.
  cbn [rev app assoc String.eqb Ascii.eqb Bool.eqb].
  now rewrite !present_own_props.
Qed.

Lemma new_Date_printable v :
  printable v = true -> exists t, new_Date v = Some t.
Proof.
  unfold printable, new_Date, to_number.
  destruct v; try (intros _; eauto; fail);
    destruct (to_string _); try discriminate; eauto.
Qed.

(** The catch block makes no upstream call and writes nothing. It returns
    a well-formed result when the cache record it may read has a
    well-formed payload, and it throws only when the message of the failure
    or the [cachedAt] of that record cannot be converted. *)
Lemma cache_fallback_total cc vn lookupId err w :
  wp (Validate.cache_fallback env cc vn lookupId err) w
     (fun r w' =>
        (upstream_log w' = upstream_log w /\ bucket w' = bucket w)
        /\ match r with
           | Return v =>
               cache_entry_ok (bucket w) (cache_key cc vn) ->
               well_formed_result v = true
           | Throw _ =>
               describable err = true ->
               cache_entry_dated (bucket w) (cache_key cc vn) -> False
           end).
Proof.
  unfold Validate.cache_fallback. wp_step. apply wp_getCached. wp_run.
  apply wp_getJSON.
  assert (forall w0 : world,
             upstream_log w0 = upstream_log w /\ bucket w0 = bucket w ->
             wp (d <- new_Date_now;;
                 requestDate <- toISOString d;;
                 message <- converted (to_string (or_else (opt_member err "message")
                                                          (VStr "unavailable"))) ;;
                 ret (VObj [("countryCode", VStr cc); ("vatNumber", VStr vn);
                            ("valid", VBool false); ("name", VNull);
                            ("address", VNull); ("requestDate", VStr requestDate);
                            ("lookupId", VStr lookupId); ("source", VStr "error");
                            ("cacheTtlMs", VNum (Validate.CACHE_TTL_MS env));
                            ("error", VStr ("fallback:" +:+ message))]))%js
                w0
                (fun r w' =>
                   (upstream_log w' = upstream_log w /\ bucket w' = bucket w)
                   /\ match r with
                      | Return v =>
                          cache_entry_ok (bucket w) (cache_key cc vn) ->
                          well_formed_result v = true
                      | Throw _ =>
                          describable err = true ->
                          cache_entry_dated (bucket w) (cache_key cc vn) -> False
                      end)) as Hsoft.
  { intros w0 Hlog. wp_run. unfold describable, printable.
    destruct (to_string _); [wp_run|]; (split; [exact Hlog|]);
      [reflexivity | discriminate]. }
  destruct (bucket_set env);
    [|simpl negb; cbn iota; wp_run; apply Hsoft; now split].
  destruct (s3_up w (requests w));
    [|simpl negb; cbn iota; wp_run; apply Hsoft; now split].
  destruct (bucket w !! cache_key cc vn) as [rec|] eqn:Hrec;
    simpl default; [|simpl negb; cbn iota; wp_run; apply Hsoft; now split].
  destruct (truthy rec); simpl negb; cbn iota; wp_run;
    [|apply Hsoft; now split].
  destruct (new_Date (prop rec "cachedAt")) as [cachedAt|] eqn:Ht.
  2:{ split; [now split|]. intros _ Hdated.
      destruct (new_Date_printable _ (Hdated rec Hrec)) as [t Ht'].
      congruence. }
  cbn zeta. wp_run.
  match goal with |- context [if ?c then prop rec "payload" else VNull] =>
    destruct c end; [|apply Hsoft; now split].
  destruct (truthy (prop rec "payload")) eqn:Hp; [|apply Hsoft; now split].
  wp_run. split; [now split|].
  intros Hok. apply spread_cached_well_formed. now apply (Hok rec).
Qed.

Lemma bucket_after_audit k d w cc vn :
  bucket (after_put env ("logs/" +:+ k) d w) !! cache_key cc vn
  = bucket w !! cache_key cc vn.
Proof. apply bucket_after_put_ne, logs_not_cache. Qed.

(** C1, for [src/validate.js]: when both inputs convert to strings,
    [checkVAT] returns, calls the upstream exactly once with the normalized
    strings, and its result has every declared field; the failure it may
    recover from has a message that converts, and so has the [cachedAt] of
    the record it may read. *)
Lemma checkVAT_total args cc vn w :
  Validate.normalize_cc (countryCode args) = Some cc ->
  Validate.normalize_vn (vatNumber args) = Some vn ->
  (forall err, upstream_failure (vies w (VStr cc) (VStr vn)) = Some err ->
               describable err = true) ->
  cache_entry_dated (bucket w) (cache_key cc vn) ->
  exists r w',
    Validate.checkVAT env args w = (Return r, w')
    /\ upstream_log w' = (upstream_log w ++ [(VStr cc, VStr vn)])%list
    /\ (cache_entry_ok (bucket w) (cache_key cc vn) ->
        well_formed_result r = true).
Proof.
  intros Hcc Hvn Hdesc Hdated.
  destruct (upstream_failure (vies w (VStr cc) (VStr vn))) as [err|] eqn:Hf.
  - destruct (checkVAT_on_failure env args cc vn w err Hcc Hvn Hf) as (k & d & Hd & ->).
    pose proof (cache_fallback_total cc vn (lookupId_of cc vn (clock w (reads w))) err
                  (called (VStr cc) (VStr vn)
                     (after_put env ("logs/" +:+ k) d (tick (tick w))))) as H.
    unfold wp in H.
    destruct (Validate.cache_fallback _ _ _ _ _ _) as [[r|e] w']; simpl in H;
      destruct H as [[Hlog _] H].
    + exists r, w'. split; [reflexivity|]. split.
      * rewrite Hlog. simpl. now rewrite upstream_log_after_put.
      * intros Hok. apply H. unfold cache_entry_ok.
        now rewrite bucket_after_audit.
    + exfalso. apply H; [now apply Hdesc|].
      unfold cache_entry_dated. now rewrite bucket_after_audit.
  - apply upstream_failure_None in Hf as (res & Hv & Hr).
    destruct (checkVAT_on_success env args cc vn w res Hcc Hvn Hv Hr) as (k & d & Hd & ->).
    rewrite live_vies_ok with (res := res);
      [| now rewrite vies_after_put | exact Hr].
    eexists _, _. split; [reflexivity|]. split.
    + rewrite upstream_log_after_put.
      destruct (upstream_instant (prop res "requestDate")); simpl;
        now rewrite upstream_log_after_put.
    + intros _. apply vies_result_well_formed.
Qed.

Lemma json_defined x : x <> VUndefined -> json x <> VUndefined.
Proof. destruct x as [| | | | | |[t|]| |]; simpl; congruence. Qed.

Lemma present_json v k : present v k = true -> present (json v) k = true.
Proof.
  destruct v; try discriminate. rewrite json_obj. simpl.
  destruct (assoc k fields) as [x|] eqn:E; [|discriminate].
  intros Hx. assert (x <> VUndefined) as Hd by (intros ->; discriminate).
  rewrite (assoc_json_fields_first k fields x E Hd).
  pose proof (json_defined x Hd). now destruct (json x).
Qed.

Lemma payload_ok_without_payload rec :
  prop rec "payload" = VUndefined -> payload_ok rec.
Proof. intros H. unfold payload_ok. rewrite H. discriminate. Qed.

Lemma payload_ok_cache_record c p :
  forallb (present p) payload_fields = true ->
  payload_ok (json (VObj [("cachedAt", VStr c); ("payload", p)])).
Proof.
  intros H _. rewrite cache_record_payload.
  rewrite forallb_forall in *. intros k Hk. apply present_json. now apply H.
Qed.

Lemma vies_result_has_payload_fields res cc vn lookupId requestDate ttl :
  forallb (present (vies_result res cc vn lookupId requestDate ttl))
          payload_fields = true.
Proof.
  pose proof (vies_result_well_formed res cc vn lookupId requestDate ttl) as H.
  unfold well_formed_result, declared_fields in H.
  unfold payload_fields. cbn [forallb] in *.
  rewrite !andb_true_iff in *. tauto.
Qed.

Lemma cache_entry_ok_after_put k d w key :
  payload_ok (json d) ->
  cache_entry_ok (bucket w) key ->
  cache_entry_ok (bucket (after_put env k d w)) key.
Proof.
  intros Hd Hok rec. unfold after_put.
  destruct (bucket_set env); [|apply Hok].
  destruct (s3_up w (requests w)); [|apply Hok].
  simpl. rewrite lookup_insert. case_decide; [|apply Hok].
  now intros [= <-].
Qed.

(** What [checkVAT] does to the bucket: nothing when an input does not
    convert; otherwise the audit entry, and after a readable answer the
    cache record. *)
Lemma checkVAT_bucket args w :
  bucket (snd (Validate.checkVAT env args w)) = bucket w
  \/ (exists k d, prop (json d) "payload" = VUndefined
       /\ bucket (snd (Validate.checkVAT env args w))
          = bucket (after_put env ("logs/" +:+ k) d (tick (tick w))))
  \/ (exists k d cc vn c res lookupId requestDate w0,
       prop (json d) "payload" = VUndefined
       /\ bucket w0 = bucket (after_put env ("logs/" +:+ k) d (tick (tick w)))
       /\ bucket (snd (Validate.checkVAT env args w))
          = bucket (after_put env (cache_key cc vn)
                      (VObj [("cachedAt", VStr c);
                             ("payload",
                              vies_result res cc vn lookupId requestDate
                                (Validate.CACHE_TTL_MS env))]) w0)).
Proof.
  destruct (Validate.normalize_cc (countryCode args)) as [cc|] eqn:Hcc;
    [|left; destruct (checkVAT_unconvertible env args w) as [e ->]; auto].
  destruct (Validate.normalize_vn (vatNumber args)) as [vn|] eqn:Hvn;
    [|left; destruct (checkVAT_unconvertible env args w) as [e ->]; auto].
  right.
  destruct (upstream_failure (vies w (VStr cc) (VStr vn))) as [err|] eqn:Hf.
  - left.
    destruct (checkVAT_on_failure env args cc vn w err Hcc Hvn Hf) as (k & d & Hd & ->).
    pose proof (cache_fallback_total cc vn (lookupId_of cc vn (clock w (reads w))) err
                  (called (VStr cc) (VStr vn)
                     (after_put env ("logs/" +:+ k) d (tick (tick w))))) as H.
    unfold wp in H. destruct H as [[_ ->] _]. simpl. eauto.
  - right. apply upstream_failure_None in Hf as (res & Hv & Hr).
    destruct (checkVAT_on_success env args cc vn w res Hcc Hvn Hv Hr) as (k & d & Hd & ->).
    rewrite live_vies_ok with (res := res);
      [| now rewrite vies_after_put | exact Hr].
    simpl. do 9 eexists. split; [exact Hd|]. split; [|reflexivity].
    now destruct (upstream_instant (prop res "requestDate")).
Qed.

(** Every cache record that [checkVAT] leaves behind has the payload
    fields: what [checkVAT_total] asks of the bucket is an invariant of the
    bucket under [checkVAT]. *)
Lemma checkVAT_keeps_cache_entries_ok args w key :
  cache_entry_ok (bucket w) key ->
  cache_entry_ok (bucket (snd (Validate.checkVAT env args w))) key.
Proof.
  intros Hok.
  destruct (checkVAT_bucket args w)
    as [-> | [(k & d & Hd & ->)
             | (k & d & cc & vn & c & res & l & rd & w0 & Hd & Hw0 & ->)]].
  - exact Hok.
  - apply cache_entry_ok_after_put;
      [now apply payload_ok_without_payload | exact Hok].
  - apply cache_entry_ok_after_put.
    + apply payload_ok_cache_record, vies_result_has_payload_fields.
    + rewrite Hw0. apply cache_entry_ok_after_put;
        [now apply payload_ok_without_payload | exact Hok].
Qed.

Lemma cache_entry_dated_after_put k d w key :
  printable (prop (json d) "cachedAt") = true ->
  cache_entry_dated (bucket w) key ->
  cache_entry_dated (bucket (after_put env k d w)) key.
Proof.
  intros Hd Hok rec. unfold after_put.
  destruct (bucket_set env); [|apply Hok].
  destruct (s3_up w (requests w)); [|apply Hok].
  simpl. rewrite lookup_insert. case_decide; [|apply Hok].
  now intros [= <-].
Qed.

(** Every cache record that [checkVAT] writes has a string for
    [cachedAt]: what [checkVAT_total] asks of the record it may read is an
    invariant of the cache under [checkVAT]. *)
Lemma checkVAT_keeps_cache_entries_dated args w cc vn :
  cache_entry_dated (bucket w) (cache_key cc vn) ->
  cache_entry_dated (bucket (snd (Validate.checkVAT env args w))) (cache_key cc vn).
Proof.
  intros Hok.
  destruct (checkVAT_bucket args w)
    as [-> | [(k & d & Hd & ->)
             | (k & d & cc' & vn' & c & res & l & rd & w0 & Hd & Hw0 & ->)]].
  - exact Hok.
  - unfold cache_entry_dated. now rewrite bucket_after_audit.
  - apply cache_entry_dated_after_put.
    + now rewrite cache_record_cachedAt.
    + rewrite Hw0. unfold cache_entry_dated. now rewrite bucket_after_audit.
Qed.

End ValidateResults.

(** ** Computations that never throw *)

Section Total.
Context {A B : Type}.

Lemma total_ret (a : A) : total (ret a).
Proof. intros w. now exists a, w. Qed.

Lemma total_bind (m : M A) (k : A -> M B) :
  total m -> (forall a, total (k a)) -> total (bind m k).
Proof.
  intros Hm Hk w. unfold bind. destruct (Hm w) as (a & w' & ->). apply Hk.
Qed.

Lemma total_try (m : M A) (h : value -> M A) :
  (forall e, total (h e)) -> total (try_catch m h).
Proof.
  intros Hh w. unfold try_catch. destruct (m w) as [[a|e] w']; [eauto | apply Hh].
Qed.

End Total.

(** ** The older validator of [src/lib/validate.js] *)

Section LibValidateFacts.
Context {host : Host}.
Variable env : process_env.

Lemma lib_getCached_total cc vn : total (LibValidate.getCached env cc vn).
Proof.
  unfold LibValidate.getCached. destruct (negb (LibValidate.BUCKET env)).
  - apply total_ret.
  - apply total_try. intros _. apply total_ret.
Qed.

Lemma lib_plus_enabled :
  match env_VATFIX_PLUS env with
  | Some s => String.eqb s "1"
  | None => false
  end = plus_enabled env.
Proof. reflexivity. Qed.

Lemma lib_cacheKey_printable cc vn key :
  LibValidate.cacheKey cc vn = Some key ->
  printable vn = true /\ exists x, key = "cache/" +:+ x.
Proof.
  unfold LibValidate.cacheKey, printable.
  destruct (to_string cc); [|discriminate].
  destruct (to_string vn); [|discriminate].
  intros [= <-]. eauto.
Qed.

(** The request log never fails and touches at most one object, under
    [logs/]; it reads the clock only when a bucket is configured, and
    sends nothing when the VAT number does not convert to a string. *)
Lemma wp_lib_request_log (args : vat_args) w Q :
  (printable (vatNumber args) = true ->
   forall k d,
      Q (Return tt)
        (if bucket_set env then after_put env ("logs/" +:+ k) d (tick w) else w)) ->
  (printable (vatNumber args) = false ->
   Q (Return tt) (if bucket_set env then tick w else w)) ->
  wp (try_catch
        (if LibValidate.BUCKET env then
           d <- new_Date_now ;;
           timestamp <- toISOString d ;;
           name <- converted (to_string (vatNumber args)) ;;
           s3_put ("logs/" +:+ timestamp +:+ "_" +:+ name +:+ ".json")
                  (VObj [("timestamp", VStr timestamp);
                         ("countryCode", countryCode args);
                         ("vatNumber", vatNumber args); ("email", email args)])
         else ret tt)
        (fun _ => ret tt)) w Q.
Proof.
  intros H H0. unfold LibValidate.BUCKET, printable in *.
  destruct (bucket_set env) eqn:Hb.
  - wp_run. destruct (to_string (vatNumber args)) as [name|].
    + wp_run. simpl.
      specialize (H eq_refl (iso_string (clock w (reads w)) +:+ "_"
                       +:+ name +:+ ".json")
                    (VObj [("timestamp", VStr (iso_string (clock w (reads w))));
                           ("countryCode", countryCode args);
                           ("vatNumber", vatNumber args); ("email", email args)])).
      unfold after_put in H. rewrite Hb in H. simpl in H.
      destruct (s3_up w (requests w)); [exact H | intros _; wp_run; exact H].
    + wp_run. now apply H0.
  - wp_run. destruct (to_string (vatNumber args)); [apply (H eq_refl "" VNull) | now apply H0].
Qed.

(** The same, for what does not depend on whether the entry was sent. *)
Lemma wp_lib_request_log_frame (args : vat_args) w Q :
  (forall w1, vies w1 = vies w -> bucket_set env = false -> w1 = w ->
              Q (Return tt) w1) ->
  (forall w1, vies w1 = vies w -> clock w1 = clock w ->
              reads w1 = S (reads w) ->
              bucket_set env = true ->
              (forall x, bucket w1 !! ("cache/" +:+ x) = bucket w !! ("cache/" +:+ x)) ->
              s3_up w1 = s3_up w ->
              (printable (vatNumber args) = true -> requests w1 = S (requests w)) ->
              upstream_log w1 = upstream_log w ->
              Q (Return tt) w1) ->
  wp (try_catch
        (if LibValidate.BUCKET env then
           d <- new_Date_now ;;
           timestamp <- toISOString d ;;
           name <- converted (to_string (vatNumber args)) ;;
           s3_put ("logs/" +:+ timestamp +:+ "_" +:+ name +:+ ".json")
                  (VObj [("timestamp", VStr timestamp);
                         ("countryCode", countryCode args);
                         ("vatNumber", vatNumber args); ("email", email args)])
         else ret tt)
        (fun _ => ret tt)) w Q.
Proof.
  intros Hoff Hon. apply wp_lib_request_log.
  - intros Hpr k d. destruct (bucket_set env) eqn:Hb.
    + apply Hon; auto.
      * now rewrite vies_after_put.
      * now rewrite clock_after_put.
      * now rewrite reads_after_put.
      * intros x. rewrite bucket_after_put_ne by apply logs_not_cache. reflexivity.
      * now rewrite s3_up_after_put.
      * intros _. now rewrite requests_after_put, Hb.
      * now rewrite upstream_log_after_put.
    + now apply Hoff.
  - intros Hpr. destruct (bucket_set env) eqn:Hb.
    + apply Hon; auto. intros Habs. congruence.
    + now apply Hoff.
Qed.

Lemma wp_lib_getCached cc vn w (Q : result value -> world -> Prop) :
  (forall v w', upstream_log w' = upstream_log w -> bucket w' = bucket w ->
                Q (Return v) w') ->
  wp (LibValidate.getCached env cc vn) w Q.
Proof.
  intros H. unfold LibValidate.getCached. destruct (negb (LibValidate.BUCKET env)).
  - wp_run. now apply H.
  - wp_step. wp_step. wp_step. destruct (LibValidate.cacheKey cc vn) as [key|];
      [|wp_run; now apply H].
    wp_run.
    destruct (s3_up w (requests w)); [|intros _; wp_run; now apply H].
    destruct (bucket w !! key) as [rec|]; [|intros _; wp_run; now apply H].
    wp_run. destruct rec; try (intros _; wp_run; now apply H); wp_run;
      (match goal with |- context [new_Date ?c] => destruct (new_Date c) end;
       wp_run; now apply H).
Qed.

(** With [VATFIX_PLUS=1] the older [validateVAT] returns whenever the
    failure it may recover from has a message that converts to a string. *)
Lemma lib_validateVAT_plus_total args w :
  plus_enabled env = true ->
  (forall e, vies w (countryCode args) (vatNumber args) = Rejected e ->
             describable e = true) ->
  exists r w', LibValidate.validateVAT env args w = (Return r, w').
Proof.
  intros Hp Hdesc.
  cut (wp (LibValidate.validateVAT env args) w (fun r _ => exists v, r = Return v)).
  { unfold wp. destruct (LibValidate.validateVAT env args w) as [r w'].
    simpl. intros [v ->]. eauto. }
  unfold LibValidate.validateVAT. rewrite lib_plus_enabled, Hp.
  wp_step.
  assert (forall w1, vies w1 = vies w ->
            wp (try_catch
                  (res <- viesCall (countryCode args) (vatNumber args) ;;
                   (if LibValidate.is_boolean (opt_member res "valid")
                    then LibValidate.setCached env (countryCode args) (vatNumber args) res
                    else ret tt) ;;;
                   ret res)
                  (fun err =>
                     cached <- LibValidate.getCached env (countryCode args) (vatNumber args) ;;
                     if truthy cached then ret (spread cached [("cached", VBool true)])
                     else
                       message <- converted (to_string (or_else (opt_member err "message")
                                                                (VStr "unavailable"))) ;;
                       ret (VObj [("countryCode", countryCode args);
                                  ("vatNumber", vatNumber args);
                                  ("valid", VBool false);
                                  ("error", VStr ("fallback:" +:+ message))])))%js
               w1 (fun r _ => exists v, r = Return v)) as Hrest.
  { intros w1 Hv. wp_run. rewrite Hv.
    destruct (vies w (countryCode args) (vatNumber args)) as [res|e] eqn:Hres.
    - assert (wp (LibValidate.setCached env (countryCode args) (vatNumber args) res)
                (called (countryCode args) (vatNumber args) w1)
                (fun r _ => r = Return tt)) as Hset.
      { unfold LibValidate.setCached.
        destruct (negb (LibValidate.BUCKET env)); wp_run; [reflexivity|].
        destruct (LibValidate.cacheKey _ _); [|wp_run; reflexivity].
        wp_run.
        match goal with |- if ?c then _ else _ => destruct c end;
          [reflexivity | intros _; wp_run; reflexivity]. }
      destruct (LibValidate.is_boolean (opt_member res "valid")); wp_run; [|eauto].
      eapply wp_mono; [|exact Hset]. intros r w2 ->. wp_run. eauto.
    - wp_step. apply wp_lib_getCached. intros v w' _ _.
      destruct (truthy v); wp_run; [eauto|].
      specialize (Hdesc e eq_refl). unfold describable, printable in Hdesc.
      destruct (to_string _); [|discriminate]. wp_run. eauto. }
  apply wp_lib_request_log_frame.
  - intros w1 Hv _ _. cbn beta iota. now apply Hrest.
  - intros w1 Hv _ _ _ _ _ _ _. cbn beta iota. now apply Hrest.
Qed.

(** Without [VATFIX_PLUS=1] an upstream failure surfaces to the caller. *)
Lemma lib_validateVAT_legacy_throws args w e :
  plus_enabled env = false ->
  vies w (countryCode args) (vatNumber args) = Rejected e ->
  exists w', LibValidate.validateVAT env args w = (Throw e, w').
Proof.
  intros Hp Hv.
  cut (wp (LibValidate.validateVAT env args) w (fun r _ => r = Throw e)).
  { unfold wp. destruct (LibValidate.validateVAT env args w) as [r w'].
    simpl. intros ->. eauto. }
  unfold LibValidate.validateVAT. rewrite lib_plus_enabled, Hp.
  wp_step.
  apply wp_lib_request_log_frame.
  - intros w1 Hv1 _ _. cbn beta iota. wp_run. now rewrite Hv1, Hv.
  - intros w1 Hv1 _ _ _ _ _ _ _. cbn beta iota. wp_run. now rewrite Hv1, Hv.
Qed.

(** With [VATFIX_PLUS=1], a bucket and a failing upstream, the older
    [validateVAT] serves a fresh cache entry as the cached payload plus
    [cached: true] and nothing else. *)
Lemma lib_validateVAT_serves_cache args w e key payload :
  plus_enabled env = true ->
  bucket_set env = true ->
  vies w (countryCode args) (vatNumber args) = Rejected e ->
  s3_up w (S (requests w)) = true ->
  LibValidate.cacheKey (countryCode args) (vatNumber args) = Some key ->
  fresh_at (LibValidate.CACHE_TTL_MS env) (bucket w) key
           (clock w (S (reads w))) payload ->
  truthy payload = true ->
  exists w',
    LibValidate.validateVAT env args w
    = (Return (spread payload [("cached", VBool true)]), w').
Proof.
  intros Hp Hb Hv Hu Hkey (rec & t & Hrec & Ht & Hfresh & Hpay) Htr.
  destruct (lib_cacheKey_printable _ _ _ Hkey) as [Hpr [x ->]].
  cut (wp (LibValidate.validateVAT env args) w
         (fun r _ => r = Return (spread payload [("cached", VBool true)]))).
  { unfold wp. destruct (LibValidate.validateVAT env args w) as [r w'].
    simpl. intros ->. eauto. }
  unfold LibValidate.validateVAT. rewrite lib_plus_enabled, Hp.
  wp_step. apply wp_lib_request_log_frame; [congruence|].
  intros w1 Hv1 Hc1 Hr1 _ Hb1 Hs1 Hq1 _. specialize (Hq1 Hpr). cbn beta iota.
  wp_run. rewrite Hv1, Hv.
  unfold LibValidate.getCached, LibValidate.BUCKET. rewrite Hb. simpl negb.
  cbn iota. wp_run. rewrite Hkey. wp_run. simpl s3_up. simpl requests.
  rewrite Hs1, Hq1, Hu. simpl bucket. rewrite Hb1, Hrec. wp_run.
  assert (exists f, rec = VObj f) as [f ->].
  { destruct rec; try discriminate Ht; try (simpl in Ht; congruence). eauto. }
  cbn iota. wp_run. rewrite Ht. wp_run. simpl reads. simpl clock.
  rewrite Hc1, Hr1.
  apply Z.ltb_lt in Hfresh. rewrite Hfresh, Hpay, Htr. wp_run. reflexivity.
Qed.

(** With [VATFIX_PLUS=1], a failing upstream and no fresh cache entry, the
    older [validateVAT] returns its four-field soft failure. *)
Lemma lib_validateVAT_soft_failure args w e message :
  plus_enabled env = true ->
  vies w (countryCode args) (vatNumber args) = Rejected e ->
  message_of e = Some message ->
  (forall key p,
      LibValidate.cacheKey (countryCode args) (vatNumber args) = Some key ->
      ~ fresh_at (LibValidate.CACHE_TTL_MS env) (bucket w) key
          (clock w (S (reads w))) p) ->
  exists w',
    LibValidate.validateVAT env args w
    = (Return (legacy_soft_failure (countryCode args) (vatNumber args) message), w').
Proof.
  intros Hp Hv Hmsg Hno. unfold message_of in Hmsg.
  cut (wp (LibValidate.validateVAT env args) w
         (fun r _ => r = Return (legacy_soft_failure (countryCode args)
                                   (vatNumber args) message))).
  { unfold wp. destruct (LibValidate.validateVAT env args w) as [r w'].
    simpl. intros ->. eauto. }
  unfold LibValidate.validateVAT. rewrite lib_plus_enabled, Hp.
  wp_step. unfold legacy_soft_failure, fallback_tag.
  assert (forall w2 : world,
            wp (if truthy VNull then ret (spread VNull [("cached", VBool true)])
                else
                  message0 <- converted (to_string (or_else (opt_member e "message")
                                                            (VStr "unavailable"))) ;;
                  ret (VObj [("countryCode", countryCode args);
                             ("vatNumber", vatNumber args);
                             ("valid", VBool false);
                             ("error", VStr ("fallback:" +:+ message0))]))%js w2
               (fun r _ => r = Return (VObj [("countryCode", countryCode args);
                             ("vatNumber", vatNumber args);
                             ("valid", VBool false);
                             ("error", VStr ("fallback:" +:+ message))]))) as Hsoft.
  { intros w2. simpl truthy. cbn iota. wp_run. rewrite Hmsg. wp_run. reflexivity. }
  apply wp_lib_request_log_frame.
  - intros w1 Hv1 Hb _. cbn beta iota. wp_run. rewrite Hv1, Hv.
    unfold LibValidate.getCached, LibValidate.BUCKET. rewrite Hb.
    simpl negb. cbn iota. wp_run. apply Hsoft.
  - intros w1 Hv1 Hc1 Hr1 Hb Hb1 Hs1 Hq1 _. cbn beta iota. wp_run.
    rewrite Hv1, Hv.
    unfold LibValidate.getCached, LibValidate.BUCKET. rewrite Hb.
    simpl negb. cbn iota. wp_run.
    destruct (LibValidate.cacheKey (countryCode args) (vatNumber args)) as [key|] eqn:Hkey;
      [|wp_run; apply Hsoft].
    destruct (lib_cacheKey_printable _ _ _ Hkey) as [Hpr [x ->]].
    wp_run. simpl s3_up. simpl requests. simpl bucket.
    match goal with |- if ?c then _ else _ => destruct c end;
      [|intros _; wp_run; apply Hsoft].
    rewrite Hb1.
    destruct (bucket w !! ("cache/" +:+ x)) as [rec|] eqn:Hrec;
      [|intros _; wp_run; apply Hsoft].
    wp_run.
    destruct rec; wp_run; try (intros _; wp_run; apply Hsoft);
      (simpl reads; simpl clock; rewrite ?Hc1, ?Hr1;
       match goal with |- context [new_Date ?c] =>
         destruct (new_Date c) as [[t0|]|] eqn:Ht end;
       [wp_run | wp_run; apply Hsoft | wp_run; apply Hsoft];
       destruct (Z.ltb_spec (clock w (S (reads w)) - t0)
                   (LibValidate.CACHE_TTL_MS env)); [|apply Hsoft];
       exfalso; eapply (Hno _ _ eq_refl); eexists _, t0; eauto).
Qed.

(** With [VATFIX_PLUS=1] a successful upstream answer is returned as it
    came. It is cached, under the key of the raw inputs and as it came,
    exactly when its [valid] is a boolean (and a bucket is configured and
    S3 answers); otherwise the cache is left as it was. *)
Lemma lib_validateVAT_success args w res :
  plus_enabled env = true ->
  vies w (countryCode args) (vatNumber args) = Resolved res ->
  exists w',
    LibValidate.validateVAT env args w = (Return res, w')
    /\ forall key,
         LibValidate.cacheKey (countryCode args) (vatNumber args) = Some key ->
         if LibValidate.is_boolean (opt_member res "valid")
            && bucket_set env && s3_up w (S (requests w))
         then bucket w' !! key
              = Some (json (VObj [("cachedAt",
                                   VStr (iso_string (clock w (S (reads w)))));
                                  ("payload", res)]))
         else bucket w' !! key = bucket w !! key.
Proof.
  intros Hp Hv.
  cut (wp (LibValidate.validateVAT env args) w
         (fun r w' => r = Return res
            /\ forall key,
         LibValidate.cacheKey (countryCode args) (vatNumber args) = Some key ->
         if LibValidate.is_boolean (opt_member res "valid")
            && bucket_set env && s3_up w (S (requests w))
         then bucket w' !! key
              = Some (json (VObj [("cachedAt",
                                   VStr (iso_string (clock w (S (reads w)))));
                                  ("payload", res)]))
         else bucket w' !! key = bucket w !! key)).
  { unfold wp. destruct (LibValidate.validateVAT env args w) as [r w'].
    simpl. intros [-> H]. eauto. }
  unfold LibValidate.validateVAT. rewrite lib_plus_enabled, Hp.
  wp_step. apply wp_lib_request_log_frame.
  - intros w1 Hv1 Hb ->. cbn beta iota. wp_run. rewrite Hv, Hb.
    rewrite andb_false_r. simpl andb.
    destruct (LibValidate.is_boolean (opt_member res "valid")); wp_run;
      [|now split].
    unfold LibValidate.setCached, LibValidate.BUCKET. rewrite Hb. simpl negb.
    cbn iota. wp_run. now split.
  - intros w1 Hv1 Hc1 Hr1 Hb Hb1 Hs1 Hq1 _. cbn beta iota. wp_run.
    rewrite Hv1, Hv, Hb. rewrite andb_true_r.
    destruct (LibValidate.is_boolean (opt_member res "valid")); wp_run.
    2:{ split; [reflexivity|]. intros key Hkey.
        destruct (lib_cacheKey_printable _ _ _ Hkey) as [_ [x ->]].
        simpl. apply Hb1. }
    unfold LibValidate.setCached, LibValidate.BUCKET. rewrite Hb. simpl negb.
    cbn iota. wp_run.
    destruct (LibValidate.cacheKey (countryCode args) (vatNumber args)) as [key|] eqn:Hkey;
      [|wp_run; split; [reflexivity | discriminate]].
    destruct (lib_cacheKey_printable _ _ _ Hkey) as [Hpr [x ->]].
    specialize (Hq1 Hpr). wp_run. simpl s3_up. simpl requests. simpl reads.
    simpl clock. rewrite Hs1, Hq1, Hc1, Hr1. simpl andb.
    destruct (s3_up w (S (requests w))).
    + wp_run. split; [reflexivity|]. intros key [= <-]. simpl.
      apply lookup_insert_eq.
    + intros _. wp_run. split; [reflexivity|]. intros key [= <-]. simpl. apply Hb1.
Qed.

End LibValidateFacts.

(** ** The meter of [src/meter.js] *)

Section MeterFacts.
Context {host : Host}.
Variable env : process_env.

Lemma logs_not_meter x y : "logs/" +:+ x <> "meter/" +:+ y.
Proof. cbv [String.append]. discriminate. Qed.

Lemma meter_key_is_meter key window :
  exists x, meter_key key window = "meter/" +:+ x.
Proof. unfold meter_key, Meter.meterKey_of. eauto. Qed.

Lemma double_exact n : Z.abs n <= two53 -> double n = n.
Proof.
  intros H. unfold double. apply Z.leb_le in H. cbv zeta. now rewrite H.
Qed.

Lemma double_succ c : countable c -> double (c + 1) = c + 1.
Proof. unfold countable. intros H. apply double_exact. lia. Qed.

Lemma wp_meter_putJSON k d w Q :
  Q (Return tt) (if s3_up w (requests w) then stored k (json d) w else sent w) ->
  wp (Meter.putJSON k d) w Q.
Proof.
  unfold wp, Meter.putJSON, try_catch, s3_put, ret.
  destruct (s3_up w (requests w)); exact id.
Qed.

Lemma wp_meter_getJSON k w Q :
  Q (Return (if s3_up w (requests w)
             then default VNull (bucket w !! k) else VNull)) (sent w) ->
  wp (Meter.getJSON k) w Q.
Proof.
  unfold wp, Meter.getJSON, try_catch, s3_get, ret.
  destruct (s3_up w (requests w)); [|exact id].
  destruct (bucket w !! k); exact id.
Qed.

Lemma wp_day_of window w Q :
  valid_time window = true ->
  Q (Return (slice0 10 (iso_string window))) w -> wp (Meter.day_of window) w Q.
Proof.
  intros Hv HQ. unfold Meter.day_of, TimeClip. rewrite Hv. wp_run. exact HQ.
Qed.

(** Without a bucket or without an API key the meter admits at once and
    touches nothing. *)
Lemma meterAndCheck_unmetered args w :
  bucket_set env = false \/ truthy (apiKey args) = false ->
  Meter.meterAndCheck env args w = (Return fail_open, w).
Proof.
  intros H. unfold Meter.meterAndCheck.
  destruct H as [-> | ->]; [reflexivity|].
  now rewrite orb_true_r.
Qed.

(** The meter key is built before the [try]: an API key that does not
    convert to a string makes [meterAndCheck] throw. *)
Lemma meterAndCheck_unconvertible args w :
  bucket_set env = true ->
  truthy (apiKey args) = true ->
  valid_time (Meter.window_of env (clock w (reads w))) = true ->
  to_string (apiKey args) = None ->
  exists e w', Meter.meterAndCheck env args w = (Throw e, w').
Proof.
  intros Hb Hk Hv Hnone.
  cut (wp (Meter.meterAndCheck env args) w (fun r _ => exists e, r = Throw e)).
  { unfold wp. destruct (Meter.meterAndCheck env args w) as [r w'].
    simpl. intros [e ->]. eauto. }
  unfold Meter.meterAndCheck. rewrite Hb, Hk. simpl orb. cbn iota.
  wp_step. wp_step. wp_step. apply wp_day_of; [exact Hv|]. cbn beta iota.
  wp_step. wp_step. rewrite Hnone. eauto.
Qed.

(** One metered request against a store that answers: the persisted
    count goes from [c] to [c + 1], whatever the decision. *)
Lemma meterAndCheck_step args k w c :
  let window := Meter.window_of env (clock w (reads w)) in
  let key := meter_key k window in
  bucket_set env = true ->
  truthy (apiKey args) = true ->
  to_string (apiKey args) = Some k ->
  valid_time window = true ->
  s3_up w (requests w) = true ->
  s3_up w (S (requests w)) = true ->
  counter_at (bucket w) key c ->
  countable c ->
  exists w',
    Meter.meterAndCheck env args w = (Return (meter_decision env args (c + 1)), w')
    /\ counter_at (bucket w') key (c + 1)
    /\ clock w' = clock w /\ s3_up w' = s3_up w
    /\ (reads w < reads w')%nat /\ (requests w < requests w')%nat.
Proof.
  intros window key Hb Hk Hstr Hv Hg Hp Hc Hcnt.
  cut (wp (Meter.meterAndCheck env args) w
         (fun r w' =>
            r = Return (meter_decision env args (c + 1))
            /\ counter_at (bucket w') key (c + 1)
            /\ clock w' = clock w /\ s3_up w' = s3_up w
            /\ (reads w < reads w')%nat /\ (requests w < requests w')%nat)).
  { unfold wp. destruct (Meter.meterAndCheck env args w) as [r w'].
    simpl. intros (-> & H). eauto. }
  unfold Meter.meterAndCheck. rewrite Hb, Hk. simpl orb. cbn iota.
  wp_step. wp_step. fold window. wp_step. apply wp_day_of; [exact Hv|].
  cbn beta iota. wp_step. wp_step. rewrite Hstr. cbn beta iota.
  fold (meter_key k window). fold key.
  wp_step. wp_step. apply wp_meter_getJSON. simpl s3_up. simpl requests.
  rewrite Hg. simpl bucket. cbn beta iota zeta.
  assert (exists f,
             or_else (default VNull (bucket w !! key))
               (VObj [("count", VNum 0); ("window", VNum window);
                      ("apiKey", apiKey args); ("limit", VNum (Meter.LIMIT env))])
             = VObj f
             /\ assoc "count" f = Some (VNum c)) as (f & -> & Hcount).
  { destruct Hc as [[Hnone ->] | (f & Hsome & Hcount)].
    - rewrite Hnone. eexists. split; reflexivity.
    - rewrite Hsome. exists f. split; [reflexivity | exact Hcount]. }
  simpl prop. rewrite Hcount. simpl default. simpl to_number.
  wp_step. wp_step. unfold Meter.next_count. cbn iota.
  rewrite (double_succ c Hcnt).
  unfold assign_count. wp_step. wp_step. wp_step.
  apply wp_meter_putJSON. simpl s3_up. simpl requests.
  rewrite Hp. cbn beta iota.
  assert (counter_at
            (<[key := json (VObj (set_prop "count" (VNum (c + 1)) f))]> (bucket w))
            key (c + 1)) as Hnew.
  { right. eexists. rewrite lookup_insert_eq. split; [reflexivity|].
    apply (assoc_json_fields_first "count" _ (VNum (c + 1)));
      [apply assoc_set_prop_eq | discriminate]. }
  unfold meter_decision.
  destruct (c + 1 >? Meter.LIMIT env); wp_run.
  - simpl. repeat split; try assumption; lia.
  - unfold printable.
    destruct (to_string (or_else (m_vatNumber args) (VStr "unknown"))) as [name|].
    + wp_step. apply wp_meter_putJSON.
      destruct (meter_key_is_meter k window) as [x Hx].
      fold key in Hx.
      match goal with |- context [if ?c then _ else _] => destruct c end;
        cbn beta iota; wp_run; simpl;
        (split; [reflexivity|]); (split; [|repeat split; lia]); try exact Hnew.
      destruct Hnew as [[Hn _] | (f' & Hs & Hc')].
      * rewrite lookup_insert_eq in Hn. discriminate.
      * right. exists f'. split; [|exact Hc'].
        rewrite lookup_insert_ne; [exact Hs|]. rewrite Hx. apply logs_not_meter.
    + wp_run. simpl. repeat split; try assumption; lia.
Qed.

End MeterFacts.

Section Calls.
Context {A : Type}.

Lemma after_calls_invariant (m : M A) (I : nat -> world -> Prop) w :
  I O w -> (forall n w0, I n w0 -> I (S n) (snd (m w0))) ->
  forall n, I n (after_calls m n w).
Proof.
  intros H0 HS n. induction n as [|n IH]; simpl; [exact H0 | now apply HS].
Qed.

End Calls.

Section MeterRuns.
Context {host : Host}.
Variable env : process_env.

(** Sequential requests of one key inside one window against a store that
    answers: after [n] requests the persisted count is [n], and request
    [n + 1] is decided on the count [n + 1]. *)
Lemma meterAndCheck_run args k w W0 c0 n :
  bucket_set env = true ->
  truthy (apiKey args) = true ->
  to_string (apiKey args) = Some k ->
  valid_time W0 = true ->
  (forall i, Meter.window_of env (clock w i) = W0) ->
  (forall i, s3_up w i = true) ->
  counter_at (bucket w) (meter_key k W0) c0 ->
  - two53 <= c0 -> c0 + Z.of_nat n < two53 ->
  let wn := after_calls (Meter.meterAndCheck env args) n w in
  let count := c0 + Z.of_nat (S n) in
  counter_at (bucket wn) (meter_key k W0) (c0 + Z.of_nat n)
  /\ fst (Meter.meterAndCheck env args wn)
     = Return (meter_decision env args count)
  /\ counter_at (bucket (snd (Meter.meterAndCheck env args wn)))
       (meter_key k W0) count.
Proof.
  intros Hb Hk Hstr Hv Hwin Hup Hstart Hlo Hhi wn count.
  assert (forall m, (m <= n)%nat ->
            let wm := after_calls (Meter.meterAndCheck env args) m w in
            counter_at (bucket wm) (meter_key k W0) (c0 + Z.of_nat m)
            /\ clock wm = clock w /\ s3_up wm = s3_up w) as Hinv.
  { induction m as [|m IH]; intros Hm; simpl.
    - split; [now rewrite Z.add_0_r | now split].
    - destruct IH as (Hc0 & Hclk0 & Hs30); [lia|].
      destruct (meterAndCheck_step env args k
                  (after_calls (Meter.meterAndCheck env args) m w)
                  (c0 + Z.of_nat m))
        as (w' & -> & H1 & H2 & H3 & _);
        rewrite ?Hclk0, ?Hs30, ?Hwin, ?Hup; try assumption; try reflexivity.
      { unfold countable. lia. }
      simpl. rewrite Hclk0, Hwin in H1.
      replace (c0 + Z.of_nat (S m)) with (c0 + Z.of_nat m + 1) by lia.
      repeat split; [exact H1 | congruence | congruence]. }
  destruct (Hinv n (le_n n)) as (Hc & Hclk & Hs3). fold wn in Hc, Hclk, Hs3.
  split; [exact Hc|].
  destruct (meterAndCheck_step env args k wn (c0 + Z.of_nat n))
    as (w' & -> & H1 & _);
    rewrite ?Hclk, ?Hs3, ?Hwin, ?Hup; try assumption; try reflexivity.
  { unfold countable. lia. }
  simpl. subst count. rewrite Hclk, Hwin in H1.
  now replace (c0 + Z.of_nat (S n)) with (c0 + Z.of_nat n + 1) by lia.
Qed.

(** The meter never throws once the window start is a valid time and the
    API key converts to a string: every store error is swallowed. *)
Lemma meterAndCheck_returns args w :
  valid_time (Meter.window_of env (clock w (reads w))) = true ->
  printable (apiKey args) = true ->
  exists r w', Meter.meterAndCheck env args w = (Return r, w').
Proof.
  intros Hv Hpr.
  cut (wp (Meter.meterAndCheck env args) w (fun r _ => exists v, r = Return v)).
  { unfold wp. destruct (Meter.meterAndCheck env args w) as [r w'].
    simpl. intros [v ->]. eauto. }
  unfold Meter.meterAndCheck.
  destruct (negb (bucket_set env) || negb (truthy (apiKey args)));
    [wp_run; eauto|].
  unfold printable in Hpr.
  destruct (to_string (apiKey args)) as [k|]; [|discriminate].
  wp_step. wp_step. wp_step. apply wp_day_of; [exact Hv|]. cbn beta iota.
  wp_step. wp_step. wp_step. unfold wp.
  match goal with |- context [fst (?m ?w0)] =>
    destruct (m w0) as [[r|e] w'] end; simpl; eauto.
Qed.

(** A store that does not answer: the request is counted as the first of
    its window and admitted whenever the limit is at least one. *)
Lemma meterAndCheck_unreachable args w :
  bucket_set env = true ->
  truthy (apiKey args) = true ->
  printable (apiKey args) = true ->
  valid_time (Meter.window_of env (clock w (reads w))) = true ->
  1 <= Meter.LIMIT env ->
  s3_up w (requests w) = false ->
  s3_up w (S (requests w)) = false ->
  exists w',
    Meter.meterAndCheck env args w = (Return (meter_decision env args 1), w')
    /\ meter_decision env args 1 <> denied
    /\ clock w' = clock w /\ s3_up w' = s3_up w.
Proof.
  intros Hb Hk Hpr Hv HL Hg Hp.
  assert (meter_decision env args 1 <> denied) as Hnd.
  { unfold meter_decision. destruct (Z.gtb_spec 1 (Meter.LIMIT env)); [lia|].
    destruct (printable (or_else _ _)); discriminate. }
  cut (wp (Meter.meterAndCheck env args) w
         (fun r w' =>
            r = Return (meter_decision env args 1)
            /\ clock w' = clock w /\ s3_up w' = s3_up w)).
  { unfold wp. destruct (Meter.meterAndCheck env args w) as [r w'].
    simpl. intros (-> & H). eauto. }
  unfold printable in Hpr.
  destruct (to_string (apiKey args)) as [k|] eqn:Hstr; [|discriminate].
  unfold Meter.meterAndCheck. rewrite Hb, Hk. simpl orb. cbn iota.
  wp_step. wp_step. wp_step. apply wp_day_of; [exact Hv|]. cbn beta iota.
  wp_step. wp_step. rewrite Hstr. cbn beta iota.
  wp_step. wp_step. apply wp_meter_getJSON. simpl s3_up. simpl requests.
  rewrite Hg. cbn beta iota zeta. unfold or_else at 1 2. simpl truthy. cbn iota.
  simpl prop. simpl to_number. wp_step. wp_step.
  change (Meter.next_count (Some 0)) with 1.
  unfold assign_count. wp_step. wp_step. wp_step.
  apply wp_meter_putJSON. simpl s3_up. simpl requests.
  rewrite Hp. cbn beta iota. unfold meter_decision.
  destruct (Z.gtb_spec 1 (Meter.LIMIT env)); [lia|].
  wp_run. unfold printable.
  destruct (to_string (or_else (m_vatNumber args) (VStr "unknown"))) as [name|].
  - wp_step. apply wp_meter_putJSON.
    match goal with |- context [if ?c then _ else _] => destruct c end;
      cbn beta iota; wp_run; simpl; auto.
  - wp_run. simpl. auto.
Qed.

End MeterRuns.

(** ** The older meter of [src/lib/meter.js] *)

Section LibMeterFacts.
Context {host : Host}.
Variable env : process_env.

Lemma lib_meterAndCheck_unmetered args w :
  bucket_set env = false ->
  LibMeter.meterAndCheck env args w = (Return legacy_admitted, w).
Proof.
  intros H. unfold LibMeter.meterAndCheck, LibMeter.BUCKET. now rewrite H.
Qed.

Lemma legacy_meter_key_is_meter key window :
  exists x, legacy_meter_key key window = "meter/" +:+ x.
Proof. unfold legacy_meter_key, LibMeter.key_of. eauto. Qed.

Lemma lib_meterAndCheck_step args k w c :
  let window := LibMeter.window_of env (clock w (reads w)) in
  let key := legacy_meter_key k window in
  bucket_set env = true ->
  to_string (apiKey args) = Some k ->
  s3_up w (requests w) = true ->
  s3_up w (S (requests w)) = true ->
  counter_at (bucket w) key c ->
  countable c ->
  exists w',
    LibMeter.meterAndCheck env args w = (legacy_meter_outcome env args (c + 1), w')
    /\ counter_at (bucket w') key (c + 1)
    /\ clock w' = clock w /\ s3_up w' = s3_up w.
Proof.
  intros window key Hb Hstr Hg Hp Hc Hcnt.
  cut (wp (LibMeter.meterAndCheck env args) w
         (fun r w' =>
            r = legacy_meter_outcome env args (c + 1)
            /\ counter_at (bucket w') key (c + 1)
            /\ clock w' = clock w /\ s3_up w' = s3_up w)).
  { unfold wp. destruct (LibMeter.meterAndCheck env args w) as [r w'].
    simpl. intros (-> & H). eauto. }
  unfold LibMeter.meterAndCheck, LibMeter.BUCKET. rewrite Hb. simpl negb.
  cbn iota. wp_step. wp_step. fold window. wp_step. wp_step. rewrite Hstr.
  cbn beta iota.
  fold (legacy_meter_key k window). fold key.
  wp_step. wp_step. wp_step. simpl s3_up. simpl requests. rewrite Hg.
  simpl bucket.
  assert (forall f w0,
            assoc "count" f = Some (VNum c) ->
            bucket w0 = bucket w -> clock w0 = clock w -> s3_up w0 = s3_up w ->
            requests w0 = S (requests w) ->
            wp (old <- member (VObj f) "count";;
                n <- converted (to_number old) ;;
                (doc <- assign_count (VObj f)
                          (of_number (k ← n; Some (double (k + 1))));;
                 (if LibMeter.exceeds env (k ← n; Some (double (k + 1)))
                  then
                   try_catch (s3_put key doc) (fun _ => ret tt);;;
                   ret (VObj [("allowed", VBool false);
                              ("reason", VStr "rate_limit_exceeded")])
                  else
                   try_catch (s3_put key doc) (fun _ => ret tt);;;
                   d <- new_Date_now;;
                   t <- toISOString d;;
                   vn <- converted (to_string (m_vatNumber args)) ;;
                   try_catch
                     (s3_put ("logs/" +:+ t +:+ "_" +:+ vn +:+ ".json")
                        (VObj [("t", VStr t); ("apiKey", apiKey args);
                               ("email", m_email args);
                               ("countryCode", m_countryCode args);
                               ("vatNumber", m_vatNumber args)]))
                     (fun _ => ret tt);;;
                   ret (VObj [("allowed", VBool true)]))))%js w0
               (fun r w' =>
                  r = legacy_meter_outcome env args (c + 1)
                  /\ counter_at (bucket w') key (c + 1)
                  /\ clock w' = clock w /\ s3_up w' = s3_up w)) as Hbody.
  { intros f w0 Hcount Hbk Hclk Hs3 Hreq. wp_run. simpl prop. rewrite Hcount.
    simpl default. simpl to_number. cbn beta iota. simpl mbind.
    rewrite (double_succ c Hcnt). unfold assign_count.
    wp_step. wp_step. cbn beta iota. unfold LibMeter.exceeds. simpl of_number.
    assert (counter_at
              (<[key := json (VObj (set_prop "count" (VNum (c + 1)) f))]> (bucket w0))
              key (c + 1)) as Hnew.
    { right. eexists. rewrite lookup_insert_eq. split; [reflexivity|].
      apply (assoc_json_fields_first "count" _ (VNum (c + 1)));
        [apply assoc_set_prop_eq | discriminate]. }
    unfold legacy_meter_outcome.
    destruct (c + 1 >? LibMeter.LIMIT env); wp_run.
    - rewrite Hs3, Hreq, Hp. wp_run. simpl. auto.
    - rewrite Hs3, Hreq, Hp. wp_run. unfold printable.
      destruct (to_string (m_vatNumber args)) as [vn|].
      + wp_run. simpl s3_up. simpl requests.
        destruct (legacy_meter_key_is_meter k window) as [x Hx].
        fold key in Hx.
        match goal with |- if ?c then _ else _ => destruct c end;
          [|intros _]; wp_run; simpl;
          (split; [reflexivity|]); (split; [|auto]); try exact Hnew.
        destruct Hnew as [[Hn _] | (f' & Hs & Hc')].
        * rewrite lookup_insert_eq in Hn. discriminate.
        * right. exists f'. split; [|exact Hc'].
          rewrite lookup_insert_ne; [exact Hs|]. rewrite Hx. apply logs_not_meter.
      + simpl. auto. }
  destruct Hc as [[Hnone ->] | (f & Hsome & Hcount)].
  - rewrite Hnone. intros _. wp_step. cbv zeta. apply Hbody; reflexivity.
  - rewrite Hsome. cbv zeta. apply Hbody; [exact Hcount | reflexivity..].
Qed.

Lemma lib_meterAndCheck_run args k w W0 c0 n :
  bucket_set env = true ->
  to_string (apiKey args) = Some k ->
  (forall i, LibMeter.window_of env (clock w i) = W0) ->
  (forall i, s3_up w i = true) ->
  counter_at (bucket w) (legacy_meter_key k W0) c0 ->
  - two53 <= c0 -> c0 + Z.of_nat n < two53 ->
  let wn := after_calls (LibMeter.meterAndCheck env args) n w in
  counter_at (bucket wn) (legacy_meter_key k W0) (c0 + Z.of_nat n)
  /\ fst (LibMeter.meterAndCheck env args wn)
     = legacy_meter_outcome env args (c0 + Z.of_nat (S n))
  /\ counter_at (bucket (snd (LibMeter.meterAndCheck env args wn)))
       (legacy_meter_key k W0) (c0 + Z.of_nat (S n)).
Proof.
  intros Hb Hstr Hwin Hup Hstart Hlo Hhi wn.
  assert (forall m, (m <= n)%nat ->
            let wm := after_calls (LibMeter.meterAndCheck env args) m w in
            counter_at (bucket wm) (legacy_meter_key k W0) (c0 + Z.of_nat m)
            /\ clock wm = clock w /\ s3_up wm = s3_up w) as Hinv.
  { induction m as [|m IH]; intros Hm; simpl.
    - split; [now rewrite Z.add_0_r | now split].
    - destruct IH as (Hc0 & Hclk0 & Hs30); [lia|].
      destruct (lib_meterAndCheck_step args k
                  (after_calls (LibMeter.meterAndCheck env args) m w)
                  (c0 + Z.of_nat m))
        as (w' & -> & H1 & H2 & H3);
        rewrite ?Hclk0, ?Hs30, ?Hwin, ?Hup; try assumption; try reflexivity.
      { unfold countable. lia. }
      simpl. rewrite Hclk0, Hwin in H1.
      replace (c0 + Z.of_nat (S m)) with (c0 + Z.of_nat m + 1) by lia.
      repeat split; [exact H1 | congruence | congruence]. }
  destruct (Hinv n (le_n n)) as (Hc & Hclk & Hs3). fold wn in Hc, Hclk, Hs3.
  split; [exact Hc|].
  destruct (lib_meterAndCheck_step args k wn (c0 + Z.of_nat n))
    as (w' & -> & H1 & _);
    rewrite ?Hclk, ?Hs3, ?Hwin, ?Hup; try assumption; try reflexivity.
  { unfold countable. lia. }
  simpl. rewrite Hclk, Hwin in H1.
  now replace (c0 + Z.of_nat (S n)) with (c0 + Z.of_nat n + 1) by lia.
Qed.

End LibMeterFacts.

(** ** Freshness of cache entries *)

Section Freshness.
Context {host : Host}.
Variable env : process_env.

Lemma setCached_eq cc vn key payload w :
  Validate.cacheKey cc vn = Some key ->
  Validate.setCached env cc vn payload w
  = (Return tt,
     after_put env key
       (VObj [("cachedAt", VStr (iso_string (clock w (reads w))));
              ("payload", payload)])
       (tick w)).
Proof.
  intros Hkey. apply wp_eq. unfold Validate.setCached. rewrite Hkey.
  wp_run. apply wp_putJSON. split; reflexivity.
Qed.

Lemma lib_setCached_eq cc vn key payload w :
  bucket_set env = true ->
  LibValidate.cacheKey cc vn = Some key ->
  LibValidate.setCached env cc vn payload w
  = (Return tt,
     after_put env key
       (VObj [("cachedAt", VStr (iso_string (clock w (reads w))));
              ("payload", payload)])
       (tick w)).
Proof.
  intros Hb Hkey. apply wp_eq.
  unfold LibValidate.setCached, LibValidate.BUCKET, after_put. rewrite Hb, Hkey.
  simpl negb. cbn iota. wp_run. simpl s3_up. simpl requests.
  destruct (s3_up w (requests w)); [|intros _; wp_run]; split; reflexivity.
Qed.

(** Reading a record under the key: fresh exactly when
    [now - cachedAt < CACHE_TTL_MS], the clock being read at that moment. *)
Lemma getCached_record cc vn key w f t :
  bucket_set env = true ->
  s3_up w (requests w) = true ->
  Validate.cacheKey cc vn = Some key ->
  bucket w !! key = Some (VObj f) ->
  new_Date (prop (VObj f) "cachedAt") = Some t ->
  Validate.getCached env cc vn w
  = (Return (if match t with
                | Some t => clock w (reads w) - t <? Validate.CACHE_TTL_MS env
                | None => false
                end
             then prop (VObj f) "payload" else VNull),
     tick (sent w)).
Proof.
  intros Hb Hu Hkey Hrec Ht. apply wp_eq. unfold Validate.getCached.
  rewrite Hkey. wp_run. apply wp_getJSON. rewrite Hb, Hu, Hrec. simpl default.
  simpl truthy. simpl negb. cbn iota. wp_run. rewrite Ht. cbn beta iota zeta.
  wp_run. split; reflexivity.
Qed.

Lemma lib_getCached_record cc vn key w f t :
  bucket_set env = true ->
  s3_up w (requests w) = true ->
  LibValidate.cacheKey cc vn = Some key ->
  bucket w !! key = Some (VObj f) ->
  new_Date (prop (VObj f) "cachedAt") = Some t ->
  LibValidate.getCached env cc vn w
  = (Return (if match t with
                | Some t => clock w (reads w) - t <? LibValidate.CACHE_TTL_MS env
                | None => false
                end
             then prop (VObj f) "payload" else VNull),
     tick (sent w)).
Proof.
  intros Hb Hu Hkey Hrec Ht. apply wp_eq.
  unfold LibValidate.getCached, LibValidate.BUCKET. rewrite Hb, Hkey.
  simpl negb. cbn iota. wp_run. rewrite Hu, Hrec. wp_run.
  rewrite Ht. cbn beta iota zeta. wp_run. split; reflexivity.
Qed.

Lemma new_Date_iso t :
  Date_parse (iso_string t) = Some t -> valid_time t = true ->
  new_Date (VStr (iso_string t)) = Some (Some t).
Proof. intros Hp Hv. simpl. rewrite Hp. simpl. unfold TimeClip. now rewrite Hv. Qed.

End Freshness.

(** * The claims of the specification *)

Section ValidationClaims.
Context {host : Host}.

Lemma checkVAT_nullish_country v :
  nullish v -> Validate.normalize_cc v = Some "".
Proof. intros [-> | ->]; reflexivity. Qed.

Lemma checkVAT_nullish_number v :
  nullish v -> Validate.normalize_vn v = Some "".
Proof. intros [-> | ->]; reflexivity. Qed.

(** C1 (as amended). For inputs that convert to strings, [checkVAT] of
    [src/validate.js] and its alias [validateVAT] return, whether the
    upstream or the store fail or not, provided the message of the failure
    and the [cachedAt] of the cache record they may read convert as well;
    when that record carries the payload fields, the result has every
    declared field, [null] included. Every cache record they leave behind
    carries the payload fields and a convertible [cachedAt] again. The
    older [validateVAT] of [src/lib/validate.js] returns with
    [VATFIX_PLUS=1], for every input, when the message of the failure
    converts; without [VATFIX_PLUS=1] the failure of the upstream surfaces
    to the caller. *)
Theorem validation_never_throws_by_design
    (env : process_env) (args : vat_args) (w : world) :
  (forall cc vn,
      Validate.normalize_cc (countryCode args) = Some cc ->
      Validate.normalize_vn (vatNumber args) = Some vn ->
      (forall err, upstream_failure (vies w (VStr cc) (VStr vn)) = Some err ->
                   describable err = true) ->
      cache_entry_dated (bucket w) (cache_key cc vn) ->
      exists r w',
        Validate.checkVAT env args w = (Return r, w')
        /\ Validate.validateVAT env args w = (Return r, w')
        /\ (cache_entry_ok (bucket w) (cache_key cc vn) ->
            well_formed_result r = true))
  /\ (forall key, cache_entry_ok (bucket w) key ->
                  cache_entry_ok (bucket (snd (Validate.checkVAT env args w))) key)
  /\ (forall cc vn,
         cache_entry_dated (bucket w) (cache_key cc vn) ->
         cache_entry_dated (bucket (snd (Validate.checkVAT env args w)))
           (cache_key cc vn))
  /\ (plus_enabled env = true ->
      (forall e, vies w (countryCode args) (vatNumber args) = Rejected e ->
                 describable e = true) ->
      exists r w', LibValidate.validateVAT env args w = (Return r, w'))
  /\ (plus_enabled env = false ->
      forall e, vies w (countryCode args) (vatNumber args) = Rejected e ->
                exists w', LibValidate.validateVAT env args w = (Throw e, w')).
Proof.
  split; [|split; [|split; [|split]]].
  - intros cc vn Hcc Hvn Hdesc Hdated.
    destruct (checkVAT_total env args cc vn w Hcc Hvn Hdesc Hdated)
      as (r & w' & Heq & _ & Hwf).
    exists r, w'. split; [exact Heq|]. split; [exact Heq | exact Hwf].
  - intros key. apply checkVAT_keeps_cache_entries_ok.
  - intros cc vn. apply checkVAT_keeps_cache_entries_dated.
  - intros Hp Hdesc. now apply lib_validateVAT_plus_total.
  - intros Hp e Hv. now apply lib_validateVAT_legacy_throws.
Qed.

(** C2 (as amended). When the upstream fails and the cache holds a fresh
    entry for the normalized pair, [checkVAT] of [src/validate.js] returns
    the cached payload's [valid], [name] and [address] with [source =
    "cache"], [cached = true] and a [requestDate] stamped after the cache
    was read. The older [validateVAT] of [src/lib/validate.js] returns the
    cached payload with [cached = true] added and nothing overwritten:
    [source] and [requestDate] are the cached ones. A pair has an entry
    only when it converts to strings. *)
Theorem cache_fallback_serves_payload
    (env : process_env) (args : vat_args) (cc vn : string) (w : world)
    (payload : value) :
  bucket_set env = true ->
  s3_up w (S (requests w)) = true ->
  truthy payload = true ->
  (Validate.normalize_cc (countryCode args) = Some cc ->
   Validate.normalize_vn (vatNumber args) = Some vn ->
   forall err,
      upstream_failure (vies w (VStr cc) (VStr vn)) = Some err ->
      fresh_at (Validate.CACHE_TTL_MS env) (bucket w) (cache_key cc vn)
               (clock w (S (S (reads w)))) payload ->
      exists r w',
        Validate.checkVAT env args w = (Return r, w')
        /\ prop r "valid" = prop payload "valid"
        /\ prop r "name" = prop payload "name"
        /\ prop r "address" = prop payload "address"
        /\ prop r "source" = VStr "cache"
        /\ prop r "cached" = VBool true
        /\ prop r "requestDate"
           = VStr (iso_string (clock w (S (S (S (reads w)))))))
  /\ (forall err key,
         plus_enabled env = true ->
         vies w (countryCode args) (vatNumber args) = Rejected err ->
         LibValidate.cacheKey (countryCode args) (vatNumber args) = Some key ->
         fresh_at (LibValidate.CACHE_TTL_MS env) (bucket w) key
                  (clock w (S (reads w))) payload ->
         exists r w',
           LibValidate.validateVAT env args w = (Return r, w')
           /\ prop r "valid" = prop payload "valid"
           /\ prop r "name" = prop payload "name"
           /\ prop r "address" = prop payload "address"
           /\ prop r "cached" = VBool true
           /\ prop r "source" = prop payload "source"
           /\ prop r "requestDate" = prop payload "requestDate").
Proof.
  intros Hb Hu Htr. split.
  - intros Hcc Hvn err Hf (rec & t & Hrec & Ht & Hfresh & Hpay).
    destruct (checkVAT_on_failure env args cc vn w err Hcc Hvn Hf)
      as (k & d & Hd & ->).
    subst payload.
    erewrite cache_fallback_hit with (rec := rec) (t := t); try assumption.
    + eexists _, _. split; [reflexivity|].
      rewrite !prop_spread by reflexivity. simpl.
      rewrite ?reads_after_put, ?clock_after_put. repeat split; reflexivity.
    + simpl. rewrite s3_up_after_put, requests_after_put, Hb. exact Hu.
    + simpl. now rewrite bucket_after_audit.
    + simpl. now rewrite clock_after_put, reads_after_put.
  - intros err key Hp Hv Hkey Hfr.
    destruct (lib_validateVAT_serves_cache env args w err key payload)
      as (w' & ->); try assumption.
    eexists _, _. split; [reflexivity|].
    rewrite !prop_spread by reflexivity. simpl. repeat split; reflexivity.
Qed.

(** C3 (as amended). When the upstream fails with a message that reads
    [tag] and the cache holds no fresh entry for the normalized pair,
    [checkVAT] of [src/validate.js] returns, without throwing, [valid =
    false], [name = null], [address = null], [source = "error"] and the
    non-empty [error] string ["fallback:"] followed by [tag] (the failure's
    message, or [unavailable]); the stale record it may have read has a
    [cachedAt] that converts. The older [validateVAT] of
    [src/lib/validate.js] returns [valid = false] and the same [error] but
    neither [name], [address] nor [source]. *)
Theorem soft_failure_without_cache
    (env : process_env) (args : vat_args) (cc vn : string) (w : world)
    (err : value) (tag : string) :
  message_of err = Some tag ->
  (Validate.normalize_cc (countryCode args) = Some cc ->
   Validate.normalize_vn (vatNumber args) = Some vn ->
   upstream_failure (vies w (VStr cc) (VStr vn)) = Some err ->
   cache_entry_dated (bucket w) (cache_key cc vn) ->
   (forall p, ~ fresh_at (Validate.CACHE_TTL_MS env) (bucket w)
                  (cache_key cc vn) (clock w (S (S (reads w)))) p) ->
   exists r w',
     Validate.checkVAT env args w = (Return r, w')
     /\ prop r "valid" = VBool false
     /\ prop r "name" = VNull
     /\ prop r "address" = VNull
     /\ prop r "source" = VStr "error"
     /\ prop r "error" = VStr ("fallback:" +:+ tag)
     /\ "fallback:" +:+ tag <> "")
  /\ (plus_enabled env = true ->
      vies w (countryCode args) (vatNumber args) = Rejected err ->
      (forall key p,
          LibValidate.cacheKey (countryCode args) (vatNumber args) = Some key ->
          ~ fresh_at (LibValidate.CACHE_TTL_MS env) (bucket w) key
              (clock w (S (reads w))) p) ->
      exists r w',
        LibValidate.validateVAT env args w = (Return r, w')
        /\ prop r "valid" = VBool false
        /\ prop r "error" = VStr ("fallback:" +:+ tag)
        /\ prop r "name" = VUndefined
        /\ prop r "address" = VUndefined
        /\ prop r "source" = VUndefined).
Proof.
  intros Htag. split.
  - intros Hcc Hvn Hf Hdated Hno.
    destruct (checkVAT_on_failure env args cc vn w err Hcc Hvn Hf)
      as (k & d & Hd & ->).
    destruct (cache_fallback_miss env cc vn
                (lookupId_of cc vn (clock w (reads w))) err
                (called (VStr cc) (VStr vn)
                   (after_put env ("logs/" +:+ k) d (tick (tick w)))) tag Htag)
      as (i & w' & -> & _).
    + unfold cache_entry_dated. simpl bucket. now rewrite bucket_after_audit.
    + intros p (rec & t & Hrec & Ht & Hfr & Hp). apply (Hno p).
      exists rec, t. simpl in Hrec, Hfr.
      rewrite bucket_after_audit in Hrec.
      rewrite clock_after_put, reads_after_put in Hfr. auto.
    + eexists _, _. split; [reflexivity|].
      repeat split; try reflexivity. cbv [fallback_tag String.append]. discriminate.
  - intros Hp Hv Hno.
    destruct (lib_validateVAT_soft_failure env args w err tag Hp Hv Htag Hno)
      as (w' & ->).
    eexists _, _. split; [reflexivity|]. repeat split; reflexivity.
Qed.

(** C7 (as amended). On a successful upstream call, the [requestDate]
    that [checkVAT] of [src/validate.js] returns, and stores in the cache
    entry, is a well-formed ISO-8601 instant: the upstream's instant when
    its timestamp denotes one, the current time otherwise. The older
    [validateVAT] of [src/lib/validate.js] returns the upstream's answer
    as it came, timestamp included; it caches that answer, as it came,
    exactly when its [valid] is a boolean (a bucket being configured and
    the store answering), and leaves the cache as it was otherwise. *)
Theorem request_date_is_normalized
    (env : process_env) (args : vat_args) (cc vn : string) (w : world)
    (res : value) :
  (Validate.normalize_cc (countryCode args) = Some cc ->
   Validate.normalize_vn (vatNumber args) = Some vn ->
   vies w (VStr cc) (VStr vn) = Resolved res -> readable res ->
   exists r w' s,
     Validate.checkVAT env args w = (Return r, w')
     /\ prop r "source" = VStr "vies"
     /\ prop r "requestDate" = VStr s
     /\ is_iso_instant s = true
     /\ s = iso_string
              match upstream_instant (prop res "requestDate") with
              | Some t => t
              | None => clock w (S (S (reads w)))
              end
     /\ (bucket_set env = true -> s3_up w (S (requests w)) = true ->
         exists rec,
           bucket w' !! cache_key cc vn = Some rec
           /\ prop rec "payload" = json r
           /\ prop (prop rec "payload") "requestDate" = VStr s))
  /\ (plus_enabled env = true ->
      vies w (countryCode args) (vatNumber args) = Resolved res ->
      exists w',
        LibValidate.validateVAT env args w = (Return res, w')
        /\ forall key,
             LibValidate.cacheKey (countryCode args) (vatNumber args) = Some key ->
             if LibValidate.is_boolean (opt_member res "valid")
                && bucket_set env && s3_up w (S (requests w))
             then bucket w' !! key
                  = Some (json (VObj [("cachedAt",
                                       VStr (iso_string (clock w (S (reads w)))));
                                      ("payload", res)]))
             else bucket w' !! key = bucket w !! key).
Proof.
  split.
  - intros Hcc Hvn Hv Hr.
    destruct (checkVAT_on_success env args cc vn w res Hcc Hvn Hv Hr)
      as (k & d & Hd & ->).
    rewrite live_vies_ok with (res := res);
      [| now rewrite vies_after_put | exact Hr].
    eexists _, _, _. split; [reflexivity|].
    split; [reflexivity|]. split; [reflexivity|].
    split; [apply iso_string_well_formed|].
    split; [now rewrite clock_after_put, reads_after_put|].
    intros Hb Hu. eexists. split; [|split].
    + apply bucket_after_put_eq; [exact Hb|].
      destruct (upstream_instant (prop res "requestDate")); simpl;
        rewrite requests_after_put, Hb, s3_up_after_put; exact Hu.
    + apply cache_record_payload.
    + rewrite cache_record_payload. unfold vies_result. rewrite json_obj.
      unfold prop. rewrite !assoc_json_fields_ne by discriminate.
      reflexivity.
  - intros Hp Hv. now apply lib_validateVAT_success.
Qed.

(** C9 (as amended). When [countryCode] or [vatNumber] is [undefined] or
    [null] and the other one converts to a string, [checkVAT] returns: the
    missing value is the empty string in the normalized pair, in the cache
    key and in the one call made to the upstream, whose arguments are
    strings. The message of the failure it may recover from and the
    [cachedAt] of the cache record it may read convert; the result is well
    formed when that record carries the payload fields. *)
Theorem checkVAT_total_on_missing_inputs
    (env : process_env) (args : vat_args) (cc vn : string) (w : world) :
  nullish (countryCode args) \/ nullish (vatNumber args) ->
  Validate.normalize_cc (countryCode args) = Some cc ->
  Validate.normalize_vn (vatNumber args) = Some vn ->
  (forall err, upstream_failure (vies w (VStr cc) (VStr vn)) = Some err ->
               describable err = true) ->
  cache_entry_dated (bucket w) (cache_key cc vn) ->
  (nullish (countryCode args) -> cc = "")
  /\ (nullish (vatNumber args) -> vn = "")
  /\ (nullish (countryCode args) ->
      to_string (or_else (countryCode args) (VStr "")) = Some "")
  /\ (nullish (vatNumber args) ->
      to_string (or_else (vatNumber args) (VStr "")) = Some "")
  /\ (forall s1 s2,
         to_string (or_else (countryCode args) (VStr "")) = Some s1 ->
         to_string (or_else (vatNumber args) (VStr "")) = Some s2 ->
         Validate.cacheKey (countryCode args) (vatNumber args)
         = Validate.cacheKey (VStr s1) (VStr s2))
  /\ exists r w',
       Validate.checkVAT env args w = (Return r, w')
       /\ upstream_log w' = (upstream_log w ++ [(VStr cc, VStr vn)])%list
       /\ (cache_entry_ok (bucket w) (cache_key cc vn) ->
           well_formed_result r = true).
Proof.
  intros _ Hcc Hvn Hdesc Hdated.
  split; [intros H; rewrite (checkVAT_nullish_country _ H) in Hcc; congruence|].
  split; [intros H; rewrite (checkVAT_nullish_number _ H) in Hvn; congruence|].
  split; [intros [-> | ->]; reflexivity|].
  split; [intros [-> | ->]; reflexivity|].
  split.
  - intros s1 s2 H1 H2. unfold Validate.cacheKey.
    now rewrite H1, H2, !to_string_or_empty.
  - now apply checkVAT_total.
Qed.

End ValidationClaims.

Section CacheClaims.
Context {host : Host}.

(** C6. A cache entry is fresh exactly when [now - cachedAt < TTL], the
    clock being read when the entry is read: an entry written at [t0] is
    returned when read at [t0 + TTL - 1] and treated as absent when read at
    [t0 + TTL + 1], in [src/validate.js] and in [src/lib/validate.js]
    alike. An entry exists only under a key: for a pair that [cacheKey]
    cannot convert to a string nothing is written. *)
Theorem cache_entry_fresh_strictly_within_ttl
    (env : process_env) (cc vn payload : value) (w w2 : world) :
  let t0 := clock w (reads w) in
  let now := clock w2 (reads w2) in
  bucket_set env = true ->
  s3_up w (requests w) = true ->
  s3_up w2 (requests w2) = true ->
  Date_parse (iso_string t0) = Some t0 ->
  valid_time t0 = true ->
  (Validate.cacheKey cc vn <> None ->
   bucket w2 = bucket (snd (Validate.setCached env cc vn payload w)) ->
   let r := fst (Validate.getCached env cc vn w2) in
   r = Return (if now - t0 <? Validate.CACHE_TTL_MS env
               then json payload else VNull)
   /\ (now = t0 + Validate.CACHE_TTL_MS env - 1 -> r = Return (json payload))
   /\ (now = t0 + Validate.CACHE_TTL_MS env + 1 -> r = Return VNull))
  /\ (LibValidate.cacheKey cc vn <> None ->
      bucket w2 = bucket (snd (LibValidate.setCached env cc vn payload w)) ->
      let r := fst (LibValidate.getCached env cc vn w2) in
      r = Return (if now - t0 <? LibValidate.CACHE_TTL_MS env
                  then json payload else VNull)
      /\ (now = t0 + LibValidate.CACHE_TTL_MS env - 1 -> r = Return (json payload))
      /\ (now = t0 + LibValidate.CACHE_TTL_MS env + 1 -> r = Return VNull)).
Proof.
  intros t0 now Hb Hu Hu2 Hparse Hvalid.
  assert (forall TTL : Z,
             let r := Return (if now - t0 <? TTL then json payload else VNull) in
             (now = t0 + TTL - 1 -> r = Return (json payload))
             /\ (now = t0 + TTL + 1 -> r = Return VNull)) as Hedge.
  { intros TTL r. subst r. split; intros ->.
    - now replace (t0 + TTL - 1 - t0 <? TTL) with true
        by (symmetry; apply Z.ltb_lt; lia).
    - now replace (t0 + TTL + 1 - t0 <? TTL) with false
        by (symmetry; apply Z.ltb_ge; lia). }
  split; intros Hsome Hbk r.
  - destruct (Validate.cacheKey cc vn) as [key|] eqn:Hkey; [|congruence].
    assert (r = Return (if now - t0 <? Validate.CACHE_TTL_MS env
                        then json payload else VNull)) as Hr.
    { subst r. rewrite (setCached_eq env cc vn key) in Hbk by assumption.
      simpl in Hbk.
      destruct (cache_record_object (iso_string t0) payload) as [f Hf].
      erewrite getCached_record with (f := f) (t := Some t0) (key := key);
        try assumption.
      - now rewrite <- Hf, cache_record_payload.
      - rewrite Hbk, bucket_after_put_eq by assumption. now f_equal.
      - rewrite <- Hf, cache_record_cachedAt. now apply new_Date_iso. }
    rewrite Hr. split; [reflexivity | apply Hedge].
  - destruct (LibValidate.cacheKey cc vn) as [key|] eqn:Hkey; [|congruence].
    assert (r = Return (if now - t0 <? LibValidate.CACHE_TTL_MS env
                        then json payload else VNull)) as Hr.
    { subst r. rewrite (lib_setCached_eq env cc vn key) in Hbk by assumption.
      simpl in Hbk.
      destruct (cache_record_object (iso_string t0) payload) as [f Hf].
      erewrite lib_getCached_record with (f := f) (t := Some t0) (key := key);
        try assumption.
      - now rewrite <- Hf, cache_record_payload.
      - rewrite Hbk, bucket_after_put_eq by assumption. now f_equal.
      - rewrite <- Hf, cache_record_cachedAt. now apply new_Date_iso. }
    rewrite Hr. split; [reflexivity | apply Hedge].
Qed.

End CacheClaims.

Section MeterClaims.
Context {host : Host}.

(** C4 (as amended). In a fresh window, against a store that answers, for
    an API key and a VAT number that convert to strings and a limit [L] of
    at most 2^53, the meter of [src/meter.js] admits requests 1 to [L] of
    the key with [remaining] [L - 1], ..., [0] and denies every later one
    with [reason = "rate_limit_exceeded"] and [remaining = 0]. The older
    meter of [src/lib/meter.js] admits and denies the same requests, but
    its decisions carry no [remaining]. Without [VATFIX_RPS_LIMIT] the
    limit is 120 in [src/meter.js] and 60 in [src/lib/meter.js]. *)
Theorem meter_admits_up_to_limit
    (env : process_env) (args : meter_args) (k : string) (w : world)
    (W0 : Z) (n : nat) :
  let request := Z.of_nat (S n) in
  bucket_set env = true ->
  to_string (apiKey args) = Some k ->
  (forall i, s3_up w i = true) ->
  request <= two53 ->
  (truthy (apiKey args) = true ->
   printable (or_else (m_vatNumber args) (VStr "unknown")) = true ->
   Meter.LIMIT env <= two53 ->
   valid_time W0 = true ->
   (forall i, Meter.window_of env (clock w i) = W0) ->
   bucket w !! meter_key k W0 = None ->
   fst (Meter.meterAndCheck env args
          (after_calls (Meter.meterAndCheck env args) n w))
   = Return (if request <=? Meter.LIMIT env
             then admitted (Meter.LIMIT env - request) else denied))
  /\ (printable (m_vatNumber args) = true ->
      (forall i, LibMeter.window_of env (clock w i) = W0) ->
      bucket w !! legacy_meter_key k W0 = None ->
      fst (LibMeter.meterAndCheck env args
             (after_calls (LibMeter.meterAndCheck env args) n w))
      = Return (if request <=? LibMeter.LIMIT env
                then legacy_admitted else legacy_denied))
  /\ (env_VATFIX_RPS_LIMIT env = None ->
      Meter.LIMIT env = 120 /\ LibMeter.LIMIT env = 60).
Proof.
  intros request Hb Hstr Hup Hreq.
  assert (- two53 <= 0) as Hlo by (unfold two53; lia).
  assert (0 + Z.of_nat n < two53) as Hhi by (subst request; lia).
  split; [|split].
  - intros Hk Hpr HL Hv Hwin Hfresh.
    destruct (meterAndCheck_run env args k w W0 0 n) as (_ & -> & _);
      try assumption.
    { left. now split. }
    fold request. rewrite !Z.add_0_l. unfold meter_decision. rewrite Hpr.
    destruct (Z.gtb_spec request (Meter.LIMIT env)),
             (Z.leb_spec request (Meter.LIMIT env)); try lia; [reflexivity|].
    rewrite double_exact by (subst request; lia).
    now rewrite Z.max_r by lia.
  - intros Hpr Hwin Hfresh.
    destruct (lib_meterAndCheck_run env args k w W0 0 n) as (_ & -> & _);
      try assumption.
    { left. now split. }
    fold request. rewrite !Z.add_0_l. unfold legacy_meter_outcome. rewrite Hpr.
    destruct (Z.gtb_spec request (LibMeter.LIMIT env)),
             (Z.leb_spec request (LibMeter.LIMIT env)); try lia; reflexivity.
  - intros Hnone. unfold Meter.LIMIT, LibMeter.LIMIT. rewrite Hnone.
    split; reflexivity.
Qed.

(** C5 (as amended). Without a configured bucket, or without an API key,
    the meter of [src/meter.js] returns [allowed: true] at once. Against a
    store that never answers it admits every request, however many came
    before, when the limit is at least 1; and no store error ever leaves
    [meterAndCheck], for an API key that converts to a string. The older
    meter of [src/lib/meter.js] fails open without a bucket; it has no test
    for the API key, and counts and limits the requests that come without
    one. *)
Theorem meter_fails_open
    (env : process_env) (args : meter_args) (w : world) :
  (bucket_set env = false \/ truthy (apiKey args) = false ->
   Meter.meterAndCheck env args w = (Return fail_open, w)
   /\ prop fail_open "allowed" = VBool true)
  /\ (bucket_set env = false ->
      LibMeter.meterAndCheck env args w = (Return legacy_admitted, w)
      /\ prop legacy_admitted "allowed" = VBool true)
  /\ (bucket_set env = true -> truthy (apiKey args) = true ->
      printable (apiKey args) = true ->
      1 <= Meter.LIMIT env ->
      (forall i, valid_time (Meter.window_of env (clock w i)) = true) ->
      (forall i, s3_up w i = false) ->
      forall n, exists r,
        fst (Meter.meterAndCheck env args
               (after_calls (Meter.meterAndCheck env args) n w)) = Return r
        /\ prop r "allowed" = VBool true)
  /\ (valid_time (Meter.window_of env (clock w (reads w))) = true ->
      printable (apiKey args) = true ->
      exists r w', Meter.meterAndCheck env args w = (Return r, w'))
  /\ (bucket_set env = true ->
      apiKey args = VUndefined ->
      printable (m_vatNumber args) = true ->
      (forall i, s3_up w i = true) ->
      forall W0 n,
        (forall i, LibMeter.window_of env (clock w i) = W0) ->
        bucket w !! legacy_meter_key "undefined" W0 = None ->
        Z.of_nat (S n) <= two53 ->
        fst (LibMeter.meterAndCheck env args
               (after_calls (LibMeter.meterAndCheck env args) n w))
        = Return (if Z.of_nat (S n) <=? LibMeter.LIMIT env
                  then legacy_admitted else legacy_denied)).
Proof.
  split; [|split; [|split; [|split]]].
  - intros H. split; [now apply meterAndCheck_unmetered | reflexivity].
  - intros H. split; [now apply lib_meterAndCheck_unmetered | reflexivity].
  - intros Hb Hk Hpr HL Hv Hdown n.
    assert (clock (after_calls (Meter.meterAndCheck env args) n w) = clock w
            /\ s3_up (after_calls (Meter.meterAndCheck env args) n w) = s3_up w)
      as [Hclk Hs3].
    { apply (after_calls_invariant (Meter.meterAndCheck env args)
               (fun _ w0 => clock w0 = clock w /\ s3_up w0 = s3_up w));
        [now split|].
      intros _ w0 [Hc0 Hs0].
      destruct (meterAndCheck_unreachable env args w0) as (w' & -> & _ & H1 & H2);
        rewrite ?Hc0, ?Hs0; auto.
      simpl. split; congruence. }
    destruct (meterAndCheck_unreachable env args
                (after_calls (Meter.meterAndCheck env args) n w))
      as (w' & -> & _); rewrite ?Hclk, ?Hs3; auto.
    eexists. split; [reflexivity|]. unfold meter_decision.
    destruct (Z.gtb_spec 1 (Meter.LIMIT env)); [lia|].
    destruct (printable (or_else _ _)); reflexivity.
  - apply meterAndCheck_returns.
  - intros Hb Hkey Hpr Hup W0 n Hwin Hfresh Hreq.
    assert (- two53 <= 0) as Hlo by (unfold two53; lia).
    destruct (lib_meterAndCheck_run env args "undefined" w W0 0 n)
      as (_ & -> & _); try assumption; try lia.
    { now rewrite Hkey. }
    { left. now split. }
    rewrite !Z.add_0_l. unfold legacy_meter_outcome. rewrite Hpr.
    destruct (Z.gtb_spec (Z.of_nat (S n)) (LibMeter.LIMIT env)),
             (Z.leb_spec (Z.of_nat (S n)) (LibMeter.LIMIT env)); try lia;
      reflexivity.
Qed.

(** C10 (as amended). For sequential requests of one key inside one
    window against a store that answers, the persisted count grows by
    exactly one with every request, denied ones included, as long as it
    stays below 2^53: after [n] requests it stands [n] higher, also beyond
    the limit. This holds for [src/meter.js] and for [src/lib/meter.js],
    for an API key that converts to a string. *)
Theorem meter_count_grows_by_one
    (env : process_env) (args : meter_args) (k : string) (w : world)
    (W0 c0 : Z) (n : nat) :
  bucket_set env = true ->
  to_string (apiKey args) = Some k ->
  (forall i, s3_up w i = true) ->
  - two53 <= c0 ->
  c0 + Z.of_nat n < two53 ->
  (truthy (apiKey args) = true ->
   valid_time W0 = true ->
   (forall i, Meter.window_of env (clock w i) = W0) ->
   counter_at (bucket w) (meter_key k W0) c0 ->
   let wn := after_calls (Meter.meterAndCheck env args) n w in
   counter_at (bucket wn) (meter_key k W0) (c0 + Z.of_nat n)
   /\ counter_at (bucket (snd (Meter.meterAndCheck env args wn)))
        (meter_key k W0) (c0 + Z.of_nat n + 1)
   /\ (c0 + Z.of_nat n + 1 > Meter.LIMIT env ->
       fst (Meter.meterAndCheck env args wn) = Return denied))
  /\ ((forall i, LibMeter.window_of env (clock w i) = W0) ->
      counter_at (bucket w) (legacy_meter_key k W0) c0 ->
      let wn := after_calls (LibMeter.meterAndCheck env args) n w in
      counter_at (bucket wn) (legacy_meter_key k W0) (c0 + Z.of_nat n)
      /\ counter_at (bucket (snd (LibMeter.meterAndCheck env args wn)))
           (legacy_meter_key k W0) (c0 + Z.of_nat n + 1)
      /\ (c0 + Z.of_nat n + 1 > LibMeter.LIMIT env ->
          fst (LibMeter.meterAndCheck env args wn) = Return legacy_denied)).
Proof.
  intros Hb Hstr Hup Hlo Hhi. split.
  - intros Hk Hv Hwin Hstart wn.
    destruct (meterAndCheck_run env args k w W0 c0 n) as (Hn & Hr & HSn);
      try assumption.
    fold wn in Hn, Hr, HSn.
    replace (c0 + Z.of_nat (S n)) with (c0 + Z.of_nat n + 1) in HSn, Hr by lia.
    repeat split; [exact Hn | exact HSn |].
    intros Hgt. rewrite Hr. unfold meter_decision.
    now replace (c0 + Z.of_nat n + 1 >? Meter.LIMIT env) with true
      by (symmetry; apply Z.gtb_gt; lia).
  - intros Hwin Hstart wn.
    destruct (lib_meterAndCheck_run env args k w W0 c0 n) as (Hn & Hr & HSn);
      try assumption.
    fold wn in Hn, Hr, HSn.
    replace (c0 + Z.of_nat (S n)) with (c0 + Z.of_nat n + 1) in HSn, Hr by lia.
    repeat split; [exact Hn | exact HSn |].
    intros Hgt. rewrite Hr. unfold legacy_meter_outcome.
    now replace (c0 + Z.of_nat n + 1 >? LibMeter.LIMIT env) with true
      by (symmetry; apply Z.gtb_gt; lia).
Qed.

End MeterClaims.

(** ** Counterexamples to the claims as first stated *)

(** C1 as stated fails on the legacy path of [src/lib/validate.js]:
    without [VATFIX_PLUS=1] a timeout of the upstream is thrown to the
    caller. *)
Lemma legacy_path_lets_failure_through :
  plus_enabled legacy_env = false
  /\ fst (LibValidate.validateVAT (host := example_host) legacy_env de_args
            outage_world) = Throw timeout_error
  /\ ~ exists r w',
         LibValidate.validateVAT (host := example_host) legacy_env de_args
           outage_world = (Return r, w').
Proof.
  split; [reflexivity|]. split; [vm_compute; reflexivity|].
  intros (r & w' & H). apply (f_equal fst) in H. vm_compute in H. discriminate H.
Qed.

(** C2 as stated fails in [src/lib/validate.js]: with the upstream down and
    a fresh entry cached, the result has [cached = true] but no [source],
    and its [requestDate] is the cached one. *)
Lemma legacy_cache_hit_is_not_restamped :
  vies cached_world (countryCode de_args) (vatNumber de_args)
  = Rejected timeout_error
  /\ LibValidate.cacheKey (host := example_host)
       (countryCode de_args) (vatNumber de_args)
     = Some "cache/DE_12345678912.json"
  /\ fresh_at (host := example_host) (LibValidate.CACHE_TTL_MS plus_env)
       (bucket cached_world) "cache/DE_12345678912.json"
       (clock cached_world 1) vies_answer
  /\ exists r,
       fst (LibValidate.validateVAT (host := example_host) plus_env de_args
              cached_world) = Return r
       /\ prop r "cached" = VBool true
       /\ prop r "source" <> VStr "cache"
       /\ prop r "requestDate" = VStr "2025-08-11+02:00".
Proof.
  split; [reflexivity|]. split; [reflexivity|]. split.
  - eexists _, 1754924717000. split; [vm_compute; reflexivity|].
    split; [vm_compute; reflexivity|]. split; [vm_compute; reflexivity | reflexivity].
  - eexists. split; [vm_compute; reflexivity|].
    split; [reflexivity|]. split; [discriminate | reflexivity].
Qed.

(** C3 as stated fails in [src/lib/validate.js]: its soft failure has
    neither [name = null] nor [source = "error"]. In [src/validate.js] a
    cache record whose [cachedAt] is no string holds no fresh entry, and
    reading it in the [catch] block throws. *)
Lemma legacy_soft_failure_has_four_fields :
  vies outage_world (countryCode de_args) (vatNumber de_args)
  = Rejected timeout_error
  /\ bucket outage_world = ∅
  /\ (exists r,
       fst (LibValidate.validateVAT (host := example_host) plus_env de_args
              outage_world) = Return r
       /\ prop r "valid" = VBool false
       /\ prop r "name" <> VNull
       /\ prop r "address" <> VNull
       /\ prop r "source" <> VStr "error")
  /\ new_Date (host := example_host) unconvertible = None
  /\ exists e,
       fst (Validate.checkVAT (host := example_host) plus_env de_args
              undated_cache_world) = Throw e.
Proof.
  split; [reflexivity|]. split; [reflexivity|]. split.
  { eexists. split; [vm_compute; reflexivity|].
    split; [reflexivity|]. repeat split; discriminate. }
  split; [reflexivity|]. eexists. vm_compute. reflexivity.
Qed.

(** C4 as stated fails in [src/lib/meter.js]: the first request of a fresh
    window is admitted without any [remaining], and the default limit is
    60. In [src/meter.js] a request whose VAT number is no string is
    admitted without [remaining] as well, and under a limit of 2^60 the
    first request leaves 2^60 requests, not one less. *)
Lemma legacy_meter_reports_no_remaining :
  bucket outage_world = ∅
  /\ (exists r,
       fst (LibMeter.meterAndCheck (host := example_host) plus_env key_args
              outage_world) = Return r
       /\ prop r "allowed" = VBool true
       /\ prop r "remaining" <> VNum (LibMeter.LIMIT plus_env - 1))
  /\ LibMeter.LIMIT plus_env = 60
  /\ (exists r,
       fst (Meter.meterAndCheck (host := example_host) limit5_env
              odd_number_meter_args outage_world) = Return r
       /\ prop r "allowed" = VBool true
       /\ prop r "remaining" = VUndefined)
  /\ Meter.LIMIT huge_limit_env = 2 ^ 60
  /\ fst (Meter.meterAndCheck (host := example_host) huge_limit_env key_args
            outage_world) = Return (admitted (2 ^ 60)).
Proof.
  split; [reflexivity|]. split.
  { eexists. split; [vm_compute; reflexivity|].
    split; [reflexivity | discriminate]. }
  split; [reflexivity|]. split.
  { eexists. split; [vm_compute; reflexivity|]. split; reflexivity. }
  split; [reflexivity | vm_compute; reflexivity].
Qed.

(** C5 as stated fails in [src/lib/meter.js], which cites no API key: the
    sixth request without a key in a window is denied under a limit of
    five. It fails in [src/meter.js] under a limit below 1, where an
    unreachable store has the first request denied; and there an API key
    that is no string is a TypeError of [meterAndCheck]. *)
Lemma legacy_meter_limits_keyless_requests :
  truthy (apiKey keyless_args) = false
  /\ fst (LibMeter.meterAndCheck (host := example_host) limit5_env keyless_args
            (after_calls (LibMeter.meterAndCheck (host := example_host)
                            limit5_env keyless_args) 5 outage_world))
     = Return legacy_denied
  /\ prop legacy_denied "allowed" = VBool false
  /\ Meter.LIMIT negative_limit_env = -1
  /\ fst (Meter.meterAndCheck (host := example_host) negative_limit_env
            key_args unreachable_world) = Return denied
  /\ exists e,
       fst (Meter.meterAndCheck (host := example_host) plus_env
              odd_key_meter_args unreachable_world) = Throw e.
Proof.
  split; [reflexivity|]. split; [vm_compute; reflexivity|].
  split; [reflexivity|]. split; [reflexivity|].
  split; [vm_compute; reflexivity|].
  eexists. vm_compute. reflexivity.
Qed.

(** C7 as stated fails in [src/lib/validate.js]: the upstream's timestamp
    ["2025-08-11+02:00"], which is no ISO-8601 instant, reaches the
    caller. *)
Lemma legacy_returns_upstream_timestamp :
  vies live_world (countryCode de_args) (vatNumber de_args)
  = Resolved vies_answer
  /\ exists r,
       fst (LibValidate.validateVAT (host := example_host) plus_env de_args
              live_world) = Return r
       /\ prop r "requestDate" = VStr "2025-08-11+02:00"
       /\ is_iso_instant "2025-08-11+02:00" = false.
Proof.
  split; [reflexivity|].
  eexists. split; [vm_compute; reflexivity|]. split; reflexivity.
Qed.

(** C9 as stated fails: with no country code and a VAT number that is no
    string, [checkVAT] throws; and with no country code, the upstream down
    and a fresh cache record whose payload has only [valid], the result it
    returns lacks declared fields. *)
Lemma missing_input_may_throw_or_lack_fields :
  nullish (countryCode odd_number_args)
  /\ (exists e,
        fst (Validate.checkVAT (host := example_host) plus_env odd_number_args
               outage_world) = Throw e)
  /\ nullish (countryCode no_country_args)
  /\ exists r,
       fst (Validate.checkVAT (host := example_host) plus_env no_country_args
              sparse_cache_world) = Return r
       /\ well_formed_result r = false
       /\ prop r "name" = VUndefined.
Proof.
  split; [left; reflexivity|]. split.
  { eexists. vm_compute. reflexivity. }
  split; [left; reflexivity|].
  eexists. split; [vm_compute; reflexivity|]. split; reflexivity.
Qed.

(** C10 as stated fails at 2^53: numbers are doubles, 2^53 + 1 is 2^53
    again, and a counter that stands there is written back unchanged by
    either meter. *)
Lemma counter_stands_still_at_two53 :
  counter_at (bucket saturated_world) (meter_key "sk_live_1" example_window)
    two53
  /\ counter_at
       (bucket (snd (Meter.meterAndCheck (host := example_host) plus_env
                       key_args saturated_world)))
       (meter_key "sk_live_1" example_window) two53
  /\ counter_at (bucket saturated_world)
       (legacy_meter_key "sk_live_1" example_window) two53
  /\ counter_at
       (bucket (snd (LibMeter.meterAndCheck (host := example_host) plus_env
                       key_args saturated_world)))
       (legacy_meter_key "sk_live_1" example_window) two53
  /\ two53 + 1 <> two53.
Proof.
  split; [right; eexists; split; [vm_compute; reflexivity | reflexivity]|].
  split; [right; eexists; split; [vm_compute; reflexivity | reflexivity]|].
  split; [right; eexists; split; [vm_compute; reflexivity | reflexivity]|].
  split; [right; eexists; split; [vm_compute; reflexivity | reflexivity]|].
  discriminate.
Qed.

(** ** The claims at concrete inputs *)

Lemma empty_bucket_cache_entry_ok key :
  cache_entry_ok ∅ key.
Proof. intros rec H. rewrite lookup_empty in H. discriminate H. Defined.

Lemma empty_bucket_cache_entry_dated key :
  cache_entry_dated (host := example_host) ∅ key.
Proof. intros rec H. rewrite lookup_empty in H. discriminate H. Defined.

Lemma empty_bucket_has_no_fresh_entry TTL key now p :
  ~ fresh_at (host := example_host) TTL ∅ key now p.
Proof. intros (rec & t & H & _). rewrite lookup_empty in H. discriminate H. Defined.

Lemma timeout_is_describable (err : value) :
  upstream_failure (Rejected timeout_error) = Some err ->
  describable (host := example_host) err = true.
Proof. intros [= <-]. reflexivity. Defined.

Lemma validation_never_throws_by_design_witness :
  (exists r w',
      Validate.checkVAT (host := example_host) plus_env de_args outage_world
      = (Return r, w')
      /\ well_formed_result r = true)
  /\ (exists r w',
        LibValidate.validateVAT (host := example_host) plus_env de_args
          outage_world = (Return r, w'))
  /\ exists w',
       LibValidate.validateVAT (host := example_host) legacy_env de_args
         outage_world = (Throw timeout_error, w').
Proof.
  split; [|split].
  - destruct (validation_never_throws_by_design (host := example_host)
                plus_env de_args outage_world)
      as (H & _).
    destruct (H "DE" "12345678912" eq_refl eq_refl
                timeout_is_describable
                (empty_bucket_cache_entry_dated _))
      as (r & w' & H1 & _ & H2).
    exists r, w'. split; [exact H1|].
    apply H2, empty_bucket_cache_entry_ok.
  - destruct (validation_never_throws_by_design (host := example_host)
                plus_env de_args outage_world)
      as (_ & _ & _ & H & _).
    apply H; [reflexivity|]. intros e [= <-]. reflexivity.
  - destruct (validation_never_throws_by_design (host := example_host)
                legacy_env de_args outage_world)
      as (_ & _ & _ & _ & H).
    apply H; reflexivity.
Defined.

Lemma cache_fallback_serves_payload_witness :
  exists r w',
    Validate.checkVAT (host := example_host) plus_env de_args cached_world
    = (Return r, w')
    /\ prop r "valid" = VBool true
    /\ prop r "name" = VStr "MUSTERFIRMA GMBH"
    /\ prop r "address" = VStr "MUSTERSTRASSE 1"
    /\ prop r "source" = VStr "cache"
    /\ prop r "cached" = VBool true
    /\ prop r "requestDate" = VStr "2025-08-11T15:05:18.000Z".
Proof.
  destruct (cache_fallback_serves_payload (host := example_host)
              plus_env de_args "DE" "12345678912" cached_world vies_answer)
    as (H & _); try reflexivity.
  apply (H eq_refl eq_refl timeout_error); [reflexivity|].
  eexists _, 1754924717000. split; [vm_compute; reflexivity|].
  split; [vm_compute; reflexivity|].
  split; [vm_compute; reflexivity | reflexivity].
Defined.

Lemma soft_failure_without_cache_witness :
  exists r w',
    Validate.checkVAT (host := example_host) plus_env de_args outage_world
    = (Return r, w')
    /\ prop r "valid" = VBool false
    /\ prop r "name" = VNull
    /\ prop r "address" = VNull
    /\ prop r "source" = VStr "error"
    /\ prop r "error" = VStr "fallback:ETIMEDOUT"
    /\ "fallback:ETIMEDOUT" <> "".
Proof.
  destruct (soft_failure_without_cache (host := example_host)
              plus_env de_args "DE" "12345678912" outage_world timeout_error
              "ETIMEDOUT" eq_refl) as (H & _).
  apply H; try reflexivity.
  - apply empty_bucket_cache_entry_dated.
  - intros p. apply empty_bucket_has_no_fresh_entry.
Defined.

Lemma request_date_is_normalized_witness :
  exists r w' s,
    Validate.checkVAT (host := example_host) plus_env de_args live_world
    = (Return r, w')
    /\ prop r "source" = VStr "vies"
    /\ prop r "requestDate" = VStr s
    /\ is_iso_instant s = true
    /\ s = "2025-08-11T15:05:18.000Z".
Proof.
  destruct (request_date_is_normalized (host := example_host)
              plus_env de_args "DE" "12345678912" live_world vies_answer)
    as (H & _).
  destruct H as (r & w' & s & H1 & H2 & H3 & H4 & H5 & _);
    [reflexivity | reflexivity | reflexivity | split; discriminate |].
  exists r, w', s. repeat split; assumption.
Defined.

Lemma checkVAT_total_on_missing_inputs_witness :
  Validate.normalize_cc (host := example_host) (countryCode no_country_args)
  = Some ""
  /\ exists r w',
       Validate.checkVAT (host := example_host) plus_env no_country_args
         outage_world = (Return r, w')
       /\ upstream_log w' = [(VStr "", VStr "12345678912")]
       /\ well_formed_result r = true.
Proof.
  destruct (checkVAT_total_on_missing_inputs (host := example_host)
              plus_env no_country_args "" "12345678912" outage_world)
    as (_ & _ & _ & _ & _ & r & w' & H2 & H3 & H4).
  - left. left. reflexivity.
  - reflexivity.
  - reflexivity.
  - intros err [= <-]. reflexivity.
  - apply empty_bucket_cache_entry_dated.
  - split; [reflexivity|].
    exists r, w'. split; [exact H2|]. split; [exact H3|].
    apply H4, empty_bucket_cache_entry_ok.
Defined.

Lemma cache_entry_fresh_strictly_within_ttl_witness :
  fst (Validate.getCached (host := example_host) plus_env
         (VStr "DE") (VStr "12345678912")
         (cached_world_at (1754924717000 + 43200000 - 1)))
  = Return vies_answer
  /\ fst (Validate.getCached (host := example_host) plus_env
            (VStr "DE") (VStr "12345678912")
            (cached_world_at (1754924717000 + 43200000 + 1)))
     = Return VNull
  /\ fst (LibValidate.getCached (host := example_host) plus_env
            (VStr "DE") (VStr "12345678912")
            (cached_world_at (1754924717000 + 43200000 - 1)))
     = Return vies_answer
  /\ fst (LibValidate.getCached (host := example_host) plus_env
            (VStr "DE") (VStr "12345678912")
            (cached_world_at (1754924717000 + 43200000 + 1)))
     = Return VNull.
Proof.
  destruct (cache_entry_fresh_strictly_within_ttl (host := example_host)
              plus_env (VStr "DE") (VStr "12345678912") vies_answer
              stamping_world (cached_world_at (1754924717000 + 43200000 - 1)))
    as (H1 & H2); try reflexivity.
  destruct (cache_entry_fresh_strictly_within_ttl (host := example_host)
              plus_env (VStr "DE") (VStr "12345678912") vies_answer
              stamping_world (cached_world_at (1754924717000 + 43200000 + 1)))
    as (H3 & H4); try reflexivity.
  destruct H1 as (_ & E1 & _); [discriminate | vm_compute; reflexivity|].
  destruct H3 as (_ & _ & E3); [discriminate | vm_compute; reflexivity|].
  destruct H2 as (_ & E2 & _); [discriminate | vm_compute; reflexivity|].
  destruct H4 as (_ & _ & E4); [discriminate | vm_compute; reflexivity|].
  split; [apply E1; reflexivity|]. split; [apply E3; reflexivity|].
  split; [apply E2; reflexivity | apply E4; reflexivity].
Defined.

Lemma meter_admits_up_to_limit_witness :
  fst (Meter.meterAndCheck (host := example_host) limit5_env key_args
         (after_calls (Meter.meterAndCheck (host := example_host)
                         limit5_env key_args) 4 outage_world))
  = Return (admitted 0)
  /\ fst (Meter.meterAndCheck (host := example_host) limit5_env key_args
            (after_calls (Meter.meterAndCheck (host := example_host)
                            limit5_env key_args) 5 outage_world))
     = Return denied
  /\ fst (LibMeter.meterAndCheck (host := example_host) limit5_env key_args
            (after_calls (LibMeter.meterAndCheck (host := example_host)
                            limit5_env key_args) 5 outage_world))
     = Return legacy_denied.
Proof.
  split; [|split].
  - apply (meter_admits_up_to_limit (host := example_host) limit5_env key_args
             "sk_live_1" outage_world example_window 4);
      try reflexivity; try (intros i; reflexivity); vm_compute; discriminate.
  - apply (meter_admits_up_to_limit (host := example_host) limit5_env key_args
             "sk_live_1" outage_world example_window 5);
      try reflexivity; try (intros i; reflexivity); vm_compute; discriminate.
  - apply (meter_admits_up_to_limit (host := example_host) limit5_env key_args
             "sk_live_1" outage_world example_window 5);
      try reflexivity; try (intros i; reflexivity); vm_compute; discriminate.
Defined.

Lemma meter_fails_open_witness :
  Meter.meterAndCheck (host := example_host) unconfigured_env key_args
    outage_world = (Return fail_open, outage_world)
  /\ LibMeter.meterAndCheck (host := example_host) unconfigured_env key_args
       outage_world = (Return legacy_admitted, outage_world)
  /\ exists r,
       fst (Meter.meterAndCheck (host := example_host) plus_env key_args
              (after_calls (Meter.meterAndCheck (host := example_host)
                              plus_env key_args) 200 unreachable_world))
       = Return r
       /\ prop r "allowed" = VBool true.
Proof.
  split; [|split].
  - apply (meter_fails_open (host := example_host) unconfigured_env key_args
             outage_world). left. reflexivity.
  - apply (meter_fails_open (host := example_host) unconfigured_env key_args
             outage_world). reflexivity.
  - destruct (meter_fails_open (host := example_host) plus_env key_args
                unreachable_world) as (_ & _ & H & _).
    apply H; try reflexivity; [vm_compute; discriminate | intros i; reflexivity..].
Defined.

Lemma meter_count_grows_by_one_witness :
  counter_at
    (bucket (after_calls (Meter.meterAndCheck (host := example_host)
                            limit5_env key_args) 7 outage_world))
    (meter_key "sk_live_1" example_window) 7
  /\ counter_at
       (bucket (after_calls (LibMeter.meterAndCheck (host := example_host)
                               limit5_env key_args) 7 outage_world))
       (legacy_meter_key "sk_live_1" example_window) 7.
Proof.
  assert (- two53 <= 0) as Hlo by (vm_compute; discriminate).
  assert (0 + Z.of_nat 7 < two53) as Hhi by reflexivity.
  destruct (meter_count_grows_by_one (host := example_host) limit5_env key_args
              "sk_live_1" outage_world example_window 0 7 eq_refl eq_refl
              (fun _ => eq_refl) Hlo Hhi)
    as (H1 & H2).
  split.
  - destruct (H1 eq_refl eq_refl (fun _ => eq_refl)
                (or_introl (conj eq_refl eq_refl))) as (E & _).
    exact E.
  - destruct (H2 (fun _ => eq_refl) (or_introl (conj eq_refl eq_refl)))
      as (E & _).
    exact E.
Defined.
